(** * datasetinsights.visualization.plots: bounding-box annotation and
      segmentation decoding

    A shallow embedding of [decode_segmap], [_color_image],
    [_get_label_image], [add] and [plot_bboxes] of
    [src/datasetinsights/visualization/plots.py], with the properties the
    specification states about them.

    Conventions.
    - A Python [str] is represented by the bytes of its UTF-8 encoding
      (a Rocq [string]); [str.encode()] is then the identity on bytes.
      Strings without a UTF-8 encoding (lone surrogates) are not covered.
    - Numbers that numpy computes in float64 are computed in [Q]; the
      rounding of float64 is not modelled.  The floats of a box are
      binary64 numbers, added and multiplied as Python adds and
      multiplies them.
    - OpenCV's rasterisation is not part of the repository: a buffer
      records the primitive writes applied to it, with their arguments.
    - What the libraries decide from data the model does not hold is an
      input ([Env]): the glyph mask of a text, [int] of a str, whether
      OpenCV and Pillow take an array (its dtype and memory layout) and
      the arguments, and the text of a formatted number. *)

From Stdlib Require Import ZArith QArith Lia Ascii.
From Stdlib Require Import Floats.PrimFloat Floats.FloatOps Floats.SpecFloat.
From stdpp Require Import gmap strings list fin_maps.

(** ** hashlib.md5 (RFC 1321), on 32-bit words held in [Z] *)

Module MD5.
Local Open Scope Z_scope.

Definition w32 : Z := 2 ^ 32.
Definition add32 (x y : Z) : Z := (x + y) mod w32.
Definition not32 (x : Z) : Z := Z.lxor x (w32 - 1).
Definition rotl32 (x n : Z) : Z :=
  Z.lor (Z.shiftl x n mod w32) (Z.shiftr x (32 - n)).

Definition F (b c d : Z) := Z.lor (Z.land b c) (Z.land (not32 b) d).
Definition G (b c d : Z) := Z.lor (Z.land b d) (Z.land c (not32 d)).
Definition H (b c d : Z) := Z.lxor (Z.lxor b c) d.
Definition I (b c d : Z) := Z.lxor c (Z.lor b (not32 d)).

(** K[i] = floor (2^32 * |sin (i + 1)|) *)
Definition K : list Z :=
  [ 3614090360; 3905402710; 606105819; 3250441966;
    4118548399; 1200080426; 2821735955; 4249261313;
    1770035416; 2336552879; 4294925233; 2304563134;
    1804603682; 4254626195; 2792965006; 1236535329;
    4129170786; 3225465664; 643717713; 3921069994;
    3593408605; 38016083; 3634488961; 3889429448;
    568446438; 3275163606; 4107603335; 1163531501;
    2850285829; 4243563512; 1735328473; 2368359562;
    4294588738; 2272392833; 1839030562; 4259657740;
    2763975236; 1272893353; 4139469664; 3200236656;
    681279174; 3936430074; 3572445317; 76029189;
    3654602809; 3873151461; 530742520; 3299628645;
    4096336452; 1126891415; 2878612391; 4237533241;
    1700485571; 2399980690; 4293915773; 2240044497;
    1873313359; 4264355552; 2734768916; 1309151649;
    4149444226; 3174756917; 718787259; 3951481745 ].

(** Rotation amounts per round. *)
Definition shifts : list Z :=
  [ 7; 12; 17; 22; 7; 12; 17; 22; 7; 12; 17; 22; 7; 12; 17; 22;
    5; 9; 14; 20; 5; 9; 14; 20; 5; 9; 14; 20; 5; 9; 14; 20;
    4; 11; 16; 23; 4; 11; 16; 23; 4; 11; 16; 23; 4; 11; 16; 23;
    6; 10; 15; 21; 6; 10; 15; 21; 6; 10; 15; 21; 6; 10; 15; 21 ].

Record state := State { sa : Z; sb : Z; sc : Z; sd : Z }.

Definition init : state :=
  State 0x67452301 0xefcdab89 0x98badcfe 0x10325476.

(** Little-endian value of a list of bytes. *)
Fixpoint le_value (bs : list Z) : Z :=
  match bs with
  | [] => 0
  | b :: bs' => b + 256 * le_value bs'
  end.

(** The [n] low bytes of [x], least significant first. *)
Fixpoint le_bytes (n : nat) (x : Z) : list Z :=
  match n with
  | O => []
  | S n' => x mod 256 :: le_bytes n' (x / 256)
  end.

Fixpoint chunks {A} (k : nat) (count : nat) (l : list A) : list (list A) :=
  match count with
  | O => []
  | S c => firstn k l :: chunks k c (skipn k l)
  end.

Definition pad (msg : list Z) : list Z :=
  let len := Z.of_nat (length msg) in
  msg ++ [128] ++ repeat 0 (Z.to_nat ((55 - len) mod 64))
      ++ le_bytes 8 ((8 * len) mod 2 ^ 64).

Definition round (M : list Z) (st : state) (i : nat) : state :=
  let '(State a b c d) := st in
  let zi := Z.of_nat i in
  let '(f, g) :=
    if zi <? 16 then (F b c d, zi)
    else if zi <? 32 then (G b c d, (5 * zi + 1) mod 16)
    else if zi <? 48 then (H b c d, (3 * zi + 5) mod 16)
    else (I b c d, (7 * zi) mod 16) in
  let f' := add32 (add32 (add32 f a) (nth i K 0)) (nth (Z.to_nat g) M 0) in
  State d (add32 b (rotl32 f' (nth i shifts 0))) b c.

Definition block (st : state) (bytes : list Z) : state :=
  let M := map le_value (chunks 4 16 bytes) in
  let '(State a b c d) := fold_left (round M) (seq 0 64) st in
  State (add32 (sa st) a) (add32 (sb st) b)
        (add32 (sc st) c) (add32 (sd st) d).

(** The 16 digest bytes. *)
Definition digest (msg : list Z) : list Z :=
  let p := pad msg in
  let '(State a b c d) :=
    fold_left block (chunks 64 (length p / 64) p) init in
  le_bytes 4 a ++ le_bytes 4 b ++ le_bytes 4 c ++ le_bytes 4 d.
End MD5.

(** ** Python values, exceptions and the builtins [add] relies on *)

Module Py.
Local Open Scope Z_scope.

Inductive pyfloat :=
| FFinite (q : Q)
| FInf (negative : bool)
| FNan.

(** The values that reach [add] as coordinates, label and colour. *)
Inductive pyval :=
| VNone
| VBool (b : bool)
| VInt (z : Z)
| VFloat (f : pyfloat)
| VStr (s : string).

Inductive exn_class :=
  TypeError | ValueError | OverflowError | IndexError | AttributeError
  | Cv2Error.   (* cv2.error *)

(** An exception: its class and, for a [raise] written in plots.py, the
    message given there ([None] for one raised by a builtin or a
    library). *)
Record exn := Exn { cls : exn_class; msg : option string }.

Inductive result (A : Type) :=
| Ret (a : A)
| Raise (e : exn).
Arguments Ret {A} a.
Arguments Raise {A} e.

Definition bind {A B} (r : result A) (k : A -> result B) : result B :=
  match r with
  | Ret a => k a
  | Raise e => Raise e
  end.

(** [bool(v)] *)
Definition truthy (v : pyval) : bool :=
  match v with
  | VNone => false
  | VBool b => b
  | VInt z => negb (z =? 0)
  | VFloat (FFinite q) => negb (Qnum q =? 0)
  | VFloat _ => true
  | VStr s => negb (String.eqb s "")
  end.

(** [type(v) is str] *)
Definition is_str (v : pyval) : bool :=
  match v with VStr _ => true | _ => false end.

(** [s.encode()]: the bytes of the string. *)
Fixpoint bytes_of (s : string) : list Z :=
  match s with
  | EmptyString => []
  | String c s' => Z.of_N (Ascii.N_of_ascii c) :: bytes_of s'
  end.

Definition digit_value (base : Z) (c : Z) : option Z :=
  let v :=
    if (48 <=? c) && (c <=? 57) then c - 48
    else if (97 <=? c) && (c <=? 122) then c - 97 + 10
    else if (65 <=? c) && (c <=? 90) then c - 65 + 10
    else base in
  if v <? base then Some v else None.

Fixpoint digits_value (base : Z) (acc : Z) (cs : list Z) : option Z :=
  match cs with
  | [] => Some acc
  | c :: cs' =>
      match digit_value base c with
      | Some v => digits_value base (acc * base + v) cs'
      | None => None
      end
  end.

(** [int(s, base)] on a string of digits: no sign, no blanks, no
    underscores, at least one digit. *)
Definition int_of_digits (base : Z) (s : string) : result Z :=
  match bytes_of s with
  | [] => Raise (Exn ValueError None)
  | cs => match digits_value base 0 cs with
          | Some n => Ret n
          | None => Raise (Exn ValueError None)
          end
  end.

(** The value of a binary64 float. *)
Definition of_float (f : float) : pyfloat :=
  match Prim2SF f with
  | S754_zero _ => FFinite 0
  | S754_infinity negative => FInf negative
  | S754_nan => FNan
  | S754_finite negative m e =>
      let n := if negative then Z.neg m else Z.pos m in
      FFinite (match e with
               | Z0 => inject_Z n
               | Zpos k => inject_Z (n * 2 ^ Z.pos k)
               | Zneg k => Qmake n (2 ^ k)%positive
               end)
  end.

(** [int(v)].  [int_str s] is the number [int] reads from the str [s],
    [None] when it raises [ValueError]: which strings are numbers
    (blanks around the digits, underscores between them, digits of other
    scripts, the limit on the number of digits) is the interpreter's
    business and an input here. *)
Definition int (int_str : string -> option Z) (v : pyval) : result Z :=
  match v with
  | VNone => Raise (Exn TypeError None)
  | VBool b => Ret (if b then 1 else 0)
  | VInt z => Ret z
  | VFloat (FFinite q) => Ret (Z.quot (Qnum q) (Z.pos (Qden q)))
  | VFloat (FInf _) => Raise (Exn OverflowError None)
  | VFloat FNan => Raise (Exn ValueError None)
  | VStr s =>
      match int_str s with
      | Some n => Ret n
      | None => Raise (Exn ValueError None)
      end
  end.

Definition hex_digit (n : Z) : Ascii.ascii :=
  Ascii.ascii_of_N (Z.to_N (if n <? 10 then 48 + n else 87 + n)).

(** [bytes.hex()]: two lower-case digits per byte. *)
Fixpoint hex (bs : list Z) : string :=
  match bs with
  | [] => EmptyString
  | b :: bs' => String (hex_digit (b / 16)) (String (hex_digit (b mod 16)) (hex bs'))
  end.

(** [seq[i]] on a Python sequence. *)
Definition getitem {A} (l : list A) (i : Z) : result A :=
  let n := Z.of_nat (length l) in
  let j := if i <? 0 then i + n else i in
  if (0 <=? j) && (j <? n) then
    match l !! Z.to_nat j with
    | Some x => Ret x
    | None => Raise (Exn IndexError None)
    end
  else Raise (Exn IndexError None).
(** [md5(data).hexdigest()] *)
Definition md5_hexdigest (data : list Z) : string := hex (MD5.digest data).
End Py.

Import Py.

(** ** numpy: index normalisation, broadcasting, float arrays *)

Module Np.
Local Open Scope Z_scope.

(** How a slice bound [i] is adjusted for an axis of length [n]
    (step 1): a negative bound counts from the end, then the bound is
    clipped to [0, n]. *)
Definition adjust_index (n i : Z) : Z :=
  if i <? 0 then Z.max 0 (i + n) else Z.min n i.

(** Number of elements selected by [start:stop] on an axis of length [n]. *)
Definition slice_len (n : nat) (start stop : Z) : nat :=
  Z.to_nat (adjust_index (Z.of_nat n) stop - adjust_index (Z.of_nat n) start).

(** Whether a value of shape [src] can be assigned to a view of shape
    [dst] of the same rank: each axis agrees or the value's axis is 1. *)
Fixpoint broadcastable (src dst : list nat) : bool :=
  match src, dst with
  | [], [] => true
  | s :: src', d :: dst' =>
      ((s =? d)%nat || (s =? 1)%nat) && broadcastable src' dst'
  | _, _ => false
  end.

(** A float array: its shape and its elements in row-major order. *)
Record ndarray := Ndarray { shape : list nat; data : list Q }.

(** [a.transpose(1, 2, 0)] of the row-major elements of an array of
    shape (d0, d1, d2): element (i1, i2, i0) of the result is element
    (i0, i1, i2) of [a]. *)
Definition transpose_120 (d0 d1 d2 : nat) (a : list Q) : list Q :=
  flat_map
    (fun j => map (fun i0 => nth (i0 * (d1 * d2) + j)%nat a 0%Q) (seq 0 d0))
    (seq 0 (d1 * d2)).
End Np.

(** ** plots.py *)

Module Plots.
Import Np.
Local Open Scope Z_scope.

Definition rgb : Type := Z * Z * Z.

Definition _COLOR_NAME_TO_RGB : list (string * (rgb * rgb)) :=
  [ ("navy", ((0, 38, 63), (119, 193, 250)));
    ("blue", ((0, 120, 210), (173, 220, 252)));
    ("aqua", ((115, 221, 252), (0, 76, 100)));
    ("teal", ((15, 205, 202), (0, 0, 0)));
    ("olive", ((52, 153, 114), (25, 58, 45)));
    ("green", ((0, 204, 84), (15, 64, 31)));
    ("lime", ((1, 255, 127), (0, 102, 53)));
    ("yellow", ((255, 216, 70), (103, 87, 28)));
    ("orange", ((255, 125, 57), (104, 48, 19)));
    ("red", ((255, 47, 65), (131, 0, 17)));
    ("maroon", ((135, 13, 75), (239, 117, 173)));
    ("fuchsia", ((246, 0, 184), (103, 0, 78)));
    ("purple", ((179, 17, 193), (241, 167, 244)));
    ("gray", ((168, 168, 168), (0, 0, 0)));
    ("silver", ((220, 220, 220), (0, 0, 0))) ]%string.

(** [list(_COLOR_NAME_TO_RGB)]: the keys, in insertion order. *)
Definition _COLOR_NAMES : list string := map fst _COLOR_NAME_TO_RGB.

Definition _DEFAULT_COLOR_NAME : string := "green".

(** [_COLOR_NAME_TO_RGB[name]], [None] when [name not in] the table. *)
Fixpoint palette_lookup (tbl : list (string * (rgb * rgb))) (name : string)
  : option (rgb * rgb) :=
  match tbl with
  | [] => None
  | (k, v) :: tbl' => if String.eqb k name then Some v else palette_lookup tbl' name
  end.

(** [", ".join(names)] *)
Fixpoint join (sep : string) (names : list string) : string :=
  match names with
  | [] => ""
  | [s] => s
  | s :: rest => s +:+ sep +:+ join sep rest
  end.

Definition _rgb_to_bgr (color : rgb) : list Z :=
  let '(r, g, b) := color in [r; g; b].

(** The glyph mask returned by [_FONT.getmask(text)]: its size
    (width, height) and its pixels, read through the sequence protocol
    ([len] is width * height, item [i] is the pixel at column
    [i mod width] of row [i / width]). *)
Record ImagingCore := { size : nat * nat; getpixel : nat -> Z }.

(** [_FONT.getmask]: the font renderer, loaded from a file of the
    package, is an input of the model. *)
Definition Font : Type := string -> ImagingCore.

(** [background_color + (font_color - background_color) * image / 255],
    element by element. *)
Definition _color_image (image : list Z) (font_color background_color : Z)
  : list Q :=
  map (fun m => (inject_Z background_color
                 + inject_Z ((font_color - background_color) * m) / inject_Z 255)%Q)
      image.

Definition _get_label_image (font : Font) (text : string)
    (font_color_tuple_bgr background_color_tuple_bgr : list Z)
  : result ndarray :=
  let text_image := font text in
  let '(w, h) := size text_image in
  let bw_image := map (getpixel text_image) (seq 0 (w * h)) in
  let image :=
    map (fun '(font_color, background_color) =>
           _color_image bw_image font_color background_color)
        (zip font_color_tuple_bgr background_color_tuple_bgr) in
  match image with
  | [] => Raise (Exn ValueError None)
  | _ => Ret (Ndarray [h; w; length image]
                      (transpose_120 (length image) h w (concat image)))
  end.

(** A primitive write on an image buffer, with the arguments of the call. *)
Inductive draw_op :=
| Rectangle (pt1 pt2 : Z * Z) (color : list Z) (thickness : Z)
    (* cv2.rectangle(image, pt1, pt2, color, thickness) *)
| SetSlice (rows cols : Z * Z) (value : ndarray).
    (* image[r0:r1, c0:c1, :] = value *)

(** A pixel buffer (numpy array or PIL image): its shape, the contents
    it was created with and the writes applied to it since, oldest
    first. *)
Record buffer := Buffer {
  bshape : list nat;
  base : list Z;
  ops : list draw_op
}.

Definition draw (op : draw_op) (b : buffer) : buffer :=
  Buffer (bshape b) (base b) (ops b ++ [op]).

(** The name of an object of the store. *)
Definition loc : Type := positive.

(** What the module takes from outside.
    - [getmask]: [_FONT.getmask], the font renderer, loaded from a file
      of the package.
    - [int_str]: [int] of a str (see [Py.int]).
    - [cv2_rectangle p op]: what [cv2.rectangle] does when asked for the
      write [op] on the array [p]: [None] when it performs it, the class
      of the exception when it raises (an array whose dtype or layout
      OpenCV does not take, a coordinate outside the C int range).
    - [fromarray p]: the class of the exception [Image.fromarray] raises
      for the array [p], [None] when it builds the image.
    - [format_value], [format_percent]: the text Python's formatting
      produces for a value ([format(v)]) and for a percentage
      ([format(p, " .2f")]). *)
Record Env := {
  getmask : Font;
  int_str : string -> option Z;
  cv2_rectangle : loc -> draw_op -> option exn_class;
  fromarray : loc -> option exn_class;
  format_value : pyval -> string;
  format_percent : float -> string
}.

(** [cv2.rectangle(image, pt1, pt2, color, thickness)] on the array at
    [p], whose buffer is [image]. *)
Definition rectangle (env : Env) (p : loc) (op : draw_op) (image : buffer)
  : result buffer :=
  match cv2_rectangle env p op with
  | None => Ret (draw op image)
  | Some c => Raise (Exn c None)
  end.

(** The coordinates computed for a label of size
    [label_height] x [label_width] (lines 434-455). *)
Record label_box := LabelBox {
  rectangle_left : Z; rectangle_top : Z;
  rectangle_right : Z; rectangle_bottom : Z;
  label_left : Z; label_top : Z;
  label_right : Z; label_bottom : Z
}.

Definition place_label (left top image_width label_height label_width : Z)
  : label_box :=
  let rectangle_height := 1 + label_height in
  let rectangle_width := 1 + label_width in
  let rectangle_bottom := top in
  let rectangle_left := Z.max 0 (Z.min (left - 1) (image_width - rectangle_width)) in
  let rectangle_top := rectangle_bottom - rectangle_height in
  let rectangle_right := rectangle_left + rectangle_width in
  let label_top := rectangle_top + 1 in
  let '(rectangle_top, rectangle_bottom, label_top) :=
    if rectangle_top <? 0
    then (top, top + label_height + 1, top)
    else (rectangle_top, rectangle_bottom, label_top) in
  let label_left := rectangle_left + 1 in
  let label_bottom := label_top + label_height in
  let label_right := label_left + label_width in
  LabelBox rectangle_left rectangle_top rectangle_right rectangle_bottom
           label_left label_top label_right label_bottom.

(** Lines 409-411: the colour derived from a label. *)
Definition auto_color (label : string) : result string :=
  let hex_digest := md5_hexdigest (bytes_of label) in
  bind (int_of_digits 16 hex_digest) (fun n =>
  let color_index := n mod Z.of_nat (length _COLOR_NAME_TO_RGB) in
  getitem _COLOR_NAMES color_index).

(** Line 401: the four conversions, in order. *)
Definition ints (env : Env) (left top right bottom : pyval)
  : result (Z * Z * Z * Z) :=
  let int := int (int_str env) in
  bind (int left) (fun l => bind (int top) (fun t =>
  bind (int right) (fun r => bind (int bottom) (fun b => Ret (l, t, r, b))))).

(** Lines 400-403: a [ValueError] raised by a conversion becomes the
    [TypeError] of line 403, any other exception propagates. *)
Definition int_coordinates (env : Env) (left top right bottom : pyval)
  : result (Z * Z * Z * Z) :=
  match ints env left top right bottom with
  | Ret c => Ret c
  | Raise e =>
      match cls e with
      | ValueError =>
          Raise (Exn TypeError
                     (Some "'left', 'top', 'right' & 'bottom' must be a number"))
      | _ => Raise e
      end
  end.

(** Lines 405-421: label check and colour resolution; returns the
    palette entry of the resolved colour. *)
Definition resolve_color (label color : pyval) : result (string * (rgb * rgb)) :=
  if truthy label && negb (is_str label)
  then Raise (Exn TypeError (Some "'label' must be a str"))
  else
    bind (match label with
          | VStr s => if truthy label && negb (truthy color)
                      then bind (auto_color s) (fun c => Ret (VStr c))
                      else Ret color
          | _ => Ret color
          end) (fun color =>
    match color with
    | VStr name =>
        match palette_lookup _COLOR_NAME_TO_RGB name with
        | Some entry => Ret (name, entry)
        | None =>
            Raise (Exn ValueError
                       (Some ("'color' must be one of "
                              +:+ join ", " _COLOR_NAMES)))
        end
    | _ => Raise (Exn TypeError (Some "'color' must be a str"))
    end).

(** Lines 428-459: the label, drawn on the array at [p], whose buffer
    [image] already carries the outline. *)
Definition add_label (env : Env) (p : loc) (image : buffer) (left top : Z)
    (label : string) (color color_text : list Z) : buffer * result unit :=
  match bshape image with
  | [image_height; image_width; channels] =>
      match _get_label_image (getmask env) label color_text color with
      | Raise e => (image, Raise e)
      | Ret label_image =>
          match shape label_image with
          | [label_height; label_width; _] =>
              let b := place_label left top (Z.of_nat image_width)
                         (Z.of_nat label_height) (Z.of_nat label_width) in
              match rectangle env p
                      (Rectangle (rectangle_left b, rectangle_top b)
                                 (rectangle_right b, rectangle_bottom b)
                                 color (-1)) image with
              | Raise e => (image, Raise e)
              | Ret image =>
                  if broadcastable
                       (shape label_image)
                       [slice_len image_height (label_top b) (label_bottom b);
                        slice_len image_width (label_left b) (label_right b);
                        channels]
                  then (draw (SetSlice (label_top b, label_bottom b)
                                       (label_left b, label_right b)
                                       label_image) image, Ret tt)
                  else (image, Raise (Exn ValueError None))
              end
          | _ => (image, Raise (Exn ValueError None))
          end
      end
  | _ => (image, Raise (Exn ValueError None))
  end.

(** *** Objects with identity *)

Inductive hobj :=
| HNdarray (b : buffer)   (* numpy.ndarray *)
| HImage (b : buffer).    (* PIL.Image.Image *)

(** What a caller can pass as [image]: a plain value or a reference to
    an object of the store. *)
Inductive pyarg :=
| AVal (v : pyval)
| ARef (l : loc).

(** A location no object of the store lives at: one past the largest. *)
Definition fresh_loc (st : gmap loc hobj) : loc :=
  Pos.succ (fold_right Pos.max 1%positive (map fst (map_to_list st))).

(** A new object. *)
Definition alloc (o : hobj) (st : gmap loc hobj) : loc * gmap loc hobj :=
  let l := fresh_loc st in (l, <[l := o]> st).

Definition add (env : Env) (st : gmap loc hobj) (image : pyarg)
    (left top right bottom label color : pyval)
  : gmap loc hobj * result pyarg :=
  match image with
  | ARef p =>
      match st !! p with
      | Some (HNdarray buf) =>
          match int_coordinates env left top right bottom with
          | Raise e => (st, Raise e)
          | Ret (l, t, r, b) =>
              let left := l in let top := t in
              let right := r in let bottom := b in
              match resolve_color label color with
              | Raise e => (st, Raise e)
              | Ret (_, (c, ct)) =>
                  let color := _rgb_to_bgr c in
                  let color_text := _rgb_to_bgr ct in
                  match rectangle env p
                          (Rectangle (left, top) (right, bottom) color 15)
                          buf with
                  | Raise e => (st, Raise e)
                  | Ret buf =>
                      match label with
                      | VStr text =>
                          if truthy label then
                            let '(buf, r) :=
                              add_label env p buf left top text
                                        color color_text in
                            (<[p := HNdarray buf]> st,
                             bind r (fun _ => Ret (AVal VNone)))
                          else (<[p := HNdarray buf]> st, Ret (AVal VNone))
                      | _ => (<[p := HNdarray buf]> st, Ret (AVal VNone))
                      end
                  end
              end
          end
      | _ =>
          (st, Raise (Exn TypeError
                          (Some "'image' parameter must be a numpy.ndarray")))
      end
  | AVal _ =>
      (st, Raise (Exn TypeError
                      (Some "'image' parameter must be a numpy.ndarray")))
  end.

(** *** plot_bboxes *)

(** A box: [x], [y], [w], [h] and [score] are floats, [label] is an
    index into the label table. *)
Record BBox2D := {
  x : float; y : float; w : float; h : float;
  label : Z;
  score : float
}.

Definition format (env : Env) (v : pyval) : string :=
  match v with
  | VStr s => s
  | _ => format_value env v
  end.

Definition number (f : float) : pyval := VFloat (of_float f).

(** The body of the loop for the box at position [i]; [label_mappings]
    is the "Label Name" column, indexed by position. *)
Definition plot_bbox (env : Env) (st : gmap loc hobj) (combined : loc)
    (label_mappings : list pyval) (colors : option (list pyval))
    (i : nat) (box : BBox2D) : gmap loc hobj * result pyarg :=
  let left := x box in
  let top := y box in
  let right := (x box + w box)%float in
  let bottom := (y box + h box)%float in
  match getitem label_mappings (label box) with
  | Raise e => (st, Raise e)
  | Ret label =>
      match colors with
      | None | Some [] =>
          add env st (ARef combined) (number left) (number top)
              (number right) (number bottom) label VNone
      | Some cs =>
          let label :=
            format env label +:+ ": "
              +:+ format_percent env (score box * 100)%float +:+ "%" in
          match getitem cs (Z.of_nat i) with
          | Raise e => (st, Raise e)
          | Ret color =>
              add env st (ARef combined) (number left) (number top)
                  (number right) (number bottom) (VStr label) color
          end
      end
  end.

Fixpoint plot_loop (env : Env) (st : gmap loc hobj) (combined : loc)
    (label_mappings : list pyval) (colors : option (list pyval))
    (i : nat) (boxes : list BBox2D) : gmap loc hobj * result unit :=
  match boxes with
  | [] => (st, Ret tt)
  | box :: boxes' =>
      match plot_bbox env st combined label_mappings colors i box with
      | (st', Raise e) => (st', Raise e)
      | (st', Ret _) =>
          plot_loop env st' combined label_mappings colors (S i) boxes'
      end
  end.

Definition contents (o : hobj) : buffer :=
  match o with HNdarray b | HImage b => b end.

Definition plot_bboxes (env : Env) (st : gmap loc hobj) (image : pyarg)
    (boxes : list BBox2D) (label_mappings : list pyval)
    (colors : option (list pyval)) : gmap loc hobj * result pyarg :=
  match image with
  | ARef p =>
      match st !! p with
      | Some o =>
          (* combined = image.copy() *)
          let '(copy, st) := alloc o st in
          (* combined = np.array(combined) *)
          let '(combined, st) := alloc (HNdarray (contents o)) st in
          match plot_loop env st combined label_mappings colors 0 boxes with
          | (st, Raise e) => (st, Raise e)
          | (st, Ret _) =>
              (* Image.fromarray(combined) *)
              match st !! combined with
              | Some o' =>
                  match fromarray env combined with
                  | Some c => (st, Raise (Exn c None))
                  | None =>
                      let '(out, st) := alloc (HImage (contents o')) st in
                      (st, Ret (ARef out))
                  end
              | None => (st, Raise (Exn AttributeError None))
              end
          end
      | None => (st, Raise (Exn AttributeError None))
      end
  | AVal _ => (st, Raise (Exn AttributeError None))
  end.

(** *** decode_segmap *)

(** An integer array: shape and row-major elements. *)
Record int_array := IntArray { ishape : list nat; idata : list Z }.

(** One pass of the loop body: [rgb[labels == id, :] = color / 255.0]
    on the row-major elements of an (h, w, 3) array. *)
Definition paint (labels : list Z) (rgb_data : list Q) (item : Z * rgb)
  : list Q :=
  let '(id, color) := item in
  let color := map (fun c => (inject_Z c / inject_Z 255)%Q) (_rgb_to_bgr color) in
  let select_mask := map (Z.eqb id) labels in
  imap (fun i old =>
          match select_mask !! (i / 3)%nat with
          | Some true => nth (i mod 3)%nat color old
          | _ => old
          end) rgb_data.

(** [CITYSCAPES_COLOR_MAPPING] is imported from
    [datasetinsights.data.datasets.cityscapes] and is an argument here. *)
Definition decode_segmap (CITYSCAPES_COLOR_MAPPING : gmap Z rgb)
    (labels : int_array) (dataset : string) : result ndarray :=
  if String.eqb dataset "cityscapes" then
    let color_mapping := CITYSCAPES_COLOR_MAPPING in
    match ishape labels with
    | [h; w] =>
        let rgb := replicate (h * w * 3) 0%Q in
        Ret (Ndarray [h; w; 3%nat]
               (fold_left (paint (idata labels)) (map_to_list color_mapping) rgb))
    | _ => Raise (Exn ValueError None)
    end
  else
    Raise (Exn ValueError (Some ("Dataset '" +:+ dataset +:+ "' is not supported."))).
End Plots.


From Stdlib Require Reals.

(** ** grid_plot

    [grid_plot] draws through matplotlib's global state and writes
    files.  The calls it makes into [matplotlib.pyplot], [os] and the
    figure are recorded, with their arguments and in order, in a log;
    each of them is taken to return normally (an exception raised by one
    of them would end [grid_plot] at that call).  [os.path.isdir], which
    has no effect, is an input of the model, and a figure is named by
    the number of figures created before it. *)

Module Grid.
Import Plots.

Inductive cmap := Gray | Binary.

Section Calls.
Context {Img : Type}.

Inductive call :=
  | Figure (figsize : Z * Z)            (* plt.figure(figsize=..., constrained_layout=True) *)
  | Subplot (n_rows n_cols k : nat)     (* plt.subplot(n_rows, n_cols, k) *)
  | Xticks                              (* plt.xticks([]) *)
  | Yticks                              (* plt.yticks([]) *)
  | Title (label : pyval)               (* plt.title(titles) *)
  | GridOff                             (* plt.grid(False) *)
  | Imshow (img : Img) (c : cmap)       (* plt.imshow(img, ...) *)
  | Mkdir (path : string)               (* os.mkdir(path) *)
  | Savefig (figure : nat) (path : string)  (* figure.savefig(path) *)
  | Show.                               (* plt.show() *)

(** Code that logs calls and may raise. *)
Definition M (A : Type) : Type := list call -> list call * result A.

Definition ret {A} (a : A) : M A := fun log => (log, Ret a).

Definition bind {A B} (m : M A) (k : A -> M B) : M B :=
  fun log =>
    match m log with
    | (log', Ret a) => k a log'
    | (log', Raise e) => (log', Raise e)
    end.

Definition lift {A} (r : result A) : M A := fun log => (log, r).

Definition perform (c : call) : M unit := fun log => (log ++ [c], Ret tt).

(** The figures created so far, by their sizes. *)
Definition figures (log : list call) : list (Z * Z) :=
  omap (fun c => match c with Figure s => Some s | _ => None end) log.

(** [plt.figure(...)]: the new figure. *)
Definition plt_figure (figsize : Z * Z) : M nat :=
  fun log => (log ++ [Figure figsize], Ret (length (figures log))).

(** [for a in l: body] *)
Fixpoint for_ {A} (l : list A) (body : A -> M unit) : M unit :=
  match l with
  | [] => ret tt
  | a :: l' => bind (body a) (fun _ => for_ l' body)
  end.

(** A truthy [titled] stands for lines 77-79, which only the first of
    the two loops has. *)
Definition draw_grid (images : list (list Img)) (n_rows n_cols : nat)
    (img_type : string) (titled : bool) (titles : pyval) : M unit :=
  for_ (seq 0 n_rows) (fun i =>
    for_ (seq 0 n_cols) (fun j =>
      bind (lift (getitem images (Z.of_nat i))) (fun row =>
      bind (lift (getitem row (Z.of_nat j))) (fun img =>
      let k := i * n_cols + j + 1 in
      bind (perform (Subplot n_rows n_cols k)) (fun _ =>
      bind (perform Xticks) (fun _ =>
      bind (perform Yticks) (fun _ =>
      bind (if titled && truthy titles then perform (Title titles) else ret tt)
        (fun _ =>
      bind (perform GridOff) (fun _ =>
      if String.eqb img_type "gray"
      then perform (Imshow img Gray)
      else perform (Imshow img Binary)))))))))).

(** Lines 85-88 and 104-107. *)
Definition save_grid (env : Env) (isdir : string -> bool) (figure : nat)
    (titles : pyval) (folder : string) : M unit :=
  if truthy titles then
    bind (if negb (isdir folder) then perform (Mkdir folder) else ret tt) (fun _ =>
    perform (Savefig figure (folder +:+ "/" +:+ format env titles +:+ ".png")))
  else ret tt.

Definition grid_plot (env : Env) (isdir : string -> bool)
    (images : list (list Img)) (figsize : Z * Z) (img_type : string)
    (titles : pyval) (folder : string) : M nat :=
  let n_rows := length images in
  bind (lift (getitem images 0)) (fun first =>
  let n_cols := length first in
  let figsize :=
    (fst figsize * Z.of_nat n_cols, snd figsize * Z.of_nat n_rows)%Z in
  bind (plt_figure figsize) (fun figure =>
  bind (draw_grid images n_rows n_cols img_type true titles) (fun _ =>
  bind (save_grid env isdir figure titles folder) (fun _ =>
  bind (plt_figure figsize) (fun figure =>
  bind (draw_grid images n_rows n_cols img_type false titles) (fun _ =>
  bind (save_grid env isdir figure titles (folder +:+ "_notitles")) (fun _ =>
  bind (perform Show) (fun _ =>
  ret figure)))))))).
End Calls.

Arguments call : clear implicits.
Arguments M : clear implicits.
End Grid.

(** ** _convert_euler_rotations_to_scatter_points

    The angles and the coordinates are real numbers here: [np.cos],
    [np.sin], [np.radians] and the float64 products and sums are taken
    exact.  A row of the data frame gives a number for each of the
    columns used; [df.sample], which draws rows at random, and the text
    Python's [str.format] gives for a number are inputs of the model. *)

Module Rotation.
Import Reals.
Local Open Scope R_scope.

Definition vec : Type := R * R * R.
Definition matrix : Type := vec * vec * vec.

(** [m.dot(v)] for a 3 x 3 array and a vector of length 3. *)
Definition dot (m : matrix) (v : vec) : vec :=
  let '(r0, r1, r2) := m in
  let '(v0, v1, v2) := v in
  let row r := let '(a, b, c) := r in a * v0 + b * v1 + c * v2 in
  (row r0, row r1, row r2).

(** [np.radians] *)
Definition radians (deg : R) : R := deg * PI / 180.

Definition row : Type := string -> R.

Record Pandas := {
  sample : list row -> nat -> list row;
  format_number : R -> string
}.

(** The body of the loop: the point and the hover text of one row. *)
Definition scatter_point (pd : Pandas) (x_col y_col : string)
    (z_col : option string) (r : row) : R * R * R * string :=
  let v1 : vec := (0, 1, 0) in
  let theta_x := radians (r x_col) in
  let rx : matrix :=
    ((cos theta_x, - sin theta_x, 0),
     (sin theta_x, cos theta_x, 0),
     (0, 0, 1)) in
  let v1 := dot rx v1 in
  let theta_y := radians (r y_col) in
  let ry : matrix :=
    ((1, 0, 0),
     (0, cos theta_y, - sin theta_y),
     (0, sin theta_y, cos theta_y)) in
  let v1 := dot ry v1 in
  let '(v1, text) :=
    match z_col with
    | Some z_col =>
        let theta_z := radians (r z_col) in
        let rz : matrix :=
          ((cos theta_z, 0, sin theta_z),
           (0, 1, 0),
           (- sin theta_z, 0, cos theta_z)) in
        (dot rz v1,
         "x: " +:+ format_number pd (r x_col) +:+ "°  y: "
           +:+ format_number pd (r y_col) +:+ "°  z: "
           +:+ format_number pd (r z_col) +:+ "°")
    | None =>
        (v1,
         "x: " +:+ format_number pd (r x_col) +:+ "°  y: "
           +:+ format_number pd (r y_col) +:+ "°")
    end in
  let '(a, b, c) := v1 in (a, b, c, text).

(** The list of the values the generator yields. *)
Definition _convert_euler_rotations_to_scatter_points (pd : Pandas)
    (df : list row) (x_col y_col : string) (z_col : option string)
    (max_samples : option nat) : list (R * R * R * string) :=
  let df :=
    match max_samples with
    | Some n => if (n <? length df)%nat then sample pd df n else df
    | None => df
    end in
  map (scatter_point pd x_col y_col z_col) df.
End Rotation.
Import Np Plots.

(** ** Definitions used to state the properties *)

Module Spec.
Local Open Scope Z_scope.

(** Big-endian value of a list of bytes: the digest "taken as an
    integer". *)
Definition be_value (bs : list Z) : Z :=
  fold_left (fun acc b => acc * 256 + b) bs 0.

Definition is_byte (b : Z) : Prop := 0 <= b < 256.

(** The colour the specification assigns to a label: the palette entry
    at index (md5 of the label's bytes, as an integer, modulo the
    palette size). *)
Definition md5_as_integer (label : string) : Z :=
  be_value (MD5.digest (bytes_of label)).

Definition palette_size : Z := 15.

Definition spec_color (label : string) : string :=
  nth (Z.to_nat (md5_as_integer label mod palette_size)) _COLOR_NAMES "".

(** The buffer behind [image] when [type(image) is np.ndarray]. *)
Definition ndarray_at (st : gmap loc hobj) (image : pyarg) : option buffer :=
  match image with
  | ARef p => match st !! p with
              | Some (HNdarray b) => Some b
              | _ => None
              end
  | AVal _ => None
  end.

(** [buf'] is [buf] with the writes [new_ops] applied after those it
    already carried: same object contents otherwise. *)
Definition extends (buf buf' : buffer) (new_ops : list draw_op) : Prop :=
  bshape buf' = bshape buf /\ base buf' = base buf
  /\ ops buf' = ops buf ++ new_ops.

(** The exceptions of lines 399, 403, 406, 417 and 421. *)
Definition image_type_error : exn :=
  Exn TypeError (Some "'image' parameter must be a numpy.ndarray").
Definition coordinate_type_error : exn :=
  Exn TypeError (Some "'left', 'top', 'right' & 'bottom' must be a number").
Definition color_type_error : exn :=
  Exn TypeError (Some "'color' must be a str").
Definition color_value_error : exn :=
  Exn ValueError
      (Some "'color' must be one of navy, blue, aqua, teal, olive, green, lime, yellow, orange, red, maroon, fuchsia, purple, gray, silver").

(** The outline [add] draws for a box and a palette entry. *)
Definition outline (l t r b : Z) (entry : rgb * rgb) : draw_op :=
  Rectangle (l, t) (r, b) (_rgb_to_bgr (fst entry)) 15.

(** The fill and the blit of a label, from the box computed by
    [place_label]. *)
Definition label_fill (b : label_box) (color : list Z) : draw_op :=
  Rectangle (rectangle_left b, rectangle_top b)
            (rectangle_right b, rectangle_bottom b) color (-1).

Definition label_blit (b : label_box) (label_image : ndarray) : draw_op :=
  SetSlice (label_top b, label_bottom b) (label_left b, label_right b)
           label_image.

(** How many columns or rows of fill lie between a side of the raster
    written by the blit and the same side of the filled rectangle, in an
    image of [image_height] rows and [image_width] columns.
    cv2.rectangle with thickness -1 fills both corner points, so the
    fill covers rows [rectangle_top] to [rectangle_bottom] and columns
    [rectangle_left] to [rectangle_right] inclusive, as far as the image
    has them; the slice [label_top:label_bottom] excludes its end. *)
Definition inset_left (b : label_box) : Z :=
  label_left b - Z.max 0 (rectangle_left b).
Definition inset_right (image_width : Z) (b : label_box) : Z :=
  Z.min (image_width - 1) (rectangle_right b) - (label_right b - 1).
Definition inset_top (b : label_box) : Z :=
  label_top b - Z.max 0 (rectangle_top b).
Definition inset_bottom (image_height : Z) (b : label_box) : Z :=
  Z.min (image_height - 1) (rectangle_bottom b) - (label_bottom b - 1).

(** [int] of a finite number: truncation towards zero. *)
Definition trunc (q : Q) : Z := Z.quot (Qnum q) (Z.pos (Qden q)).

(** [int] of a float that is a number. *)
Definition float_int (f : float) : Z :=
  match of_float f with
  | FFinite q => trunc q
  | _ => 0
  end.

(** The writes made for one box start with its outline, from
    (int(x), int(y)) to (int(x + w), int(y + h)), the sums being sums of
    floats, in some colour. *)
Definition box_drawn (box : BBox2D) (new_ops : list draw_op) : Prop :=
  exists color more,
    new_ops
    = Rectangle (float_int (x box), float_int (y box))
                (float_int (x box + w box)%float,
                 float_int (y box + h box)%float) color 15
      :: more.

(** Channel [c] of a colour. *)
Definition channel (c : nat) (color : rgb) : Z := nth c (_rgb_to_bgr color) 0.

(** The interpolation the specification gives for a glyph pixel:
    background + (foreground - background) * mask / 255. *)
Definition interpolate (background foreground mask : Z) : Q :=
  (inject_Z background
   + (inject_Z foreground - inject_Z background) * (inject_Z mask / inject_Z 255))%Q.

(** A font for the examples: every character is a cell of
    [cw] x [ch] pixels, alternately lit and dark. *)
Definition cell_font (cw ch : nat) : Font :=
  fun text =>
    {| size := ((cw * String.length text)%nat, ch);
       getpixel := fun i => if Nat.even i then 255 else 0 |}.

(** A store holding one black RGB array of 20 rows and 30 columns at
    location 1, and one holding a PIL image with the same pixels there. *)
Definition blank : buffer :=
  Buffer [20; 30; 3]%nat (repeat 0 (20 * 30 * 3)) [].
Definition array_store : gmap loc hobj := {[ 1%positive := HNdarray blank ]}.
Definition image_store : gmap loc hobj := {[ 1%positive := HImage blank ]}.

(** A store holding a greyscale PIL image of the same size: its array
    has two axes. *)
Definition grey_store : gmap loc hobj :=
  {[ 1%positive := HImage (Buffer [20; 30]%nat (repeat 0 (20 * 30)) []) ]}.

(** An [int] of str for the examples, on strings of ASCII characters:
    blanks around the number are dropped, then an optional sign and
    decimal digits, with single underscores between digits, are read as
    CPython reads them; any other string is refused.  (CPython also
    reads the digits and blanks of other scripts, and can be set to
    refuse numbers of many digits; no example has such a string.) *)
Definition blank_byte (c : Z) : bool :=
  ((9 <=? c) && (c <=? 13)) || ((28 <=? c) && (c <=? 32)).

Fixpoint lstrip (cs : list Z) : list Z :=
  match cs with
  | c :: cs' => if blank_byte c then lstrip cs' else cs
  | [] => []
  end.

Definition strip (cs : list Z) : list Z := rev (lstrip (rev (lstrip cs))).

Fixpoint ungroup (after_digit : bool) (cs : list Z) : option (list Z) :=
  match cs with
  | [] => if after_digit then Some [] else None
  | c :: cs' =>
      if c =? 95 then (if after_digit then ungroup false cs' else None)
      else if (48 <=? c) && (c <=? 57) then cons c <$> ungroup true cs'
      else None
  end.

Definition decimal (s : string) : option Z :=
  let number cs := ungroup false cs ≫= digits_value 10 0 in
  match strip (bytes_of s) with
  | 45 :: cs => Z.opp <$> number cs
  | 43 :: cs => number cs
  | cs => number cs
  end.

(** An OpenCV for the examples: it takes every array and refuses, with
    cv2.error, a point with a coordinate outside the range of a C int. *)
Definition c_int (z : Z) : bool := (- 2 ^ 31 <=? z) && (z <? 2 ^ 31).

Definition opencv (p : loc) (op : draw_op) : option exn_class :=
  match op with
  | Rectangle (x1, y1) (x2, y2) _ _ =>
      if c_int x1 && c_int y1 && c_int x2 && c_int y2
      then None else Some Cv2Error
  | SetSlice _ _ _ => None
  end.

(** The percentages of the examples, 100, 50 and 0, as
    [format(p, " .2f")] prints them. *)
Definition percent (p : float) : string :=
  if (p =? 100)%float then " 100.00"
  else if (p =? 50)%float then " 50.00"
  else " 0.00".

(** The environment of the examples: Pillow takes every array. *)
Definition plain_env : Env :=
  {| getmask := cell_font 2 3;
     int_str := decimal;
     cv2_rectangle := opencv;
     fromarray := fun _ => None;
     format_value := fun _ => "?"%string;
     format_percent := percent |}.

(** The same with an OpenCV that does not take the arrays it is given
    (arrays of 64-bit integers, say), and with a Pillow that does not
    (arrays of five channels, say). *)
Definition no_opencv_env : Env :=
  {| getmask := cell_font 2 3;
     int_str := decimal;
     cv2_rectangle := fun _ _ => Some Cv2Error;
     fromarray := fun _ => None;
     format_value := fun _ => "?"%string;
     format_percent := percent |}.

Definition no_pillow_env : Env :=
  {| getmask := cell_font 2 3;
     int_str := decimal;
     cv2_rectangle := opencv;
     fromarray := fun _ => Some TypeError;
     format_value := fun _ => "?"%string;
     format_percent := percent |}.

Definition box_a : BBox2D :=
  {| x := 2; y := 8; w := 10; h := 10; label := 0; score := 1 |}%float.
Definition box_b : BBox2D :=
  {| x := 7.5; y := 5; w := 4; h := 6; label := 1; score := 0.5 |}%float.
(** A box whose right edge, 0.1 + 16.9, is 17 as a sum of floats. *)
Definition box_c : BBox2D :=
  {| x := 0x1.999999999999ap-4;   (* 0.1 *)
     y := 5;
     w := 0x1.0e66666666666p+4;   (* 16.9 *)
     h := 6; label := 0; score := 1 |}%float.

(** A colour table and a 2 x 3 label array for the examples. *)
Definition two_classes : gmap Z rgb :=
  {[ 7 := (128, 64, 128); 26 := (0, 0, 142) ]}.
Definition small_labels : int_array := IntArray [2; 3]%nat [7; 26; 0; 7; 7; 26].
End Spec.

Import Spec.


(** * Vocabulary of the further properties *)

Module More.

(** A value of a decoded image: between 0 and 1. *)
Definition unit_range (v : Q) : Prop := (0 <= v <= 1)%Q.

(** A colour whose three channels are bytes. *)
Definition byte_color (color : rgb) : Prop :=
  let '(r, g, b) := color in
  (0 <= r <= 255 /\ 0 <= g <= 255 /\ 0 <= b <= 255)%Z.

(** [not colors], for the [colors] argument of [plot_bboxes]. *)
Definition not_colors (colors : option (list pyval)) : Prop :=
  colors = None \/ colors = Some [].

(** *** Reading the log of [grid_plot] *)

Section Log.
Import Grid.
Context {Img : Type}.

(** The arguments of the calls of [plt.subplot], [plt.imshow],
    [plt.title], [os.mkdir] and [savefig], in the order of the calls. *)
Definition subplots (log : list (call Img)) : list (nat * nat * nat) :=
  omap (fun c => match c with Subplot r c k => Some (r, c, k) | _ => None end) log.
Definition shown (log : list (call Img)) : list (Img * cmap) :=
  omap (fun c => match c with Imshow img m => Some (img, m) | _ => None end) log.
Definition titles_set (log : list (call Img)) : list pyval :=
  omap (fun c => match c with Title t => Some t | _ => None end) log.
Definition made (log : list (call Img)) : list string :=
  omap (fun c => match c with Mkdir d => Some d | _ => None end) log.
Definition saved (log : list (call Img)) : list (nat * string) :=
  omap (fun c => match c with Savefig f p => Some (f, p) | _ => None end) log.
Definition shows (log : list (call Img)) : list unit :=
  omap (fun c => match c with Show => Some tt | _ => None end) log.

(** A grid with no row, or with a row shorter than the first. *)
Definition ragged (images : list (list Img)) : Prop :=
  match images with
  | [] => True
  | first :: _ => Exists (fun row => length row < length first) images
  end.

(** The log of a loop whose body logs [f a] and returns when [good a],
    and logs [g a] and raises when not. *)
Fixpoint for_log {A} (good : A -> bool) (f g : A -> list (call Img))
    (l : list A) : list (call Img) :=
  match l with
  | [] => []
  | a :: l' => if good a then f a ++ for_log good f g l' else g a
  end.

(** The calls made for the image at row [i] and column [j]. *)
Definition cell_log (images : list (list Img)) (n_rows n_cols : nat)
    (img_type : string) (titled : bool) (titles : pyval) (i j : nat)
  : list (call Img) :=
  match images !! i ≫= (.!! j) with
  | Some img =>
      [Subplot n_rows n_cols (i * n_cols + j + 1); Xticks; Yticks]
      ++ (if titled && truthy titles then [Title titles] else [])
      ++ [GridOff; Imshow img (if String.eqb img_type "gray" then Gray else Binary)]
  | None => []
  end.

Definition row_length (images : list (list Img)) (i : nat) : nat :=
  match images !! i with Some row => length row | None => 0 end.

Definition row_log (images : list (list Img)) (n_rows n_cols : nat)
    (img_type : string) (titled : bool) (titles : pyval) (i : nat)
  : list (call Img) :=
  for_log (fun j => j <? row_length images i)
          (cell_log images n_rows n_cols img_type titled titles i)
          (fun _ => []) (seq 0 n_cols).

Definition grid_log (images : list (list Img)) (n_rows n_cols : nat)
    (img_type : string) (titled : bool) (titles : pyval) : list (call Img) :=
  for_log (fun i => n_cols <=? row_length images i)
          (row_log images n_rows n_cols img_type titled titles)
          (row_log images n_rows n_cols img_type titled titles)
          (seq 0 n_rows).

Definition save_log (env : Env) (isdir : string -> bool) (figure : nat)
    (titles : pyval) (folder : string) : list (call Img) :=
  if truthy titles then
    (if isdir folder then [] else [Mkdir folder])
    ++ [Savefig figure (folder +:+ "/" +:+ format env titles +:+ ".png")]
  else [].
End Log.
End More.

(** A point of the rotation plot that lies on the unit sphere, and one
    that lies within the ranges [rotation_plot] gives the three axes. *)
Module Sphere.
Import Reals.
Local Open Scope R_scope.

Definition on_unit_sphere (p : R * R * R * string) : Prop :=
  let '(a, b, c, _) := p in a * a + b * b + c * c = 1.

Definition in_axis_ranges (p : R * R * R * string) : Prop :=
  let '(a, b, c, _) := p in
  -1 <= a <= 1 /\ -1 <= b <= 1 /\ -1 <= c <= 1.
End Sphere.

Import More Sphere.
(** * Properties *)

(** ** hashlib.md5: test vectors of RFC 1321 *)

Example md5_empty : md5_hexdigest (bytes_of "") = "d41d8cd98f00b204e9800998ecf8427e".
Proof. vm_compute. reflexivity. Qed.

Example md5_abc : md5_hexdigest (bytes_of "abc") = "900150983cd24fb0d6963f7d28e17f72".
Proof. vm_compute. reflexivity. Qed.

Example md5_two_blocks :
  md5_hexdigest (bytes_of "12345678901234567890123456789012345678901234567890123456789012345678901234567890")
  = "57edf4a22be3c955ac49da2e2107b67a".
Proof. vm_compute. reflexivity. Qed.

(** ** The hash of a label as an integer *)

Section HexDigest.
Local Open Scope Z_scope.


Lemma digit_value_hex_digit n :
  0 <= n < 16 ->
  digit_value 16 (Z.of_N (N_of_ascii (hex_digit n))) = Some n.
Proof.
  intros Hn.
  assert (Hk : exists k : nat, n = Z.of_nat k /\ (k < 16)%nat).
  { exists (Z.to_nat n). lia. }
  destruct Hk as (k & -> & Hk).
  do 16 (destruct k as [|k]; [reflexivity|]). lia.
Qed.

Lemma digits_value_hex bs : forall acc,
  Forall is_byte bs ->
  digits_value 16 acc (bytes_of (hex bs))
  = Some (fold_left (fun a b => a * 256 + b) bs acc).
Proof.
  induction bs as [|b bs IH]; intros acc Hbs; [reflexivity|].
  inversion Hbs as [|? ? Hb Hbs']; subst.
  unfold is_byte in Hb. cbn [hex bytes_of digits_value fold_left].
  rewrite !digit_value_hex_digit.
  - rewrite IH by assumption. do 2 f_equal.
    pose proof (Z.div_mod b 16). lia.
  - apply Z.mod_pos_bound. lia.
  - split; [apply Z.div_pos; lia | apply Z.div_lt_upper_bound; lia].
Qed.

Lemma int_of_digits_hex bs :
  bs <> [] -> Forall is_byte bs ->
  int_of_digits 16 (hex bs) = Ret (be_value bs).
Proof.
  intros Hne Hbs. unfold int_of_digits.
  pose proof (digits_value_hex bs 0 Hbs) as Hd.
  destruct bs as [|b bs]; [congruence|].
  cbn [hex bytes_of] in *. rewrite Hd. reflexivity.
Qed.

Lemma le_bytes_is_byte n : forall x, Forall is_byte (MD5.le_bytes n x).
Proof.
  induction n as [|n IH]; intros x; cbn; constructor; [|apply IH].
  apply Z.mod_pos_bound. lia.
Qed.

Lemma le_bytes_length n : forall x, length (MD5.le_bytes n x) = n.
Proof. induction n as [|n IH]; intros x; cbn; [|rewrite IH]; reflexivity. Qed.

Lemma digest_bytes msg :
  length (MD5.digest msg) = 16%nat /\ Forall is_byte (MD5.digest msg).
Proof.
  unfold MD5.digest.
  destruct (fold_left MD5.block _ MD5.init) as [a b c d].
  split.
  - rewrite !length_app, !le_bytes_length. reflexivity.
  - rewrite !Forall_app. repeat split; apply le_bytes_is_byte.
Qed.

(** [int(md5(data).hexdigest(), 16)] never fails and is the digest read
    as a big-endian number. *)
Lemma int_hexdigest data :
  int_of_digits 16 (md5_hexdigest data) = Ret (be_value (MD5.digest data)).
Proof.
  destruct (digest_bytes data) as [Hlen Hb].
  apply int_of_digits_hex; [|assumption].
  intros E. rewrite E in Hlen. discriminate.
Qed.


Lemma getitem_nth {A} (l : list A) (i : Z) (d : A) :
  0 <= i < Z.of_nat (length l) ->
  getitem l i = Ret (nth (Z.to_nat i) l d).
Proof.
  intros Hi. unfold getitem.
  destruct (Z.ltb_spec i 0); [lia|].
  destruct (Z.leb_spec 0 i); [|lia].
  destruct (Z.ltb_spec i (Z.of_nat (length l))); [|lia]. cbn.
  destruct (l !! Z.to_nat i) as [a|] eqn:E.
  - f_equal. symmetry. apply nth_lookup_Some with (d := d) in E. exact E.
  - apply lookup_ge_None in E. lia.
Qed.

Lemma auto_color_spec label : auto_color label = Ret (spec_color label).
Proof.
  unfold auto_color. rewrite int_hexdigest. cbn [bind].
  apply getitem_nth. change (Z.of_nat (length _COLOR_NAME_TO_RGB)) with 15.
  change (Z.of_nat (length _COLOR_NAMES)) with 15.
  apply Z.mod_pos_bound. lia.
Qed.

Lemma spec_color_in_palette label : In (spec_color label) _COLOR_NAMES.
Proof.
  unfold spec_color. apply nth_In.
  change (length _COLOR_NAMES) with 15%nat.
  pose proof (Z.mod_pos_bound (md5_as_integer label) palette_size).
  unfold palette_size in *. lia.
Qed.

Lemma palette_lookup_names name :
  In name _COLOR_NAMES <-> is_Some (palette_lookup _COLOR_NAME_TO_RGB name).
Proof.
  unfold _COLOR_NAMES.
  induction _COLOR_NAME_TO_RGB as [|[k v] tbl IH]; cbn.
  - split; [tauto | intros [? ?]; discriminate].
  - destruct (String.eqb_spec k name) as [->|Hne].
    + split; [eauto | auto].
    + rewrite <- IH. split; [intros [?|?]; [congruence | assumption] | auto].
Qed.
End HexDigest.

(** ** [add]: argument checks and colour resolution *)

Section AddChecks.
Local Open Scope Z_scope.

Section Checks.
Context (env : Env).



Lemma int_coordinates_ints left top right bottom :
  int_coordinates env left top right bottom
  = match ints env left top right bottom with
    | Ret c => Ret c
    | Raise e => match cls e with
                 | ValueError => Raise coordinate_type_error
                 | _ => Raise e
                 end
    end.
Proof. reflexivity. Qed.

Lemma add_not_ndarray st image left top right bottom label color :
  ndarray_at st image = None ->
  add env st image left top right bottom label color
  = (st, Raise image_type_error).
Proof.
  unfold ndarray_at, add. destruct image as [v|p]; [reflexivity|].
  destruct (st !! p) as [[b|b]|]; [discriminate | reflexivity | reflexivity].
Qed.

Lemma ndarray_at_Some st image buf :
  ndarray_at st image = Some buf ->
  exists p, image = ARef p /\ st !! p = Some (HNdarray buf).
Proof.
  unfold ndarray_at. destruct image as [v|p]; [discriminate|].
  destruct (st !! p) as [[b|b]|] eqn:E; try discriminate.
  intros [= ->]. exists p. split; [reflexivity | exact E].
Qed.

Lemma add_bad_coordinates st p buf left top right bottom label color e :
  st !! p = Some (HNdarray buf) ->
  int_coordinates env left top right bottom = Raise e ->
  add env st (ARef p) left top right bottom label color = (st, Raise e).
Proof. intros Hp Hc. unfold add. rewrite Hp, Hc. reflexivity. Qed.

Lemma add_bad_color st p buf left top right bottom label color c e :
  st !! p = Some (HNdarray buf) ->
  int_coordinates env left top right bottom = Ret c ->
  resolve_color label color = Raise e ->
  add env st (ARef p) left top right bottom label color = (st, Raise e).
Proof.
  intros Hp Hc Hr. unfold add. rewrite Hp, Hc.
  destruct c as [[[l t] r] b]. cbn zeta. rewrite Hr. reflexivity.
Qed.

(** Once the checks have passed, [add] asks OpenCV for the outline. *)
Lemma add_refused st p buf left top right bottom label color l t r b name entry c :
  st !! p = Some (HNdarray buf) ->
  int_coordinates env left top right bottom = Ret (l, t, r, b) ->
  resolve_color label color = Ret (name, entry) ->
  cv2_rectangle env p (outline l t r b entry) = Some c ->
  add env st (ARef p) left top right bottom label color
  = (st, Raise (Exn c None)).
Proof.
  intros Hp Hc Hr Hcv. unfold add. rewrite Hp, Hc. cbn zeta. rewrite Hr.
  destruct entry as [c1 ct]. unfold rectangle. unfold outline in Hcv.
  cbn [fst] in Hcv. rewrite Hcv. reflexivity.
Qed.

(** When OpenCV performs it, [add] goes on, for a non-empty label, with
    the label. *)
Lemma add_draws st p buf left top right bottom label color l t r b name entry :
  st !! p = Some (HNdarray buf) ->
  int_coordinates env left top right bottom = Ret (l, t, r, b) ->
  resolve_color label color = Ret (name, entry) ->
  cv2_rectangle env p (outline l t r b entry) = None ->
  add env st (ARef p) left top right bottom label color
  = let buf1 := draw (outline l t r b entry) buf in
    match label with
    | VStr text =>
        if truthy label then
          let '(buf2, res) :=
            add_label env p buf1 l t text
                      (_rgb_to_bgr (fst entry)) (_rgb_to_bgr (snd entry)) in
          (<[p := HNdarray buf2]> st, bind res (fun _ => Ret (AVal VNone)))
        else (<[p := HNdarray buf1]> st, Ret (AVal VNone))
    | _ => (<[p := HNdarray buf1]> st, Ret (AVal VNone))
    end.
Proof.
  intros Hp Hc Hr Hcv. unfold add. rewrite Hp, Hc. cbn zeta. rewrite Hr.
  destruct entry as [c ct]. unfold rectangle. unfold outline in Hcv.
  cbn [fst] in Hcv. rewrite Hcv. reflexivity.
Qed.
End Checks.

Lemma truthy_str s : truthy (VStr s) = true <-> s <> ""%string.
Proof.
  cbn. destruct (String.eqb_spec s ""); cbn; split; congruence.
Qed.

(** Colour derived from a non-empty label when the colour is falsy. *)
Lemma resolve_color_auto s color :
  s <> ""%string -> truthy color = false ->
  exists entry,
    palette_lookup _COLOR_NAME_TO_RGB (spec_color s) = Some entry
    /\ resolve_color (VStr s) color = Ret (spec_color s, entry).
Proof.
  intros Hs Hc. apply truthy_str in Hs.
  destruct (proj1 (palette_lookup_names _) (spec_color_in_palette s)) as [entry He].
  exists entry. split; [exact He|].
  unfold resolve_color. rewrite Hs, Hc. cbn [is_str negb andb].
  rewrite auto_color_spec. cbn [bind]. rewrite He. reflexivity.
Qed.

(** An explicit palette name is kept. *)
Lemma resolve_color_explicit label name entry :
  truthy label = false \/ is_str label = true ->
  palette_lookup _COLOR_NAME_TO_RGB name = Some entry ->
  resolve_color label (VStr name) = Ret (name, entry).
Proof.
  intros Hl He.
  assert (Hn : truthy (VStr name) = true).
  { apply truthy_str. intros ->. vm_compute in He. discriminate. }
  unfold resolve_color.
  assert (Hchk : truthy label && negb (is_str label) = false).
  { destruct Hl as [-> | ->]; [reflexivity | apply andb_false_r]. }
  rewrite Hchk, Hn. cbn [negb]. rewrite andb_false_r.
  destruct label; cbn [bind]; rewrite He; reflexivity.
Qed.

(** Without a label and without a colour there is nothing to resolve. *)
Lemma resolve_color_nothing label :
  label = VNone \/ label = VStr "" ->
  resolve_color label VNone = Raise color_type_error.
Proof. intros [-> | ->]; reflexivity. Qed.
End AddChecks.

(** ** [add]: what is written to the buffer *)

Section AddDraws.
Local Open Scope Z_scope.

Lemma extends_nil buf : extends buf buf [].
Proof. unfold extends. rewrite app_nil_r. auto. Qed.

Lemma extends_draw buf buf' new_ops op :
  extends buf buf' new_ops -> extends buf (draw op buf') (new_ops ++ [op]).
Proof.
  intros (Hs & Hb & Ho). unfold extends, draw. cbn.
  rewrite Ho, app_assoc. auto.
Qed.

Section Draws.
Context (env : Env).

(** The ways [add_label] can end: nothing written, the fill written and
    the blit refused, or both written. *)
Lemma add_label_cases p image left top text color color_text :
  let res := add_label env p image left top text color color_text in
  (exists e, res = (image, Raise e) /\ msg e = None)
  \/ exists ih iw ch li lh lw lc,
       bshape image = [ih; iw; ch]
       /\ _get_label_image (getmask env) text color_text color = Ret li
       /\ shape li = [lh; lw; lc]
       /\ let b := place_label left top (Z.of_nat iw) (Z.of_nat lh) (Z.of_nat lw) in
          cv2_rectangle env p (label_fill b color) = None
          /\ (res = (draw (label_fill b color) image, Raise (Exn ValueError None))
              \/ res = (draw (label_blit b li) (draw (label_fill b color) image),
                        Ret tt)).
Proof.
  unfold add_label.
  destruct (bshape image) as [|ih [|iw [|ch [|? ?]]]];
    try (left; eexists; split; reflexivity).
  destruct (_get_label_image (getmask env) text color_text color) as [li|e] eqn:Eli.
  2:{ left. exists e. split; [reflexivity|].
      unfold _get_label_image in Eli. destruct (size (getmask env text)).
      destruct (map _ _); [injection Eli as <-; reflexivity | discriminate]. }
  destruct (shape li) as [|lh [|lw [|lc [|? ?]]]] eqn:Esh;
    try (left; eexists; split; reflexivity).
  unfold rectangle.
  destruct (cv2_rectangle env p _) as [c|] eqn:Hcv;
    [left; eexists; split; reflexivity|].
  right. exists ih, iw, ch, li, lh, lw, lc.
  split; [reflexivity|]. split; [reflexivity|]. split; [exact Esh|].
  cbn zeta. split; [exact Hcv|].
  destruct (broadcastable _ _); [right | left]; reflexivity.
Qed.

Lemma add_label_extends p image left top text color color_text :
  exists new_ops,
    extends image (fst (add_label env p image left top text color color_text))
            new_ops.
Proof.
  destruct (add_label_cases p image left top text color color_text)
    as [(e & -> & _)
       | (ih & iw & ch & li & lh & lw & lc & _ & _ & _ & _ & [-> | ->])].
  - exists []. apply extends_nil.
  - eexists. apply (extends_draw _ _ []), extends_nil.
  - eexists. apply extends_draw, (extends_draw _ _ []), extends_nil.
Qed.

Lemma add_label_msg p image left top text color color_text e :
  snd (add_label env p image left top text color color_text) = Raise e ->
  msg e = None.
Proof.
  destruct (add_label_cases p image left top text color color_text)
    as [(e' & -> & He)
       | (ih & iw & ch & li & lh & lw & lc & _ & _ & _ & _ & [-> | ->])];
    cbn; intros [= <-]; auto.
Qed.

(** A call that passes the checks and whose outline OpenCV draws writes
    into the buffer it was given: the store changes at [p] only, the
    outline comes first, and what is returned is [None]. *)
Lemma add_in_place st p buf left top right bottom label color l t r b name entry :
  st !! p = Some (HNdarray buf) ->
  int_coordinates env left top right bottom = Ret (l, t, r, b) ->
  resolve_color label color = Ret (name, entry) ->
  cv2_rectangle env p (outline l t r b entry) = None ->
  let res := add env st (ARef p) left top right bottom label color in
  exists buf' more,
    fst res = <[p := HNdarray buf']> st
    /\ extends buf buf' (outline l t r b entry :: more)
    /\ (snd res = Ret (AVal VNone)
        \/ exists e, snd res = Raise e /\ msg e = None /\ truthy label = true)
    /\ (truthy label = false -> more = [] /\ snd res = Ret (AVal VNone)).
Proof.
  intros Hp Hc Hr Hcv res. subst res.
  rewrite (add_draws env _ _ _ _ _ _ _ _ _ _ _ _ _ _ _ Hp Hc Hr Hcv).
  cbn zeta.
  set (buf1 := draw (outline l t r b entry) buf).
  assert (H1 : extends buf buf1 [outline l t r b entry]).
  { apply (extends_draw _ _ []), extends_nil. }
  assert (Hplain :
    exists buf' more,
      fst (<[p := HNdarray buf1]> st, Ret (AVal VNone) : result pyarg)
        = <[p := HNdarray buf']> st
      /\ extends buf buf' (outline l t r b entry :: more)
      /\ (snd (<[p := HNdarray buf1]> st, Ret (AVal VNone) : result pyarg)
            = Ret (AVal VNone)
          \/ exists e, snd (<[p := HNdarray buf1]> st, Ret (AVal VNone) : result pyarg)
                       = Raise e /\ msg e = None /\ truthy label = true)
      /\ (truthy label = false ->
          more = [] /\ snd (<[p := HNdarray buf1]> st, Ret (AVal VNone) : result pyarg)
                       = Ret (AVal VNone))).
  { exists buf1, []. cbn. auto. }
  destruct label as [|bl|z|f|text]; try exact Hplain.
  destruct (truthy (VStr text)) eqn:Ht; [|exact Hplain].
  destruct (add_label_extends p buf1 l t text
              (_rgb_to_bgr (fst entry)) (_rgb_to_bgr (snd entry)))
    as (more & Hext).
  pose proof (add_label_msg p buf1 l t text
                (_rgb_to_bgr (fst entry)) (_rgb_to_bgr (snd entry))) as Hmsg.
  destruct (add_label _ _ _ _ _ _ _ _) as [buf2 r2]. cbn [fst snd] in *.
  exists buf2, more. split; [reflexivity|]. split.
  - destruct H1 as (S1 & B1 & O1), Hext as (S2 & B2 & O2).
    unfold extends. rewrite S2, B2, O2, O1, S1, B1, <- app_assoc. auto.
  - split; [|discriminate].
    destruct r2 as [[]|e]; cbn; [left; reflexivity|].
    right. exists e. auto.
Qed.

(** The ways a call of [add] can go: the image is refused, a coordinate
    is, the label or the colour is, OpenCV refuses the outline, or it
    draws it. *)
Lemma add_cases st image left top right bottom label color :
  let res := add env st image left top right bottom label color in
  (ndarray_at st image = None /\ res = (st, Raise image_type_error))
  \/ exists p buf,
       image = ARef p /\ st !! p = Some (HNdarray buf)
       /\ ((exists e,
              int_coordinates env left top right bottom = Raise e
              /\ res = (st, Raise e))
           \/ (exists c e,
                 int_coordinates env left top right bottom = Ret c
                 /\ resolve_color label color = Raise e
                 /\ res = (st, Raise e))
           \/ (exists l t r b name entry,
                 int_coordinates env left top right bottom = Ret (l, t, r, b)
                 /\ resolve_color label color = Ret (name, entry)
                 /\ ((exists c,
                        cv2_rectangle env p (outline l t r b entry) = Some c
                        /\ res = (st, Raise (Exn c None)))
                     \/ cv2_rectangle env p (outline l t r b entry) = None))).
Proof.
  intros res. subst res.
  destruct (ndarray_at st image) as [buf|] eqn:Himg.
  2:{ left. split; [reflexivity | apply add_not_ndarray, Himg]. }
  apply ndarray_at_Some in Himg as (p & -> & Hp).
  right. exists p, buf. split; [reflexivity|]. split; [exact Hp|].
  destruct (int_coordinates env left top right bottom) as [[[[l t] r] b]|e] eqn:Hc.
  2:{ left. exists e. split; [reflexivity|].
      eapply add_bad_coordinates; eassumption. }
  right.
  destruct (resolve_color label color) as [[name entry]|e] eqn:Hr.
  - right. exists l, t, r, b, name, entry. split; [reflexivity|].
    split; [reflexivity|].
    destruct (cv2_rectangle env p (outline l t r b entry)) as [c|] eqn:Hcv;
      [left | right; reflexivity].
    exists c. split; [reflexivity|]. eapply add_refused; eassumption.
  - left. exists (l, t, r, b), e. split; [reflexivity|]. split; [reflexivity|].
    eapply add_bad_color; eassumption.
Qed.
End Draws.

End AddDraws.

(** Case analysis on a call of [add], naming the location and buffer of
    the image and, in the last case, coordinates and palette entry. *)
Ltac case_add env st image left top right bottom label color :=
  let p := fresh "p" in
  let buf := fresh "buf" in
  let Hp := fresh "Hp" in
  let Hc := fresh "Hc" in
  let Hr := fresh "Hr" in
  let Hcv := fresh "Hcv" in
  let Hres := fresh "Hres" in
  let e := fresh "e" in
  let c := fresh "c" in
  destruct (add_cases env st image left top right bottom label color)
    as [[_ Hres]
       | (p & buf & -> & Hp
          & [(e & Hc & Hres)
            | [(c & e & Hc & Hr & Hres)
              | (?l & ?t & ?r & ?b & ?name & ?entry & Hc & Hr
                 & [(c & Hcv & Hres) | Hcv])]])].


(** The raster of a label in the two colours of a palette entry has
    three channels and the size of the glyph mask. *)
Lemma get_label_image_rgb font text (c ct : rgb) :
  exists li,
    _get_label_image font text (_rgb_to_bgr ct) (_rgb_to_bgr c) = Ret li
    /\ shape li = [snd (size (font text)); fst (size (font text)); 3%nat].
Proof.
  destruct c as [[r g] b], ct as [[r' g'] b']. unfold _get_label_image.
  destruct (size (font text)) as [w h]. cbn. eexists. split; reflexivity.
Qed.

(** ** Return value and in-place writes of [add] *)

Section ReturnValue.
Local Open Scope Z_scope.


(** C1 (corrected).  For every call of [add] that passes the checks
    (the image is an ndarray of the store, the four coordinates convert
    to int, the colour resolves to a palette entry): when OpenCV
    performs the draw, the writes go to the buffer that was passed (the
    store is updated at that location only, the buffer keeps its shape
    and earlier contents, and the outline is the first new write); when
    OpenCV refuses it, the call raises and nothing is written.  The call
    does not return the buffer: whenever it returns, it returns [None],
    and it has then written to the buffer in place. *)
Theorem C1_add_writes_in_place_returns_None
    env st p buf left top right bottom label color l t r b name entry :
  st !! p = Some (HNdarray buf) ->
  int_coordinates env left top right bottom = Ret (l, t, r, b) ->
  resolve_color label color = Ret (name, entry) ->
  let res := add env st (ARef p) left top right bottom label color in
  (cv2_rectangle env p (outline l t r b entry) = None ->
   exists buf' more,
     fst res = <[p := HNdarray buf']> st
     /\ extends buf buf' (outline l t r b entry :: more))
  /\ (forall c,
        cv2_rectangle env p (outline l t r b entry) = Some c ->
        res = (st, Raise (Exn c None)))
  /\ (forall v,
        snd res = Ret v ->
        v = AVal VNone
        /\ exists buf' more,
             fst res = <[p := HNdarray buf']> st
             /\ extends buf buf' (outline l t r b entry :: more)).
Proof.
  intros Hp Hc Hr res.
  assert (Hdrawn :
            cv2_rectangle env p (outline l t r b entry) = None ->
            (exists buf' more,
               fst res = <[p := HNdarray buf']> st
               /\ extends buf buf' (outline l t r b entry :: more))
            /\ forall v, snd res = Ret v -> v = AVal VNone).
  { intros Hcv.
    destruct (add_in_place env st p buf left top right bottom label color
                l t r b name entry Hp Hc Hr Hcv)
      as (buf' & more & Hst & Hext & Hres & _).
    fold res in Hst, Hres. split; [exists buf', more; auto|].
    intros v Hv. destruct Hres as [Hret | (e & He & _)]; congruence. }
  split; [intros Hcv; apply Hdrawn, Hcv|]. split.
  - intros c Hcv. eapply add_refused; eassumption.
  - intros v Hv.
    destruct (cv2_rectangle env p (outline l t r b entry)) as [c|] eqn:Hcv.
    + unfold res in Hv.
      rewrite (add_refused env _ _ _ _ _ _ _ _ _ _ _ _ _ _ _ _ Hp Hc Hr Hcv) in Hv.
      discriminate.
    + destruct (Hdrawn eq_refl) as [Hw Hn]. split; [apply Hn, Hv | exact Hw].
Qed.

(** C1, on a concrete input. *)
Lemma C1_add_writes_in_place_returns_None_witness :
  let res := add plain_env array_store (ARef 1%positive)
                 (VInt 2) (VInt 8) (VInt 12) (VInt 18) VNone (VStr "green") in
  (cv2_rectangle plain_env 1%positive
     (outline 2 8 12 18 ((0, 204, 84), (15, 64, 31))) = None ->
   exists buf' more,
     fst res = <[1%positive := HNdarray buf']> array_store
     /\ extends blank buf'
          (outline 2 8 12 18 ((0, 204, 84), (15, 64, 31)) :: more))
  /\ (forall c,
        cv2_rectangle plain_env 1%positive
          (outline 2 8 12 18 ((0, 204, 84), (15, 64, 31))) = Some c ->
        res = (array_store, Raise (Exn c None)))
  /\ (forall v,
        snd res = Ret v ->
        v = AVal VNone
        /\ exists buf' more,
             fst res = <[1%positive := HNdarray buf']> array_store
             /\ extends blank buf'
                  (outline 2 8 12 18 ((0, 204, 84), (15, 64, 31)) :: more)).
Proof.
  apply (C1_add_writes_in_place_returns_None
           plain_env array_store 1%positive blank
           (VInt 2) (VInt 8) (VInt 12) (VInt 18) VNone (VStr "green")
           2 8 12 18 "green"%string ((0, 204, 84), (15, 64, 31)));
    reflexivity.
Defined.

(** C1, counterexample.  A valid call (ndarray image, integer
    coordinates, palette colour) does not return the image buffer it was
    given at location 1: it returns [None].  A valid call does not
    always write: with the left coordinate 2147483648, which is outside
    the range of a C int, OpenCV raises and the array is as it was.  And
    a valid call does not always return: with a label wider than the
    image the slice assignment of line 459 raises. *)
Lemma C1_add_returns_image_counterexample :
  snd (add plain_env array_store (ARef 1%positive)
           (VInt 2) (VInt 8) (VInt 12) (VInt 18) (VStr "car") VNone)
    = Ret (AVal VNone)
  /\ snd (add plain_env array_store (ARef 1%positive)
              (VInt 2) (VInt 8) (VInt 12) (VInt 18) (VStr "car") VNone)
     <> Ret (ARef 1%positive)
  /\ add plain_env array_store (ARef 1%positive)
         (VInt 2147483648) (VInt 8) (VInt 12) (VInt 18) VNone (VStr "green")
     = (array_store, Raise (Exn Cv2Error None))
  /\ snd (add plain_env array_store (ARef 1%positive)
              (VInt 2) (VInt 8) (VInt 12) (VInt 18)
              (VStr "a very long label") VNone)
     = Raise (Exn ValueError None).
Proof.
  split; [vm_compute; reflexivity|].
  split; [vm_compute; discriminate|].
  split; vm_compute; reflexivity.
Qed.
(** An array OpenCV does not take: the call raises what [cv2.rectangle]
    raises and the array is as it was. *)
Example add_array_refused :
  add no_opencv_env array_store (ARef 1%positive)
      (VInt 2) (VInt 8) (VInt 12) (VInt 18) (VStr "car") VNone
  = (array_store, Raise (Exn Cv2Error None)).
Proof. vm_compute. reflexivity. Qed.
End ReturnValue.

(** ** Colour derived from the label *)

Section AutoColor.
Local Open Scope Z_scope.

Lemma add_color_resolved env st image left top right bottom label color color' :
  resolve_color label color = resolve_color label color' ->
  add env st image left top right bottom label color
  = add env st image left top right bottom label color'.
Proof. intros Heq. unfold add. rewrite Heq. reflexivity. Qed.

(** C2 (corrected).  For every non-empty label string, when the colour
    given with it is [None] (or otherwise falsy), the colour name that
    lines 408-421 resolve is the palette entry at index (md5 of the
    label's bytes, read as an integer, modulo the palette size).  The
    name depends on the label alone, so equal labels get equal colours;
    and the call of [add] is, in everything it does, the call with that
    name given as the colour. *)
Theorem C2_auto_color_is_md5_index (s : string) (color : pyval) :
  s <> ""%string ->
  truthy color = false ->
  exists entry,
    palette_lookup _COLOR_NAME_TO_RGB (spec_color s) = Some entry
    /\ resolve_color (VStr s) color = Ret (spec_color s, entry)
    /\ (forall color',
          truthy color' = false ->
          resolve_color (VStr s) color' = resolve_color (VStr s) color)
    /\ forall env st image left top right bottom,
         add env st image left top right bottom (VStr s) color
         = add env st image left top right bottom (VStr s)
               (VStr (spec_color s)).
Proof.
  intros Hs Hc.
  destruct (resolve_color_auto s color Hs Hc) as (entry & He & Hr).
  exists entry. split; [exact He|]. split; [exact Hr|]. split.
  - intros color' Hc'.
    destruct (resolve_color_auto s color' Hs Hc') as (entry' & He' & Hr').
    congruence.
  - intros env st image left top right bottom. apply add_color_resolved.
    rewrite Hr. symmetry.
    apply resolve_color_explicit; [right; reflexivity | exact He].
Qed.

(** C2, on a concrete input. *)
Lemma C2_auto_color_is_md5_index_witness :
  spec_color "car" = "green"%string
  /\ exists entry,
       palette_lookup _COLOR_NAME_TO_RGB (spec_color "car") = Some entry
       /\ resolve_color (VStr "car") VNone = Ret (spec_color "car", entry)
       /\ (forall color',
             truthy color' = false ->
             resolve_color (VStr "car") color' = resolve_color (VStr "car") VNone)
       /\ forall env st image left top right bottom,
            add env st image left top right bottom (VStr "car") VNone
            = add env st image left top right bottom (VStr "car")
                  (VStr (spec_color "car")).
Proof.
  split; [vm_compute; reflexivity|].
  apply (C2_auto_color_is_md5_index "car" VNone); [discriminate | reflexivity].
Defined.

(** C2, counterexample.  The empty string is a label string for which no
    colour is derived: the specified palette entry exists ("lime"), but
    [add] called with label "" and no colour raises the [TypeError] of
    line 417 and resolves nothing. *)
Lemma C2_empty_label_counterexample :
  spec_color "" = "lime"%string
  /\ resolve_color (VStr "") VNone = Raise color_type_error
  /\ add plain_env array_store (ARef 1%positive)
         (VInt 2) (VInt 8) (VInt 12) (VInt 18) (VStr "") VNone
     = (array_store, Raise color_type_error).
Proof. repeat split; vm_compute; reflexivity. Qed.
End AutoColor.

(** ** Palette closure *)

Section Palette.
Local Open Scope Z_scope.


End Palette.


(** ** Rejected calls *)

Section Rejections.
Local Open Scope Z_scope.

(** C10 (corrected).  Every call of [add] whose label is [None] or the empty string
    and whose colour is [None] raises before anything is drawn: the store
    is left as it was and nothing is returned.  There is no fallback to
    [_DEFAULT_COLOR_NAME]: when the image is an ndarray and the
    coordinates convert, so that the call reaches the colour check, the
    exception is TypeError("'color' must be a str").  Otherwise it is the
    [TypeError] of the image or coordinate check, or the exception of
    another class that a conversion raised. *)
Theorem C10_no_default_color
    env st image left top right bottom (label : pyval) :
  label = VNone \/ label = VStr "" ->
  (exists e,
     add env st image left top right bottom label VNone = (st, Raise e)
     /\ (cls e = TypeError \/ ints env left top right bottom = Raise e))
  /\ (forall buf c,
        ndarray_at st image = Some buf ->
        int_coordinates env left top right bottom = Ret c ->
        add env st image left top right bottom label VNone
        = (st, Raise color_type_error)).
Proof.
  intros Hl. pose proof (resolve_color_nothing label Hl) as Hnone.
  split.
  - case_add env st image left top right bottom label VNone.
    + eexists. split; [exact Hres | left; reflexivity].
    + exists e. split; [exact Hres|].
      rewrite int_coordinates_ints in Hc.
      destruct (ints env left top right bottom) as [c|e1]; [discriminate|].
      destruct e1 as [[] m]; cbn in Hc; injection Hc as <-; auto.
    + exists e. split; [exact Hres|]. left.
      rewrite Hnone in Hr. injection Hr as <-. reflexivity.
    + congruence.
    + congruence.
  - intros buf c Himg Hc. apply ndarray_at_Some in Himg as (p & -> & Hp).
    eapply add_bad_color; eassumption.
Qed.

(** C10, on a concrete input. *)
Lemma C10_no_default_color_witness :
  (exists e,
     add plain_env array_store (ARef 1%positive)
         (VInt 2) (VInt 8) (VInt 12) (VInt 18) (VStr "") VNone
     = (array_store, Raise e)
     /\ (cls e = TypeError
         \/ ints plain_env (VInt 2) (VInt 8) (VInt 12) (VInt 18) = Raise e))
  /\ (forall buf c,
        ndarray_at array_store (ARef 1%positive) = Some buf ->
        int_coordinates plain_env (VInt 2) (VInt 8) (VInt 12) (VInt 18) = Ret c ->
        add plain_env array_store (ARef 1%positive)
            (VInt 2) (VInt 8) (VInt 12) (VInt 18) (VStr "") VNone
        = (array_store, Raise color_type_error)).
Proof.
  apply (C10_no_default_color plain_env array_store (ARef 1%positive)
           (VInt 2) (VInt 8) (VInt 12) (VInt 18) (VStr "")).
  right. reflexivity.
Defined.

(** C10, counterexample.  With label and colour [None], a call whose
    image is not an ndarray raises the [TypeError] of line 399, and a
    call with a coordinate that is no number raises the [TypeError] of
    line 403: neither is TypeError("'color' must be a str"). *)
Lemma C10_other_type_error_counterexample :
  add plain_env array_store (AVal (VStr "image"))
      (VInt 2) (VInt 8) (VInt 12) (VInt 18) VNone VNone
  = (array_store, Raise image_type_error)
  /\ image_type_error <> color_type_error
  /\ add plain_env array_store (ARef 1%positive)
         (VInt 2) (VStr "top") (VInt 12) (VInt 18) VNone VNone
     = (array_store, Raise coordinate_type_error)
  /\ coordinate_type_error <> color_type_error.
Proof.
  split; [reflexivity|]. split; [discriminate|].
  split; [vm_compute; reflexivity | discriminate].
Qed.



(** Coordinates given as text are read as [int] reads them: blanks
    around the digits and an underscore between digits are accepted, and
    the call draws. *)
Example add_reads_text_coordinates :
  decimal " 8 " = Some 8
  /\ decimal "1_2" = Some 12
  /\ decimal "-3" = Some (-3)
  /\ decimal "1__2" = None
  /\ decimal "top" = None
  /\ add plain_env array_store (ARef 1%positive)
         (VInt 2) (VStr " 8 ") (VStr "1_2") (VInt 18) VNone (VStr "green")
     = (<[1%positive :=
            HNdarray (draw (Rectangle (2, 8) (12, 18) [0; 204; 84] 15) blank)]>
          array_store,
        Ret (AVal VNone)).
Proof. repeat split; vm_compute; reflexivity. Qed.
End Rejections.

(** ** Placement of the label *)

Section Placement.
Local Open Scope Z_scope.

Lemma place_label_default left top image_width label_height label_width :
  0 <= top - (1 + label_height) ->
  place_label left top image_width label_height label_width
  = let rl := Z.max 0 (Z.min (left - 1) (image_width - (1 + label_width))) in
    LabelBox rl (top - (1 + label_height)) (rl + (1 + label_width)) top
             (rl + 1) (top - (1 + label_height) + 1)
             (rl + 1 + label_width)
             (top - (1 + label_height) + 1 + label_height).
Proof.
  intros H. unfold place_label.
  destruct (Z.ltb_spec (top - (1 + label_height)) 0); [lia | reflexivity].
Qed.

Lemma place_label_flipped left top image_width label_height label_width :
  top - (1 + label_height) < 0 ->
  place_label left top image_width label_height label_width
  = let rl := Z.max 0 (Z.min (left - 1) (image_width - (1 + label_width))) in
    LabelBox rl top (rl + (1 + label_width)) (top + label_height + 1)
             (rl + 1) top (rl + 1 + label_width) (top + label_height).
Proof.
  intros H. unfold place_label.
  destruct (Z.ltb_spec (top - (1 + label_height)) 0); [reflexivity | lia].
Qed.

Lemma place_label_bounds (left top : Z) (image_width label_height label_width : nat) :
  let b := place_label left top (Z.of_nat image_width)
                       (Z.of_nat label_height) (Z.of_nat label_width) in
  0 <= rectangle_left b
  /\ (1 + Z.of_nat label_width <= Z.of_nat image_width ->
      rectangle_right b <= Z.of_nat image_width)
  /\ (top - (1 + Z.of_nat label_height) < 0 ->
      rectangle_top b = top
      /\ rectangle_bottom b = top + Z.of_nat label_height + 1
      /\ label_top b = top)
  /\ (0 <= top ->
      0 <= rectangle_top b /\ 0 <= rectangle_bottom b
      /\ 0 <= label_top b /\ 0 <= label_bottom b).
Proof.
  intros b. subst b.
  destruct (Z.lt_ge_cases (top - (1 + Z.of_nat label_height)) 0) as [Hflip | Hdef].
  - rewrite place_label_flipped by assumption. cbn. repeat split; lia.
  - rewrite place_label_default by assumption. cbn. repeat split; lia.
Qed.

(** C3 (corrected).  Whenever [add] gets to draw the label of a box
    (lines 428-459 write anything at all), its first write there is the
    filled label rectangle computed by [place_label] from the image
    width and the size of the label raster, and for that rectangle: the
    left edge is never negative; the right edge is at most the image
    width when the rectangle, one pixel wider than the raster, is no
    wider than the image; when the default placement (bottom of the
    rectangle = top of the box) would start above row 0, the rectangle
    and the raster are placed from the top row of the box downwards
    instead; and when the top of the box is itself not negative, no row
    coordinate of the rectangle or of the raster is negative. *)
Theorem C3_label_rectangle_bounds
    env p image (left top : Z) text color color_text image' res :
  add_label env p image left top text color color_text = (image', res) ->
  image' = image
  \/ exists (image_height image_width channels : nat) label_image
            (label_height label_width label_channels : nat) more,
       bshape image = [image_height; image_width; channels]
       /\ _get_label_image (getmask env) text color_text color = Ret label_image
       /\ shape label_image = [label_height; label_width; label_channels]
       /\ let b := place_label left top (Z.of_nat image_width)
                     (Z.of_nat label_height) (Z.of_nat label_width) in
          extends image image' (label_fill b color :: more)
          /\ 0 <= rectangle_left b
          /\ (1 + Z.of_nat label_width <= Z.of_nat image_width ->
              rectangle_right b <= Z.of_nat image_width)
          /\ (top - (1 + Z.of_nat label_height) < 0 ->
              rectangle_top b = top
              /\ rectangle_bottom b = top + Z.of_nat label_height + 1
              /\ label_top b = top)
          /\ (0 <= top ->
              0 <= rectangle_top b /\ 0 <= rectangle_bottom b
              /\ 0 <= label_top b /\ 0 <= label_bottom b).
Proof.
  intros Hadd.
  destruct (add_label_cases env p image left top text color color_text)
    as [(e & Hres & _)
       | (ih & iw & ch & li & lh & lw & lc & Hsh & Hli & Hlsh & Hres)].
  - left. congruence.
  - right. cbn zeta in Hres. destruct Hres as [_ Hres].
    assert (Hext : exists more,
              extends image image'
                (label_fill (place_label left top (Z.of_nat iw) (Z.of_nat lh)
                                         (Z.of_nat lw)) color :: more)).
    { destruct Hres as [Hres | Hres]; rewrite Hres in Hadd;
        injection Hadd as <- _; eexists.
      - apply (extends_draw _ _ []), extends_nil.
      - apply (extends_draw _ _ [_]), (extends_draw _ _ []), extends_nil. }
    destruct Hext as (more & Hext).
    exists ih, iw, ch, li, lh, lw, lc, more.
    split; [exact Hsh|]. split; [exact Hli|]. split; [exact Hlsh|].
    cbn zeta. split; [exact Hext|]. apply place_label_bounds.
Qed.

(** C3, on a concrete input. *)
Lemma C3_label_rectangle_bounds_witness :
  let image' :=
    fst (add_label plain_env 1%positive blank 29 0 "car"
                   [0; 204; 84] [15; 64; 31]) in
  image' = blank
  \/ exists (image_height image_width channels : nat) label_image
            (label_height label_width label_channels : nat) more,
       bshape blank = [image_height; image_width; channels]
       /\ _get_label_image (cell_font 2 3) "car" [15; 64; 31] [0; 204; 84]
          = Ret label_image
       /\ shape label_image = [label_height; label_width; label_channels]
       /\ let b := place_label 29 0 (Z.of_nat image_width)
                     (Z.of_nat label_height) (Z.of_nat label_width) in
          extends blank image' (label_fill b [0; 204; 84] :: more)
          /\ 0 <= rectangle_left b
          /\ (1 + Z.of_nat label_width <= Z.of_nat image_width ->
              rectangle_right b <= Z.of_nat image_width)
          /\ (0 - (1 + Z.of_nat label_height) < 0 ->
              rectangle_top b = 0
              /\ rectangle_bottom b = 0 + Z.of_nat label_height + 1
              /\ label_top b = 0)
          /\ (0 <= 0 ->
              0 <= rectangle_top b /\ 0 <= rectangle_bottom b
              /\ 0 <= label_top b /\ 0 <= label_bottom b).
Proof.
  apply (C3_label_rectangle_bounds plain_env 1%positive blank 29 0 "car"
           [0; 204; 84] [15; 64; 31] _
           (snd (add_label plain_env 1%positive blank 29 0 "car"
                           [0; 204; 84] [15; 64; 31]))).
  apply surjective_pairing.
Defined.

(** C3, counterexample.  On the image of width 30, a label whose raster
    is 34 pixels wide gets a filled rectangle from column 0 to column 35,
    past the right bound (the call then fails in the blit, after the
    fill); and for a box whose top is row -2 the flipped rectangle starts
    at row -2, a negative row coordinate. *)
Lemma C3_label_rectangle_counterexample :
  (ops <$> (contents <$>
      fst (add plain_env array_store (ARef 1%positive)
               (VInt 2) (VInt 8) (VInt 12) (VInt 18)
               (VStr "a very long label") VNone) !! 1%positive))
    = Some [Rectangle (2, 8) (12, 18) [220; 220; 220] 15;
            Rectangle (0, 4) (35, 8) [220; 220; 220] (-1)]
  /\ rectangle_right (place_label 2 8 30 3 34) = 35
  /\ 30 < rectangle_right (place_label 2 8 30 3 34)
  /\ (ops <$> (contents <$>
         fst (add plain_env array_store (ARef 1%positive)
                  (VInt 2) (VInt (-2)) (VInt 12) (VInt 18)
                  (VStr "car") VNone) !! 1%positive))
     = Some [Rectangle (2, -2) (12, 18) [0; 204; 84] 15;
             Rectangle (1, -2) (8, 2) [0; 204; 84] (-1)]
  /\ rectangle_top (place_label 2 (-2) 30 3 6) = -2.
Proof.
  repeat split; vm_compute; reflexivity.
Qed.

(** The insets of the raster in the label rectangle, for a rectangle
    the image holds whole: one column on the left and on the right; one
    row above and below in the default placement; none above and two
    below in the flipped placement. *)
Lemma place_label_insets
    (left top : Z) (image_height image_width label_height label_width : nat) :
  let b := place_label left top (Z.of_nat image_width)
                       (Z.of_nat label_height) (Z.of_nat label_width) in
  0 <= rectangle_top b ->
  rectangle_bottom b < Z.of_nat image_height ->
  rectangle_right b < Z.of_nat image_width ->
  inset_left b = 1
  /\ inset_right (Z.of_nat image_width) b = 1
  /\ (0 <= top - (1 + Z.of_nat label_height) ->
      inset_top b = 1 /\ inset_bottom (Z.of_nat image_height) b = 1)
  /\ (top - (1 + Z.of_nat label_height) < 0 ->
      inset_top b = 0 /\ inset_bottom (Z.of_nat image_height) b = 2).
Proof.
  intros b. subst b.
  unfold inset_left, inset_right, inset_top, inset_bottom.
  destruct (Z.lt_ge_cases (top - (1 + Z.of_nat label_height)) 0) as [Hflip | Hdef].
  - rewrite place_label_flipped by assumption. cbn. intros. repeat split; lia.
  - rewrite place_label_default by assumption. cbn. intros. repeat split; lia.
Qed.

(** C9 (the code misses the claim).  On the black image of 20 rows and
    30 columns, with a glyph raster of 3 rows and 6 columns: for the box
    whose top is row 8 the label is placed above the box, the rectangle
    is filled on rows 4 to 8 and columns 1 to 8 and the raster is written
    to rows 5 to 7 and columns 2 to 7, one pixel inside the rectangle on
    every side.  For the box whose top is row 2 the placement is flipped:
    the rectangle is filled on rows 2 to 6 and the raster is written to
    rows 2 to 4, so that it starts on the rectangle's first row, with no
    inset above it and two rows of fill below.  And for the box whose
    left is column 26 the rectangle is moved left to columns 23 to 30,
    one column more than the image has: the raster is written to
    columns 24 to 29 and ends on the last column of the image, with no
    fill on its right. *)
Theorem C9_label_insets_missed :
  (exists label_image,
     add plain_env array_store (ARef 1%positive)
         (VInt 2) (VInt 8) (VInt 12) (VInt 18) (VStr "car") VNone
     = (<[1%positive :=
            HNdarray
              (Buffer (bshape blank) (base blank)
                 [Rectangle (2, 8) (12, 18) [0; 204; 84] 15;
                  label_fill (place_label 2 8 30 3 6) [0; 204; 84];
                  label_blit (place_label 2 8 30 3 6) label_image])]>
          array_store,
        Ret (AVal VNone)))
  /\ label_fill (place_label 2 8 30 3 6) [0; 204; 84]
     = Rectangle (1, 4) (8, 8) [0; 204; 84] (-1)
  /\ (forall label_image,
        label_blit (place_label 2 8 30 3 6) label_image
        = SetSlice (5, 8) (2, 8) label_image)
  /\ inset_left (place_label 2 8 30 3 6) = 1
  /\ inset_right 30 (place_label 2 8 30 3 6) = 1
  /\ inset_top (place_label 2 8 30 3 6) = 1
  /\ inset_bottom 20 (place_label 2 8 30 3 6) = 1
  /\ (exists label_image,
        add plain_env array_store (ARef 1%positive)
            (VInt 2) (VInt 2) (VInt 12) (VInt 18) (VStr "car") VNone
        = (<[1%positive :=
               HNdarray
                 (Buffer (bshape blank) (base blank)
                    [Rectangle (2, 2) (12, 18) [0; 204; 84] 15;
                     label_fill (place_label 2 2 30 3 6) [0; 204; 84];
                     label_blit (place_label 2 2 30 3 6) label_image])]>
             array_store,
           Ret (AVal VNone)))
  /\ label_fill (place_label 2 2 30 3 6) [0; 204; 84]
     = Rectangle (1, 2) (8, 6) [0; 204; 84] (-1)
  /\ (forall label_image,
        label_blit (place_label 2 2 30 3 6) label_image
        = SetSlice (2, 5) (2, 8) label_image)
  /\ inset_left (place_label 2 2 30 3 6) = 1
  /\ inset_right 30 (place_label 2 2 30 3 6) = 1
  /\ inset_top (place_label 2 2 30 3 6) = 0
  /\ inset_bottom 20 (place_label 2 2 30 3 6) = 2
  /\ (exists label_image,
        add plain_env array_store (ARef 1%positive)
            (VInt 26) (VInt 8) (VInt 29) (VInt 18) (VStr "car") VNone
        = (<[1%positive :=
               HNdarray
                 (Buffer (bshape blank) (base blank)
                    [Rectangle (26, 8) (29, 18) [0; 204; 84] 15;
                     label_fill (place_label 26 8 30 3 6) [0; 204; 84];
                     label_blit (place_label 26 8 30 3 6) label_image])]>
             array_store,
           Ret (AVal VNone)))
  /\ label_fill (place_label 26 8 30 3 6) [0; 204; 84]
     = Rectangle (23, 4) (30, 8) [0; 204; 84] (-1)
  /\ (forall label_image,
        label_blit (place_label 26 8 30 3 6) label_image
        = SetSlice (5, 8) (24, 30) label_image)
  /\ inset_left (place_label 26 8 30 3 6) = 1
  /\ inset_right 30 (place_label 26 8 30 3 6) = 0
  /\ inset_top (place_label 26 8 30 3 6) = 1
  /\ inset_bottom 20 (place_label 26 8 30 3 6) = 1.
Proof.
  split; [eexists; vm_compute; reflexivity|].
  split; [reflexivity|]. split; [reflexivity|].
  split; [reflexivity|]. split; [reflexivity|].
  split; [reflexivity|]. split; [reflexivity|].
  split; [eexists; vm_compute; reflexivity|].
  split; [reflexivity|]. split; [reflexivity|].
  split; [reflexivity|]. split; [reflexivity|].
  split; [reflexivity|]. split; [reflexivity|].
  split; [eexists; vm_compute; reflexivity|].
  repeat split; reflexivity.
Qed.
End Placement.

(** ** [plot_bboxes] works on a copy *)

Section Frame.
Local Open Scope Z_scope.

Lemma fresh_loc_fresh (st : gmap loc hobj) : st !! fresh_loc st = None.
Proof.
  destruct (st !! fresh_loc st) as [o|] eqn:E; [|reflexivity].
  apply elem_of_map_to_list in E.
  assert (Hle : forall (l : list (loc * hobj)) k v,
            (k, v) ∈ l -> (k <= fold_right Pos.max 1 (map fst l))%positive).
  { induction l as [|[k' v'] l IH]; intros k v Hin.
    - inversion Hin.
    - apply elem_of_cons in Hin as [[= -> ->] | Hin]; cbn; [lia|].
      specialize (IH k v Hin). lia. }
  specialize (Hle _ _ _ E). unfold fresh_loc in Hle.
  apply Pos.le_succ_l in Hle. destruct (Pos.lt_irrefl _ Hle).
Qed.

(** A call of [add] that returns has passed the checks. *)
Lemma add_ret_inv env st image left top right bottom label color st' v :
  add env st image left top right bottom label color = (st', Ret v) ->
  exists p buf l t r b name entry,
    image = ARef p /\ st !! p = Some (HNdarray buf)
    /\ int_coordinates env left top right bottom = Ret (l, t, r, b)
    /\ resolve_color label color = Ret (name, entry)
    /\ cv2_rectangle env p (outline l t r b entry) = None.
Proof.
  intros Hadd.
  case_add env st image left top right bottom label color;
    try (rewrite Hres in Hadd; discriminate).
  exists p, buf, l, t, r, b, name, entry. auto.
Qed.

(** [add] touches no object but the image it is given. *)
Lemma add_frame env st image left top right bottom label color q :
  image <> ARef q ->
  fst (add env st image left top right bottom label color) !! q = st !! q.
Proof.
  intros Hq.
  case_add env st image left top right bottom label color;
    try (rewrite Hres; reflexivity).
  destruct (add_in_place env st p buf left top right bottom label color
              l t r b name entry Hp Hc Hr Hcv) as (buf' & more & -> & _).
  apply lookup_insert_ne. congruence.
Qed.

(** [int] of a float, when it returns. *)
Lemma int_number_ret env f z :
  int (int_str env) (number f) = Ret z -> z = float_int f.
Proof.
  unfold number, float_int. destruct (of_float f) as [q|n|]; cbn;
    [|discriminate..]. intros [= <-]. reflexivity.
Qed.

Lemma int_coordinates_numbers env a b c d l t r b' :
  int_coordinates env (number a) (number b) (number c) (number d)
  = Ret (l, t, r, b') ->
  l = float_int a /\ t = float_int b /\ r = float_int c /\ b' = float_int d.
Proof.
  unfold int_coordinates, ints. cbv zeta.
  destruct (int (int_str env) (number a)) as [z1|e1] eqn:E1; cbn [bind];
    [|destruct (cls e1); discriminate].
  destruct (int (int_str env) (number b)) as [z2|e2] eqn:E2; cbn [bind];
    [|destruct (cls e2); discriminate].
  destruct (int (int_str env) (number c)) as [z3|e3] eqn:E3; cbn [bind];
    [|destruct (cls e3); discriminate].
  destruct (int (int_str env) (number d)) as [z4|e4] eqn:E4; cbn [bind];
    [|destruct (cls e4); discriminate].
  intros [= <- <- <- <-].
  repeat split; eapply int_number_ret; eassumption.
Qed.

(** What a returning call of [add] on box coordinates does to the
    buffer at [p]. *)
Lemma add_numbers_ret env st p a b c d label color st' v :
  add env st (ARef p) (number a) (number b) (number c) (number d) label color
  = (st', Ret v) ->
  exists buf buf' entry more,
    st !! p = Some (HNdarray buf)
    /\ st' = <[p := HNdarray buf']> st
    /\ extends buf buf'
         (outline (float_int a) (float_int b) (float_int c) (float_int d) entry
          :: more).
Proof.
  intros Hadd.
  destruct (add_ret_inv _ _ _ _ _ _ _ _ _ _ _ Hadd)
    as (p' & buf & l & t & r & b' & name & entry & [= <-] & Hp & Hc & Hr & Hcv).
  destruct (int_coordinates_numbers _ _ _ _ _ _ _ _ _ Hc) as (-> & -> & -> & ->).
  destruct (add_in_place env st p buf _ _ _ _ label color
              _ _ _ _ name entry Hp Hc Hr Hcv)
    as (buf' & more & Hst & Hext & _).
  rewrite Hadd in Hst. cbn [fst] in Hst.
  exists buf, buf', entry, more. auto.
Qed.

Lemma extends_trans buf1 buf2 buf3 ops1 ops2 :
  extends buf1 buf2 ops1 -> extends buf2 buf3 ops2 ->
  extends buf1 buf3 (ops1 ++ ops2).
Proof.
  intros (S1 & B1 & O1) (S2 & B2 & O2). unfold extends.
  rewrite S2, B2, O2, O1, app_assoc. auto.
Qed.

(** The loop of [plot_bboxes], for a fixed array [combined] and fixed
    tables. *)
Section Loop.
Context (env : Env) (combined : loc)
        (label_mappings : list pyval) (colors : option (list pyval)).

Lemma plot_bbox_frame st i box q :
  q <> combined ->
  fst (plot_bbox env st combined label_mappings colors i box) !! q = st !! q.
Proof.
  intros Hq. unfold plot_bbox.
  destruct (getitem label_mappings (label box)) as [lbl|e]; [|reflexivity].
  destruct colors as [[|c cs]|]; try (apply add_frame; congruence).
  destruct (getitem (c :: cs) (Z.of_nat i)) as [color|e]; [|reflexivity].
  apply add_frame. congruence.
Qed.

Lemma plot_bbox_ret st i box st' v :
  plot_bbox env st combined label_mappings colors i box = (st', Ret v) ->
  exists buf buf' new_ops,
    st !! combined = Some (HNdarray buf)
    /\ st' = <[combined := HNdarray buf']> st
    /\ extends buf buf' new_ops
    /\ box_drawn box new_ops.
Proof.
  unfold plot_bbox.
  destruct (getitem label_mappings (label box)) as [lbl|e]; [|discriminate].
  assert (Hadd : forall label color,
            add env st (ARef combined) (number (x box)) (number (y box))
                (number (x box + w box)%float) (number (y box + h box)%float)
                label color
            = (st', Ret v) ->
            exists buf buf' new_ops,
              st !! combined = Some (HNdarray buf)
              /\ st' = <[combined := HNdarray buf']> st
              /\ extends buf buf' new_ops
              /\ box_drawn box new_ops).
  { intros label color Hadd.
    destruct (add_numbers_ret _ _ _ _ _ _ _ _ _ _ _ Hadd)
      as (buf & buf' & entry & more & Hp & Hst & Hext).
    exists buf, buf', (outline (float_int (x box)) (float_int (y box))
                         (float_int (x box + w box)%float)
                         (float_int (y box + h box)%float) entry
                       :: more).
    repeat split; try assumption; try apply Hext.
    exists (_rgb_to_bgr (fst entry)), more. reflexivity. }
  destruct colors as [[|c cs]|]; try apply Hadd.
  destruct (getitem (c :: cs) (Z.of_nat i)) as [color|e]; [|discriminate].
  apply Hadd.
Qed.

Lemma plot_loop_frame boxes q :
  q <> combined ->
  forall st i,
    fst (plot_loop env st combined label_mappings colors i boxes) !! q = st !! q.
Proof.
  intros Hq. induction boxes as [|box boxes IH]; intros st i; [reflexivity|].
  cbn [plot_loop].
  pose proof (plot_bbox_frame st i box q Hq) as Hb.
  destruct (plot_bbox env st combined label_mappings colors i box) as [st' [v|e]];
    cbn [fst] in Hb.
  - rewrite IH. exact Hb.
  - exact Hb.
Qed.

(** When the loop completes, every box has been drawn, in order, on the
    array at [combined]. *)
Lemma plot_loop_ret boxes :
  forall st i st' buf,
    st !! combined = Some (HNdarray buf) ->
    plot_loop env st combined label_mappings colors i boxes = (st', Ret tt) ->
    exists buf' per_box,
      st' !! combined = Some (HNdarray buf')
      /\ extends buf buf' (concat per_box)
      /\ Forall2 box_drawn boxes per_box.
Proof.
  induction boxes as [|box boxes IH]; intros st i st' buf Hc Hloop.
  - injection Hloop as <-. exists buf, []. repeat split; try assumption.
    + cbn. rewrite app_nil_r. reflexivity.
    + constructor.
  - cbn [plot_loop] in Hloop.
    destruct (plot_bbox env st combined label_mappings colors i box)
      as [st1 [v|e]] eqn:Hbox; [|discriminate].
    destruct (plot_bbox_ret _ _ _ _ _ Hbox)
      as (buf0 & buf1 & new_ops & Hc0 & -> & Hext1 & Hdrawn).
    rewrite Hc in Hc0. injection Hc0 as <-.
    destruct (IH _ _ _ buf1 (lookup_insert_eq _ _ _) Hloop)
      as (buf' & per_box & Hc' & Hext' & Hall).
    exists buf', (new_ops :: per_box). split; [exact Hc'|]. split.
    + cbn [concat]. eapply extends_trans; eassumption.
    + constructor; assumption.
Qed.
End Loop.

(** The corners of a box are sums of floats: for the box of left 0.1
    and width 16.9 the sum is 17.0 and the right corner is column 17,
    where the sum of the two exact values is just under 17. *)
Example box_c_right_corner :
  float_int (x box_c + w box_c)%float = 17
  /\ (exists p q,
        of_float (x box_c) = FFinite p /\ of_float (w box_c) = FFinite q
        /\ trunc (p + q) = 16)
  /\ (ops <$> (contents <$>
         fst (plot_bboxes plain_env image_store (ARef 1%positive)
                [box_c] [VStr "car"] None) !! 4%positive))
     = Some [Rectangle (0, 5) (17, 11) [0; 204; 84] 15;
             Rectangle (0, 1) (7, 5) [0; 204; 84] (-1);
             SetSlice (2, 5) (1, 7)
               (match _get_label_image (cell_font 2 3) "car"
                        [15; 64; 31] [0; 204; 84] with
                | Ret label_image => label_image
                | Raise _ => Ndarray [] []
                end)].
Proof.
  split; [vm_compute; reflexivity|]. split.
  - eexists _, _. split; [vm_compute; reflexivity|].
    split; [vm_compute; reflexivity|]. vm_compute. reflexivity.
  - vm_compute. reflexivity.
Qed.

(** C4 (corrected).  Whatever the image, the boxes, the label table and
    the colours are, and whether the call returns or raises,
    [plot_bboxes] leaves every object its caller holds as it was, the
    image first of all: the drawing is done on a copy.  When the call
    returns, it returns a new object, not one of the caller's, which is
    a PIL image with the original's shape and pixels and, on top of
    them, the writes of every box in the order of the list, each
    starting with the outline of its box. *)
Theorem C4_plot_bboxes_copies env st image boxes label_mappings colors :
  let res := plot_bboxes env st image boxes label_mappings colors in
  (forall q o, st !! q = Some o -> fst res !! q = Some o)
  /\ (forall v,
        snd res = Ret v ->
        exists p o out buf' per_box,
          image = ARef p /\ st !! p = Some o
          /\ v = ARef out /\ st !! out = None
          /\ fst res !! out = Some (HImage buf')
          /\ extends (contents o) buf' (concat per_box)
          /\ Forall2 box_drawn boxes per_box).
Proof.
  intros res. subst res. unfold plot_bboxes.
  destruct image as [val|p]; [split; [auto | discriminate]|].
  destruct (st !! p) as [o|] eqn:Hp; [|split; [auto | discriminate]].
  unfold alloc.
  set (copy := fresh_loc st).
  set (st1 := <[copy := o]> st).
  set (combined := fresh_loc st1).
  set (st2 := <[combined := HNdarray (contents o)]> st1).
  assert (Hcopy : st !! copy = None) by apply fresh_loc_fresh.
  assert (Hcomb1 : st1 !! combined = None) by apply fresh_loc_fresh.
  assert (Hframe2 : forall q o', st !! q = Some o' ->
                                 q <> combined /\ st2 !! q = Some o').
  { intros q o' Hq.
    assert (q <> copy) by congruence.
    assert (H1 : st1 !! q = Some o').
    { unfold st1. rewrite lookup_insert_ne by congruence. exact Hq. }
    assert (q <> combined) by congruence.
    split; [assumption|].
    unfold st2. rewrite lookup_insert_ne by congruence. exact H1. }
  pose proof (fun q Hq => plot_loop_frame env combined label_mappings colors
                            boxes q Hq st2 0%nat) as Hloopframe.
  pose proof (plot_loop_ret env combined label_mappings colors boxes st2 0%nat) as Hret.
  destruct (plot_loop env st2 combined label_mappings colors 0 boxes)
    as [st3 [[]|e]] eqn:Hloop; cbn [fst] in Hloopframe.
  - destruct (Hret st3 (contents o) (lookup_insert_eq _ _ _) eq_refl)
      as (buf' & per_box & Hc3 & Hext & Hall).
    rewrite Hc3.
    destruct (fromarray env combined) as [c|].
    { cbn [fst snd]. split; [|discriminate].
      intros q o' Hq. destruct (Hframe2 q o' Hq) as [Hne H2].
      rewrite Hloopframe; assumption. }
    set (out := fresh_loc st3).
    assert (Hout : st3 !! out = None) by apply fresh_loc_fresh.
    assert (Hframe3 : forall q o', st !! q = Some o' ->
                                   q <> out /\ st3 !! q = Some o').
    { intros q o' Hq. destruct (Hframe2 q o' Hq) as [Hne H2].
      assert (H3 : st3 !! q = Some o') by (rewrite Hloopframe; assumption).
      split; [congruence | exact H3]. }
    cbn [fst snd contents]. split.
    + intros q o' Hq. destruct (Hframe3 q o' Hq) as [Hne H3].
      rewrite lookup_insert_ne by congruence. exact H3.
    + intros v [= <-]. exists p, o, out, buf', per_box.
      repeat split; try assumption; try apply Hext.
      * destruct (st !! out) as [o'|] eqn:Hq; [|reflexivity].
        destruct (Hframe3 out o' Hq) as [Hne _]. congruence.
      * apply lookup_insert_eq.
  - cbn [fst snd]. split; [|discriminate].
    intros q o' Hq. destruct (Hframe2 q o' Hq) as [Hne H2].
    rewrite Hloopframe; assumption.
Qed.
End Frame.

(** C4, on a concrete input. *)
Lemma C4_plot_bboxes_copies_witness :
  let res := plot_bboxes plain_env image_store (ARef 1%positive)
               [box_a; box_b] [VStr "car"; VStr "person"] None in
  fst res !! 1%positive = Some (HImage blank)
  /\ exists out buf' per_box,
       snd res = Ret (ARef out)
       /\ image_store !! out = None
       /\ fst res !! out = Some (HImage buf')
       /\ extends blank buf' (concat per_box)
       /\ Forall2 box_drawn [box_a; box_b] per_box.
Proof.
  destruct (C4_plot_bboxes_copies plain_env image_store (ARef 1%positive)
              [box_a; box_b] [VStr "car"; VStr "person"] None)
    as [Hframe Hret].
  split; [apply Hframe; reflexivity|].
  destruct (Hret (ARef 4%positive)) as (p & o & out & buf' & per_box & Hp & Ho & Hv & Hres).
  { vm_compute. reflexivity. }
  injection Hp as <-. injection Hv as <-.
  vm_compute in Ho. injection Ho as <-.
  exists 4%positive, buf', per_box. split; [vm_compute; reflexivity | exact Hres].
Defined.

(** C4, counterexample.  The call does not return an image for every
    image and box list: an exception raised while a box is drawn
    propagates.  With the colours "red" and "pink" the second box makes
    [add] raise the [ValueError] of line 421; and for a greyscale image,
    whose array has two axes, line 429 raises a [ValueError] at the
    first labelled box.  The caller's image is as it was in both cases. *)
Lemma C4_plot_bboxes_raises_counterexample :
  snd (plot_bboxes plain_env image_store (ARef 1%positive)
         [box_a; box_b] [VStr "car"; VStr "person"]
         (Some [VStr "red"; VStr "pink"]))
    = Raise color_value_error
  /\ fst (plot_bboxes plain_env image_store (ARef 1%positive)
            [box_a; box_b] [VStr "car"; VStr "person"]
            (Some [VStr "red"; VStr "pink"])) !! 1%positive
     = image_store !! 1%positive
  /\ snd (plot_bboxes plain_env grey_store (ARef 1%positive)
            [box_a] [VStr "car"] None)
     = Raise (Exn ValueError None)
  /\ fst (plot_bboxes plain_env grey_store (ARef 1%positive)
            [box_a] [VStr "car"] None) !! 1%positive
     = grey_store !! 1%positive.
Proof. repeat split; vm_compute; reflexivity. Qed.

(** ** The colourised label raster *)

Section LabelImage.

Lemma lookup_flat_map_const {A B} (f : A -> list B) (n : nat) (l : list A) :
  (forall a, length (f a) = n) ->
  forall j c a,
    l !! j = Some a -> c < n ->
    flat_map f l !! (j * n + c) = f a !! c.
Proof.
  intros Hlen. induction l as [|a0 l IH]; intros j c a Hj Hc; [discriminate|].
  cbn [flat_map]. destruct j as [|j].
  - injection Hj as ->. cbn. apply lookup_app_l. rewrite Hlen. exact Hc.
  - cbn in Hj. rewrite lookup_app_r by (rewrite Hlen; lia).
    rewrite Hlen. replace (S j * n + c - n) with (j * n + c) by lia.
    apply IH; assumption.
Qed.

Lemma length_flat_map_const {A B} (f : A -> list B) (n : nat) (l : list A) :
  (forall a, length (f a) = n) -> length (flat_map f l) = length l * n.
Proof.
  intros Hlen. induction l as [|a l IH]; [reflexivity|].
  cbn [flat_map]. rewrite length_app, Hlen, IH. cbn. lia.
Qed.

Lemma lookup_concat_const {A} (m : nat) (planes : list (list A)) :
  Forall (fun pl => length pl = m) planes ->
  forall c j pl,
    planes !! c = Some pl -> j < m ->
    concat planes !! (c * m + j) = pl !! j.
Proof.
  induction 1 as [|pl0 planes Hpl0 _ IH]; intros c j pl Hc Hj; [discriminate|].
  cbn [concat]. destruct c as [|c].
  - injection Hc as ->. cbn. apply lookup_app_l. lia.
  - cbn in Hc. rewrite lookup_app_r by lia.
    replace (S c * m + j - length pl0) with (c * m + j) by lia.
    apply IH; assumption.
Qed.

Lemma color_image_length image f b : length (_color_image image f b) = length image.
Proof. unfold _color_image. apply length_map. Qed.

(** The code's arithmetic is the specification's interpolation. *)
Lemma color_image_interpolate b f m :
  (inject_Z b + inject_Z ((f - b) * m) / inject_Z 255 == interpolate b f m)%Q.
Proof.
  unfold interpolate, Z.sub.
  rewrite inject_Z_mult, inject_Z_plus, inject_Z_opp. field; discriminate.
Qed.

(** C8.  For every glyph mask (of width [w] and height [h], as the font
    returns it for the text) and every pair of three-channel colours,
    [_get_label_image] returns an array of shape (h, w, 3) whose element
    (y, x, c) is, in exact arithmetic, the linear interpolation
    background + (foreground - background) * mask / 255 of channel [c] of
    the two colours at the mask's pixel (y, x); the foreground is the
    font colour. *)
Theorem C8_label_image_interpolation
    (font : Font) (text : string) (font_color background_color : list Z) :
  length font_color = 3 ->
  length background_color = 3 ->
  let w := fst (size (font text)) in
  let h := snd (size (font text)) in
  exists out,
    _get_label_image font text font_color background_color = Ret out
    /\ shape out = [h; w; 3]
    /\ length (data out) = h * w * 3
    /\ forall y x c,
         y < h -> x < w -> c < 3 ->
         exists v,
           data out !! ((y * w + x) * 3 + c) = Some v
           /\ (v == interpolate (nth c background_color 0%Z)
                                (nth c font_color 0%Z)
                                (getpixel (font text) (y * w + x)))%Q.
Proof.
  intros Hf Hb w h. subst w h. unfold _get_label_image.
  destruct (size (font text)) as [w h] eqn:Hsize. cbn [fst snd].
  destruct font_color as [|f0 [|f1 [|f2 [|? ?]]]]; try discriminate.
  destruct background_color as [|b0 [|b1 [|b2 [|? ?]]]]; try discriminate.
  cbn [zip zip_with map length].
  set (bw := map (getpixel (font text)) (seq 0 (w * h))).
  assert (Hbw : length bw = h * w).
  { unfold bw. rewrite length_map, length_seq. lia. }
  set (planes := [_color_image bw f0 b0; _color_image bw f1 b1;
                  _color_image bw f2 b2]).
  eexists. split; [reflexivity|]. cbn [shape data].
  split; [reflexivity|].
  assert (Hchunk : forall j : nat,
            length (map (fun i0 => nth (i0 * (h * w) + j) (concat planes) 0%Q)
                        (seq 0 3)) = 3).
  { intros j. reflexivity. }
  split.
  { unfold transpose_120. rewrite (length_flat_map_const _ 3 _ Hchunk).
    rewrite length_seq. reflexivity. }
  intros y x c Hy Hx Hc.
  assert (Hj : y * w + x < h * w) by nia.
  unfold transpose_120.
  rewrite (lookup_flat_map_const _ 3 _ Hchunk (y * w + x) c (y * w + x))
    by (try apply lookup_seq; auto; lia).
  rewrite list_lookup_fmap. rewrite lookup_seq_lt by exact Hc.
  cbn [fmap option_fmap option_map]. rewrite Nat.add_0_l.
  assert (Hplanes : Forall (fun pl => length pl = h * w) planes).
  { unfold planes. repeat constructor; rewrite color_image_length; exact Hbw. }
  assert (Hpix : forall f b,
            _color_image bw f b !! (y * w + x)
            = Some (inject_Z b
                    + inject_Z ((f - b) * getpixel (font text) (y * w + x))
                      / inject_Z 255)%Q).
  { intros f b. unfold _color_image, bw.
    rewrite !list_lookup_fmap. rewrite lookup_seq_lt by lia. reflexivity. }
  assert (Hcat :
    concat planes !! (c * (h * w) + (y * w + x))
    = Some (inject_Z (nth c [b0; b1; b2] 0%Z)
            + inject_Z ((nth c [f0; f1; f2] 0%Z - nth c [b0; b1; b2] 0%Z)
                        * getpixel (font text) (y * w + x))
              / inject_Z 255)%Q).
  { destruct c as [|[|[|c]]]; [| | |lia].
    - rewrite (lookup_concat_const _ _ Hplanes 0 _ _ eq_refl Hj). apply Hpix.
    - rewrite (lookup_concat_const _ _ Hplanes 1 _ _ eq_refl Hj). apply Hpix.
    - rewrite (lookup_concat_const _ _ Hplanes 2 _ _ eq_refl Hj). apply Hpix. }
  rewrite nth_lookup, Hcat. cbn [default from_option].
  eexists. split; [reflexivity | apply color_image_interpolate].
Qed.
End LabelImage.

(** C8, on a concrete input. *)
Lemma C8_label_image_interpolation_witness :
  let w := fst (size (cell_font 2 3 "car")) in
  let h := snd (size (cell_font 2 3 "car")) in
  exists out,
    _get_label_image (cell_font 2 3) "car" [15; 64; 31]%Z [0; 204; 84]%Z = Ret out
    /\ shape out = [h; w; 3]
    /\ length (data out) = h * w * 3
    /\ forall y x c,
         y < h -> x < w -> c < 3 ->
         exists v,
           data out !! ((y * w + x) * 3 + c) = Some v
           /\ (v == interpolate (nth c [0; 204; 84]%Z 0%Z)
                                (nth c [15; 64; 31]%Z 0%Z)
                                (getpixel (cell_font 2 3 "car") (y * w + x)))%Q.
Proof.
  apply (C8_label_image_interpolation (cell_font 2 3) "car"
           [15; 64; 31]%Z [0; 204; 84]%Z); reflexivity.
Defined.

(** ** Segmentation decoding *)

Section DecodeSegmap.

Lemma paint_length labels rgb_data item :
  length (paint labels rgb_data item) = length rgb_data.
Proof. unfold paint. destruct item as [id color]. apply length_imap. Qed.

(** Channel [c] of pixel [p], whose class is [lab]. *)
Section Pixel.
Context (labels : list Z) (p c : nat) (lab : Z).
Hypothesis Hp : labels !! p = Some lab.
Hypothesis Hc : c < 3.

(** One pass of the loop. *)
Lemma paint_lookup rgb_data id color old :
  rgb_data !! (3 * p + c) = Some old ->
  paint labels rgb_data (id, color) !! (3 * p + c)
  = Some (if Z.eqb id lab
          then (inject_Z (channel c color) / inject_Z 255)%Q
          else old).
Proof.
  intros Hold. unfold paint.
  rewrite list_lookup_imap, Hold. cbn [fmap option_fmap option_map].
  replace ((3 * p + c) / 3) with p
    by (apply Nat.div_unique with c; lia).
  replace ((3 * p + c) mod 3) with c
    by (apply Nat.mod_unique with p; lia).
  rewrite list_lookup_fmap, Hp. cbn [fmap option_fmap option_map].
  destruct (Z.eqb id lab); [|reflexivity].
  destruct color as [[r g] b]. unfold channel.
  destruct c as [|[|[|c']]]; [reflexivity.. | lia].
Qed.

(** The loop over the items of the table, whatever their order: the
    last colour painted on a pixel is the one the table gives to its
    class. *)
Lemma paint_fold (l : list (Z * rgb)) :
  NoDup l.*1 ->
  forall rgb_data old,
    rgb_data !! (3 * p + c) = Some old ->
    fold_left (paint labels) l rgb_data !! (3 * p + c)
    = Some (match (list_to_map l : gmap Z rgb) !! lab with
            | Some color => (inject_Z (channel c color) / inject_Z 255)%Q
            | None => old
            end).
Proof.
  induction l as [|[k color] l IH]; intros Hnd rgb_data old Hold.
  - cbn. rewrite lookup_empty. exact Hold.
  - cbn [fmap list_fmap] in Hnd. apply NoDup_cons in Hnd as [Hk Hnd].
    cbn [fold_left list_to_map foldr uncurry].
    rewrite (IH Hnd _ _ (paint_lookup _ k color _ Hold)).
    destruct (Z.eqb_spec k lab) as [->|Hne].
    + rewrite lookup_insert_eq.
      rewrite (not_elem_of_list_to_map_1 _ _ Hk). reflexivity.
    + rewrite lookup_insert_ne by exact Hne. reflexivity.
Qed.
End Pixel.

(** C7.  For every (h, w) integer label array and the dataset
    "cityscapes", [decode_segmap] returns an array of shape (h, w, 3) in
    which, for each pixel, the three channels are the table's colour for
    the pixel's class divided by 255 when the class is a key of the
    table, and 0, the value the array was created with, when it is not. *)
Theorem C7_decode_segmap (CITYSCAPES_COLOR_MAPPING : gmap Z rgb)
    (h w : nat) (labels : list Z) :
  exists out,
    decode_segmap CITYSCAPES_COLOR_MAPPING (IntArray [h; w] labels) "cityscapes"
    = Ret out
    /\ shape out = [h; w; 3]
    /\ length (data out) = h * w * 3
    /\ forall p c id,
         p < h * w -> c < 3 ->
         labels !! p = Some id ->
         data out !! (3 * p + c)
         = Some (match CITYSCAPES_COLOR_MAPPING !! id with
                 | Some color => (inject_Z (channel c color) / inject_Z 255)%Q
                 | None => 0%Q
                 end).
Proof.
  eexists. split; [reflexivity|]. cbn [shape data idata].
  split; [reflexivity|]. split.
  - generalize (replicate (h * w * 3) 0%Q) (length_replicate (h * w * 3) 0%Q).
    induction (map_to_list CITYSCAPES_COLOR_MAPPING) as [|item l IH];
      intros rgb_data Hlen; [exact Hlen|].
    cbn [fold_left]. apply IH. rewrite paint_length. exact Hlen.
  - intros p c id Hp Hc Hid.
    rewrite (paint_fold labels p c id Hid Hc _
               (NoDup_fst_map_to_list CITYSCAPES_COLOR_MAPPING) _ 0%Q).
    + rewrite list_to_map_to_list. reflexivity.
    + apply lookup_replicate_2. lia.
Qed.

(** C7, on a concrete input. *)
Lemma C7_decode_segmap_witness :
  exists out,
    decode_segmap two_classes small_labels "cityscapes" = Ret out
    /\ shape out = [2; 3; 3]
    /\ data out !! (3 * 1 + 2) = Some (inject_Z 142 / inject_Z 255)%Q
    /\ data out !! (3 * 2 + 0) = Some 0%Q.
Proof.
  destruct (C7_decode_segmap two_classes 2 3 [7; 26; 0; 7; 7; 26]%Z)
    as (out & Hout & Hshape & _ & Hpix).
  exists out. split; [exact Hout|]. split; [exact Hshape|]. split.
  - apply (Hpix 1 2 26%Z); [lia | lia | reflexivity].
  - apply (Hpix 2 0 0%Z); [lia | lia | reflexivity].
Defined.
End DecodeSegmap.

(** * Further properties of the module *)

(** ** [add]: frame, success and failure of the label stage *)

Section AddMore.
Local Open Scope Z_scope.

(** X1.  Whatever its arguments and whether it returns or raises, [add]
    changes no object of the store other than the image it is given and
    creates none; and the image it is given is either left as it was or
    is the same array with writes appended: shape, initial contents and
    earlier writes are kept. *)
Theorem X1_add_touches_only_its_image
    env st image left top right bottom label color :
  let st' := fst (add env st image left top right bottom label color) in
  (forall q, image <> ARef q -> st' !! q = st !! q)
  /\ dom st' = dom st
  /\ (forall p, image = ARef p ->
        st' !! p = st !! p
        \/ exists buf buf' more,
             st !! p = Some (HNdarray buf)
             /\ st' !! p = Some (HNdarray buf')
             /\ extends buf buf' more).
Proof.
  intros st'. subst st'.
  split; [intros q Hq; apply add_frame, Hq|].
  case_add env st image left top right bottom label color;
    try (rewrite Hres; cbn [fst]; split; [reflexivity | intros; left; reflexivity]).
  destruct (add_in_place env st p buf left top right bottom label color
              l t r b name entry Hp Hc Hr Hcv) as (buf' & more & -> & Hext & _).
  split.
  - rewrite dom_insert_L. apply elem_of_dom_2 in Hp.
    apply subseteq_union_1_L, singleton_subseteq_l, Hp.
  - intros p' Heq. injection Heq as <-. right. exists buf, buf', (outline l t r b entry :: more).
    rewrite lookup_insert_eq. auto.
Qed.

Lemma slice_len_inside (n : nat) (a b : Z) :
  0 <= a -> a <= b -> b <= Z.of_nat n ->
  slice_len n a b = Z.to_nat (b - a).
Proof.
  intros Ha Hab Hb. unfold slice_len, adjust_index.
  destruct (Z.ltb_spec b 0); [lia|]. destruct (Z.ltb_spec a 0); [lia|].
  f_equal. lia.
Qed.

Lemma slice_len_le (n : nat) (a b : Z) : (slice_len n a b <= n)%nat.
Proof.
  unfold slice_len, adjust_index.
  destruct (Z.ltb_spec b 0); destruct (Z.ltb_spec a 0); lia.
Qed.

(** [add_label] step by step, on an image with three axes. *)
Lemma add_label_unfold env p image left top text (c ct : rgb) ih iw ch :
  bshape image = [ih; iw; ch] ->
  exists li,
    _get_label_image (getmask env) text (_rgb_to_bgr ct) (_rgb_to_bgr c) = Ret li
    /\ let lw := fst (size (getmask env text)) in
       let lh := snd (size (getmask env text)) in
       let b := place_label left top (Z.of_nat iw) (Z.of_nat lh) (Z.of_nat lw) in
       add_label env p image left top text (_rgb_to_bgr c) (_rgb_to_bgr ct)
       = match cv2_rectangle env p (label_fill b (_rgb_to_bgr c)) with
         | Some cl => (image, Raise (Exn cl None))
         | None =>
             if broadcastable [lh; lw; 3%nat]
                  [slice_len ih (label_top b) (label_bottom b);
                   slice_len iw (label_left b) (label_right b); ch]
             then (draw (label_blit b li)
                        (draw (label_fill b (_rgb_to_bgr c)) image),
                   Ret tt)
             else (draw (label_fill b (_rgb_to_bgr c)) image,
                   Raise (Exn ValueError None))
         end.
Proof.
  intros Hsh.
  destruct (get_label_image_rgb (getmask env) text c ct) as (li & Hli & Hlsh).
  exists li. split; [exact Hli|]. cbn zeta.
  unfold add_label, rectangle, label_fill. rewrite Hsh, Hli, Hlsh.
  destruct (cv2_rectangle env p _); reflexivity.
Qed.

(** X2.  A labelled call whose label fits returns.  When the image is an
    array of three axes and three channels, the checks pass, OpenCV
    performs the two rectangles, the label rectangle (one pixel wider
    than the glyph raster) is no wider than the image, the top of the
    box is not negative and the placement chosen leaves the raster
    inside the image (the box's top is at most the image height in the
    default placement, the box's top plus the raster's height is at most
    the image height in the flipped one), [add] returns [None] and has
    written exactly the outline, the label fill and the raster, in this
    order. *)
Theorem X2_add_label_fits
    env st p buf left top right bottom text color l t r b name entry
    (ih iw : nat) :
  st !! p = Some (HNdarray buf) ->
  int_coordinates env left top right bottom = Ret (l, t, r, b) ->
  resolve_color (VStr text) color = Ret (name, entry) ->
  text <> ""%string ->
  bshape buf = [ih; iw; 3%nat] ->
  let lw := Z.of_nat (fst (size (getmask env text))) in
  let lh := Z.of_nat (snd (size (getmask env text))) in
  let box := place_label l t (Z.of_nat iw) lh lw in
  cv2_rectangle env p (outline l t r b entry) = None ->
  cv2_rectangle env p (label_fill box (_rgb_to_bgr (fst entry))) = None ->
  1 + lw <= Z.of_nat iw ->
  0 <= t ->
  (1 + lh <= t -> t <= Z.of_nat ih) ->
  (t < 1 + lh -> t + lh <= Z.of_nat ih) ->
  exists buf' label_image,
    add env st (ARef p) left top right bottom (VStr text) color
    = (<[p := HNdarray buf']> st, Ret (AVal VNone))
    /\ extends buf buf'
         [outline l t r b entry;
          label_fill box (_rgb_to_bgr (fst entry));
          label_blit box label_image].
Proof.
  intros Hp Hc Hr Htext Hsh lw lh box Hcv Hfill Hw Ht Hdef Hflip.
  rewrite (add_draws env _ _ _ _ _ _ _ _ _ _ _ _ _ _ _ Hp Hc Hr Hcv). cbn zeta.
  rewrite (proj2 (truthy_str text) Htext).
  set (buf1 := draw (outline l t r b entry) buf).
  destruct (add_label_unfold env p buf1 l t text (fst entry) (snd entry) ih iw 3 Hsh)
    as (li & Hli & Hal).
  cbn zeta in Hal. fold lw lh in Hal. fold box in Hal. rewrite Hal, Hfill.
  assert (Hrows : slice_len ih (label_top box) (label_bottom box)
                  = snd (size (getmask env text))).
  { subst box. destruct (Z.lt_ge_cases (t - (1 + lh)) 0) as [Hf | Hd].
    - rewrite place_label_flipped by assumption. cbn.
      rewrite slice_len_inside by lia. lia.
    - rewrite place_label_default by assumption. cbn.
      rewrite slice_len_inside by lia. lia. }
  assert (Hcols : slice_len iw (label_left box) (label_right box)
                  = fst (size (getmask env text))).
  { subst box. destruct (Z.lt_ge_cases (t - (1 + lh)) 0) as [Hf | Hd].
    - rewrite place_label_flipped by assumption. cbn.
      rewrite slice_len_inside by lia. lia.
    - rewrite place_label_default by assumption. cbn.
      rewrite slice_len_inside by lia. lia. }
  rewrite Hrows, Hcols. cbn [broadcastable].
  rewrite !Nat.eqb_refl. cbn [orb andb bind].
  eexists _, li. split; [reflexivity|].
  unfold extends, draw, buf1. cbn. rewrite <- !app_assoc. auto.
Qed.

(** X2, on a concrete input. *)
Lemma X2_add_label_fits_witness :
  exists buf' label_image,
    add plain_env array_store (ARef 1%positive)
        (VInt 2) (VInt 8) (VInt 12) (VInt 18) (VStr "car") VNone
    = (<[1%positive := HNdarray buf']> array_store, Ret (AVal VNone))
    /\ extends blank buf'
         [outline 2 8 12 18 ((0, 204, 84), (15, 64, 31));
          label_fill (place_label 2 8 30 3 6) [0; 204; 84];
          label_blit (place_label 2 8 30 3 6) label_image].
Proof.
  apply (X2_add_label_fits plain_env array_store 1%positive blank
           (VInt 2) (VInt 8) (VInt 12) (VInt 18) "car" VNone 2 8 12 18
           "green"%string ((0, 204, 84), (15, 64, 31)) 20 30).
  - reflexivity.
  - reflexivity.
  - vm_compute. reflexivity.
  - discriminate.
  - reflexivity.
  - reflexivity.
  - reflexivity.
  - vm_compute. discriminate.
  - vm_compute. discriminate.
  - intros _. vm_compute. discriminate.
  - vm_compute. discriminate.
Defined.

(** X3.  The label stage is not atomic.  When the glyph raster is wider
    than the image (and more than one pixel wide) and OpenCV performs
    the two rectangles, a labelled call that has passed the checks
    raises a [ValueError] from the slice assignment of line 459 after
    the outline and the label fill have been written to the caller's
    image: these two writes stay. *)
Theorem X3_add_label_too_wide
    env st p buf left top right bottom text color l t r b name entry
    (ih iw ch : nat) :
  st !! p = Some (HNdarray buf) ->
  int_coordinates env left top right bottom = Ret (l, t, r, b) ->
  resolve_color (VStr text) color = Ret (name, entry) ->
  text <> ""%string ->
  bshape buf = [ih; iw; ch] ->
  let box := place_label l t (Z.of_nat iw)
               (Z.of_nat (snd (size (getmask env text))))
               (Z.of_nat (fst (size (getmask env text)))) in
  cv2_rectangle env p (outline l t r b entry) = None ->
  cv2_rectangle env p (label_fill box (_rgb_to_bgr (fst entry))) = None ->
  (iw < fst (size (getmask env text)))%nat ->
  (1 < fst (size (getmask env text)))%nat ->
  exists buf',
    add env st (ARef p) left top right bottom (VStr text) color
    = (<[p := HNdarray buf']> st, Raise (Exn ValueError None))
    /\ extends buf buf'
         [outline l t r b entry; label_fill box (_rgb_to_bgr (fst entry))].
Proof.
  intros Hp Hc Hr Htext Hsh box Hcv Hfill Hwide Hone.
  rewrite (add_draws env _ _ _ _ _ _ _ _ _ _ _ _ _ _ _ Hp Hc Hr Hcv). cbn zeta.
  rewrite (proj2 (truthy_str text) Htext).
  set (buf1 := draw (outline l t r b entry) buf).
  destruct (add_label_unfold env p buf1 l t text (fst entry) (snd entry) ih iw ch Hsh)
    as (li & Hli & Hal).
  cbn zeta in Hal. fold box in Hal. rewrite Hal, Hfill.
  pose proof (slice_len_le iw (label_left box) (label_right box)) as Hle.
  assert (Hno : broadcastable
                  [snd (size (getmask env text)); fst (size (getmask env text));
                   3%nat]
                  [slice_len ih (label_top box) (label_bottom box);
                   slice_len iw (label_left box) (label_right box); ch]
                = false).
  { cbn [broadcastable].
    destruct (Nat.eqb_spec (fst (size (getmask env text)))
                (slice_len iw (label_left box) (label_right box))); [lia|].
    destruct (Nat.eqb_spec (fst (size (getmask env text))) 1); [lia|].
    cbn [orb andb]. apply andb_false_r. }
  rewrite Hno. cbn [bind]. eexists. split; [reflexivity|].
  unfold extends, draw, buf1. cbn. rewrite <- !app_assoc. auto.
Qed.

(** X3, on a concrete input. *)
Lemma X3_add_label_too_wide_witness :
  exists buf',
    add plain_env array_store (ARef 1%positive)
        (VInt 2) (VInt 8) (VInt 12) (VInt 18) (VStr "a very long label") VNone
    = (<[1%positive := HNdarray buf']> array_store, Raise (Exn ValueError None))
    /\ extends blank buf'
         [outline 2 8 12 18 ((220, 220, 220), (0, 0, 0));
          label_fill (place_label 2 8 30 3 34) [220; 220; 220]].
Proof.
  apply (X3_add_label_too_wide plain_env array_store 1%positive blank
           (VInt 2) (VInt 8) (VInt 12) (VInt 18) "a very long label" VNone
           2 8 12 18 "silver"%string ((220, 220, 220), (0, 0, 0)) 20 30 3).
  - reflexivity.
  - reflexivity.
  - vm_compute. reflexivity.
  - discriminate.
  - reflexivity.
  - reflexivity.
  - reflexivity.
  - vm_compute. lia.
  - vm_compute. lia.
Defined.

Lemma add_ret_labelled_shape
    env st p buf left top right bottom text color st' v :
  st !! p = Some (HNdarray buf) ->
  text <> ""%string ->
  add env st (ARef p) left top right bottom (VStr text) color = (st', Ret v) ->
  exists ih iw : nat, bshape buf = [ih; iw; 3%nat].
Proof.
  intros Hp Htext Hadd.
  destruct (add_ret_inv _ _ _ _ _ _ _ _ _ _ _ Hadd)
    as (p' & buf0 & l & t & r & b & name & entry & Heq & Hp' & Hc & Hr & Hcv).
  injection Heq as <-. rewrite Hp in Hp'. injection Hp' as <-.
  rewrite (add_draws env _ _ _ _ _ _ _ _ _ _ _ _ _ _ _ Hp Hc Hr Hcv) in Hadd.
  cbn zeta in Hadd. rewrite (proj2 (truthy_str text) Htext) in Hadd.
  set (buf1 := draw (outline l t r b entry) buf) in *.
  assert (Hsh1 : bshape buf1 = bshape buf) by reflexivity.
  destruct (bshape buf) as [|ih [|iw [|ch [|? ?]]]] eqn:Hsh;
    try (unfold add_label in Hadd; rewrite Hsh1 in Hadd; discriminate).
  destruct (add_label_unfold env p buf1 l t text (fst entry) (snd entry)
              ih iw ch Hsh1) as (li & _ & Hal).
  cbn zeta in Hal. rewrite Hal in Hadd.
  destruct (cv2_rectangle env p _) as [cl|]; [discriminate|].
  destruct (broadcastable _ _) eqn:Hb; [|discriminate].
  cbn [broadcastable] in Hb.
  apply andb_prop in Hb as [_ Hb]. apply andb_prop in Hb as [_ Hb].
  apply andb_prop in Hb as [Hb _].
  destruct (Nat.eqb_spec 3 ch) as [<-|]; [eauto | discriminate].
Qed.

(** X4.  A labelled call returns only for an image it can label: if a
    call with a non-empty label returns, the array it was given has
    exactly three axes and its third axis has length three. *)
Theorem X4_add_label_needs_rgb
    env st p buf left top right bottom text color st' v :
  st !! p = Some (HNdarray buf) ->
  text <> ""%string ->
  add env st (ARef p) left top right bottom (VStr text) color = (st', Ret v) ->
  exists ih iw : nat, bshape buf = [ih; iw; 3%nat].
Proof. apply add_ret_labelled_shape. Qed.

(** X4, on a concrete input. *)
Lemma X4_add_label_needs_rgb_witness :
  exists ih iw : nat, bshape blank = [ih; iw; 3%nat].
Proof.
  apply (X4_add_label_needs_rgb plain_env array_store 1%positive blank
           (VInt 2) (VInt 8) (VInt 12) (VInt 18) "car" VNone
           (fst (add plain_env array_store (ARef 1%positive)
                     (VInt 2) (VInt 8) (VInt 12) (VInt 18) (VStr "car") VNone))
           (AVal VNone)).
  - reflexivity.
  - discriminate.
  - vm_compute. reflexivity.
Defined.
End AddMore.

(** ** Placement and colouring of the label raster *)

Section LabelMore.
Local Open Scope Z_scope.

(** X5.  Whatever the box and the image are, the label rectangle is one
    unit wider and one unit higher than the glyph raster and the slice
    written has exactly the raster's size; the rectangle always has the
    box's top row as its bottom row (default placement) or as its top
    row (flipped placement).  Horizontally the rectangle starts one
    column left of the box when that column exists and the rectangle
    then ends inside the image; when the rectangle fits the image but
    would end past it, it ends exactly at the image width; when the box
    starts at column 0 or left of it, the rectangle starts at column
    0. *)
Theorem X5_place_label_geometry (left top image_width label_height label_width : Z) :
  let b := place_label left top image_width label_height label_width in
  rectangle_right b - rectangle_left b = 1 + label_width
  /\ rectangle_bottom b - rectangle_top b = 1 + label_height
  /\ label_right b - label_left b = label_width
  /\ label_bottom b - label_top b = label_height
  /\ (rectangle_bottom b = top \/ rectangle_top b = top)
  /\ (1 <= left -> left + label_width <= image_width ->
      rectangle_left b = left - 1)
  /\ (1 + label_width <= image_width -> image_width < left + label_width ->
      rectangle_right b = image_width)
  /\ (left <= 1 -> rectangle_left b = 0).
Proof.
  intros b. subst b.
  destruct (Z.lt_ge_cases (top - (1 + label_height)) 0) as [Hflip | Hdef].
  - rewrite place_label_flipped by assumption. cbn. repeat split; lia.
  - rewrite place_label_default by assumption. cbn. repeat split; lia.
Qed.

End LabelMore.

Section RasterMore.

(** The planes of the colourised raster, before transposition. *)
Lemma planes_lookup (bw : list Z) (fcs bcs : list Z) (c : nat) f b :
  fcs !! c = Some f -> bcs !! c = Some b ->
  map (fun '(font_color, background_color) =>
         _color_image bw font_color background_color) (zip fcs bcs) !! c
  = Some (_color_image bw f b).
Proof.
  intros Hf Hb. rewrite list_lookup_fmap.
  rewrite (proj2 (lookup_zip_with_Some pair fcs bcs c (f, b))); [reflexivity|].
  exists f, b. auto.
Qed.

(** Element (y, x, c) of the raster, for colour tuples of any length. *)
Lemma get_label_image_lookup font text (fcs bcs : list Z) (y x c : nat) f b :
  let w := fst (size (font text)) in
  let h := snd (size (font text)) in
  fcs !! c = Some f -> bcs !! c = Some b ->
  (y < h)%nat -> (x < w)%nat ->
  exists out,
    _get_label_image font text fcs bcs = Ret out
    /\ shape out = [h; w; Nat.min (length fcs) (length bcs)]
    /\ data out !! ((y * w + x) * Nat.min (length fcs) (length bcs) + c)%nat
       = Some (inject_Z b
               + inject_Z ((f - b) * getpixel (font text) (y * w + x))
                 / inject_Z 255)%Q.
Proof.
  intros w h Hf Hb Hy Hx. subst w h. unfold _get_label_image.
  destruct (size (font text)) as [w h] eqn:Hsize. cbn [fst snd] in *.
  set (bw := map (getpixel (font text)) (seq 0 (w * h))).
  set (planes := map (fun '(font_color, background_color) =>
                        _color_image bw font_color background_color)
                     (zip fcs bcs)).
  assert (Hn : length planes = Nat.min (length fcs) (length bcs)).
  { unfold planes. rewrite length_map. apply length_zip_with. }
  assert (Hc : (c < length planes)%nat).
  { rewrite Hn. apply lookup_lt_Some in Hf, Hb. lia. }
  assert (Hpl : planes !! c = Some (_color_image bw f b))
    by (apply planes_lookup; assumption).
  destruct planes as [|pl0 planes'] eqn:Hplanes; [cbn in Hc; lia|].
  rewrite <- Hplanes in *. clear Hplanes pl0 planes'.
  eexists. split; [reflexivity|]. cbn [shape data]. rewrite Hn.
  split; [reflexivity|].
  assert (Hbw : length bw = (h * w)%nat).
  { unfold bw. rewrite length_map, length_seq. lia. }
  assert (Hj : (y * w + x < h * w)%nat) by nia.
  assert (Hchunk : forall j : nat,
            length (map (fun i0 => nth (i0 * (h * w) + j)%nat (concat planes) 0%Q)
                        (seq 0 (Nat.min (length fcs) (length bcs))))
            = Nat.min (length fcs) (length bcs)).
  { intros j. rewrite length_map, length_seq. reflexivity. }
  unfold transpose_120.
  rewrite (lookup_flat_map_const _ _ _ Hchunk (y * w + x) c (y * w + x))
    by (try apply lookup_seq; auto; lia).
  rewrite list_lookup_fmap. rewrite lookup_seq_lt by lia.
  cbn [fmap option_fmap option_map]. rewrite Nat.add_0_l.
  assert (Hplanes : Forall (fun pl => length pl = (h * w)%nat) planes).
  { unfold planes. apply Forall_fmap, Forall_forall. intros [f' b'] _.
    cbn. rewrite color_image_length. exact Hbw. }
  rewrite nth_lookup.
  rewrite (lookup_concat_const _ _ Hplanes c _ _ Hpl Hj).
  unfold _color_image, bw. rewrite !list_lookup_fmap.
  rewrite lookup_seq_lt by lia. reflexivity.
Qed.

(** X6.  [_get_label_image] builds one channel per pair of the two colour
    tuples: the raster has shape (h, w, n) with n the length of the
    shorter tuple, the entries the longer tuple has beyond that being
    ignored; when either tuple is empty there is nothing to concatenate
    and the call raises a [ValueError]. *)
Theorem X6_label_image_channels font text (fcs bcs : list Z) :
  let w := fst (size (font text)) in
  let h := snd (size (font text)) in
  let n := Nat.min (length fcs) (length bcs) in
  (n = 0 -> _get_label_image font text fcs bcs = Raise (Exn ValueError None))
  /\ (n <> 0 ->
      exists out,
        _get_label_image font text fcs bcs = Ret out
        /\ shape out = [h; w; n]
        /\ length (data out) = h * w * n).
Proof.
  intros w h n. subst w h n. unfold _get_label_image.
  destruct (size (font text)) as [w h]. cbn [fst snd].
  set (planes := map _ (zip fcs bcs)).
  assert (Hn : length planes = Nat.min (length fcs) (length bcs)).
  { unfold planes. rewrite length_map. apply length_zip_with. }
  rewrite <- Hn. split.
  - intros H0. destruct planes; [reflexivity | discriminate].
  - intros Hpos. destruct planes as [|pl planes'] eqn:E; [contradiction|].
    rewrite <- E in *. eexists. split; [reflexivity|]. split; [reflexivity|].
    cbn [data]. unfold transpose_120.
    rewrite (length_flat_map_const _ (length planes)).
    + rewrite length_seq. reflexivity.
    + intros j. rewrite length_map, length_seq. reflexivity.
Qed.

Lemma X6_label_image_channels_witness :
  _get_label_image (cell_font 2 3) "car" [] [0; 204; 84]%Z
  = Raise (Exn ValueError None)
  /\ exists out,
       _get_label_image (cell_font 2 3) "car" [15; 64; 31; 255]%Z [0; 204]%Z
       = Ret out
       /\ shape out = [3; 6; 2].
Proof.
  destruct (X6_label_image_channels (cell_font 2 3) "car" [] [0; 204; 84]%Z)
    as [Hnone _].
  destruct (X6_label_image_channels (cell_font 2 3) "car"
              [15; 64; 31; 255]%Z [0; 204]%Z) as [_ Hsome].
  split; [apply Hnone; reflexivity|].
  destruct Hsome as (out & Hout & Hshape & _); [discriminate|].
  exists out. split; [exact Hout | exact Hshape].
Defined.

Lemma color_image_between (f b m : Z) :
  (0 <= m <= 255)%Z ->
  (inject_Z (Z.min f b)
   <= inject_Z b + inject_Z ((f - b) * m) / inject_Z 255
   <= inject_Z (Z.max f b))%Q.
Proof.
  intros Hm.
  assert (H255 : (0 < inject_Z 255)%Q) by reflexivity.
  assert (Hup : (inject_Z ((f - b) * m) / inject_Z 255
                 <= inject_Z (Z.max f b - b))%Q).
  { apply Qle_shift_div_r; [exact H255|].
    rewrite <- inject_Z_mult, <- Zle_Qle. nia. }
  assert (Hlo : (inject_Z (Z.min f b - b)
                 <= inject_Z ((f - b) * m) / inject_Z 255)%Q).
  { apply Qle_shift_div_l; [exact H255|].
    rewrite <- inject_Z_mult, <- Zle_Qle. nia. }
  split.
  - apply Qle_trans with (inject_Z b + inject_Z (Z.min f b - b))%Q.
    + rewrite <- inject_Z_plus, <- Zle_Qle. lia.
    + apply Qplus_le_r, Hlo.
  - apply Qle_trans with (inject_Z b + inject_Z (Z.max f b - b))%Q.
    + apply Qplus_le_r, Hup.
    + rewrite <- inject_Z_plus, <- Zle_Qle. lia.
Qed.

(** X7.  Where the glyph mask is 0 the raster holds the background
    colour, where it is 255 it holds the font colour, and for any mask
    value between 0 and 255 each channel of the raster lies between the
    two colours' values for that channel: colourising never leaves the
    range the two colours span. *)
Theorem X7_label_image_range font text (fcs bcs : list Z) (y x c : nat) f b :
  let w := fst (size (font text)) in
  let h := snd (size (font text)) in
  let n := Nat.min (length fcs) (length bcs) in
  let m := getpixel (font text) (y * w + x) in
  fcs !! c = Some f -> bcs !! c = Some b ->
  y < h -> x < w ->
  exists out v,
    _get_label_image font text fcs bcs = Ret out
    /\ data out !! ((y * w + x) * n + c) = Some v
    /\ (m = 0%Z -> v == inject_Z b)%Q
    /\ (m = 255%Z -> v == inject_Z f)%Q
    /\ ((0 <= m <= 255)%Z ->
        (inject_Z (Z.min f b) <= v <= inject_Z (Z.max f b))%Q).
Proof.
  intros w h n m Hf Hb Hy Hx.
  destruct (get_label_image_lookup font text fcs bcs y x c f b Hf Hb Hy Hx)
    as (out & Hout & _ & Hv).
  exists out. eexists. split; [exact Hout|]. split; [exact Hv|].
  fold w m. repeat split.
  - intros ->. rewrite Z.mul_0_r. unfold Qdiv. ring.
  - intros ->. rewrite inject_Z_mult. unfold Z.sub.
    rewrite inject_Z_plus, inject_Z_opp. field.
  - apply color_image_between. assumption.
  - apply color_image_between. assumption.
Qed.

(** X7, on a concrete input. *)
Lemma X7_label_image_range_witness :
  exists out v,
    _get_label_image (cell_font 2 3) "car" [15; 64; 31]%Z [0; 204; 84]%Z = Ret out
    /\ data out !! ((1 * 6 + 2) * 3 + 1) = Some v
    /\ (getpixel (cell_font 2 3 "car") (1 * 6 + 2) = 0%Z -> v == inject_Z 204)%Q
    /\ (getpixel (cell_font 2 3 "car") (1 * 6 + 2) = 255%Z -> v == inject_Z 64)%Q
    /\ ((0 <= getpixel (cell_font 2 3 "car") (1 * 6 + 2) <= 255)%Z ->
        (inject_Z (Z.min 64 204) <= v <= inject_Z (Z.max 64 204))%Q).
Proof.
  apply (X7_label_image_range (cell_font 2 3) "car"
           [15; 64; 31]%Z [0; 204; 84]%Z 1 2 1 64%Z 204%Z);
    first [reflexivity | vm_compute; lia].
Defined.
End RasterMore.

(** ** [decode_segmap]: the range of the decoded image *)

Section DecodeMore.

Lemma unit_range_byte (c : Z) :
  (0 <= c <= 255)%Z -> unit_range (inject_Z c / inject_Z 255).
Proof.
  intros Hc. assert (H255 : (0 < inject_Z 255)%Q) by reflexivity. split.
  - apply Qle_shift_div_l; [exact H255|].
    rewrite Qmult_0_l. change 0%Q with (inject_Z 0). rewrite <- Zle_Qle. lia.
  - apply Qle_shift_div_r; [exact H255|].
    rewrite Qmult_1_l, <- Zle_Qle. lia.
Qed.

Lemma paint_unit_range labels rgb_data id color :
  byte_color color ->
  Forall unit_range rgb_data ->
  Forall unit_range (paint labels rgb_data (id, color)).
Proof.
  intros Hcolor Hall. destruct color as [[r g] b]. destruct Hcolor as (Hr & Hg & Hb).
  apply Forall_lookup. intros i v Hv. unfold paint in Hv.
  rewrite list_lookup_imap in Hv.
  destruct (rgb_data !! i) as [old|] eqn:Hold; [|discriminate].
  pose proof (proj1 (Forall_lookup _ _) Hall i old Hold) as Hin.
  generalize dependent (i / 3). generalize dependent (i mod 3).
  intros k a Hv. cbn [fmap option_fmap option_map] in Hv. injection Hv as <-.
  destruct (map (Z.eqb id) labels !! a) as [[|]|]; try exact Hin.
  cbn [_rgb_to_bgr map].
  destruct k as [|[|[|k]]]; cbn [nth];
    first [apply unit_range_byte; assumption | destruct k; exact Hin].
Qed.

Lemma paint_fold_unit_range labels (l : list (Z * rgb)) :
  Forall (fun item => byte_color item.2) l ->
  forall rgb_data,
    Forall unit_range rgb_data ->
    Forall unit_range (fold_left (paint labels) l rgb_data).
Proof.
  induction 1 as [|[id color] l Hc _ IH]; intros rgb_data Hall; [exact Hall|].
  cbn [fold_left]. apply IH, paint_unit_range; assumption.
Qed.

(** X8.  When every colour of the table has its three channels in
    0..255, [decode_segmap] returns, for any (h, w) label array, an image
    all of whose h * w * 3 values lie in [0, 1], whatever the labels are
    (classes missing from the table and labels painted several times
    included). *)
Theorem X8_decode_segmap_unit_range (CITYSCAPES_COLOR_MAPPING : gmap Z rgb)
    (h w : nat) (labels : list Z) :
  (forall id color,
     CITYSCAPES_COLOR_MAPPING !! id = Some color -> byte_color color) ->
  exists out,
    decode_segmap CITYSCAPES_COLOR_MAPPING (IntArray [h; w] labels) "cityscapes"
    = Ret out
    /\ Forall unit_range (data out).
Proof.
  intros Hbytes. eexists. split; [reflexivity|]. cbn [data idata].
  apply paint_fold_unit_range.
  - apply Forall_forall. intros [id color] Hin.
    apply elem_of_map_to_list in Hin. exact (Hbytes id color Hin).
  - apply Forall_forall. intros v Hv.
    apply elem_of_replicate in Hv as [-> _]. split; discriminate.
Qed.

(** X8, on a concrete input. *)
Lemma X8_decode_segmap_unit_range_witness :
  exists out,
    decode_segmap two_classes (IntArray [2; 3] [7; 26; 0; 7; 7; 26]%Z) "cityscapes"
    = Ret out
    /\ Forall unit_range (data out).
Proof.
  apply (X8_decode_segmap_unit_range two_classes 2 3 [7; 26; 0; 7; 7; 26]%Z).
  intros id color Hcolor. unfold two_classes in Hcolor.
  apply lookup_insert_Some in Hcolor as [[_ <-] | [_ Hcolor]].
  - cbn. lia.
  - apply lookup_singleton_Some in Hcolor as [_ <-]. cbn. lia.
Defined.
End DecodeMore.

(** ** [plot_bboxes]: what a returning call needs, and the colours used *)

Section PlotMore.
Local Open Scope Z_scope.

Lemma resolve_color_ret_label label color r :
  resolve_color label color = Ret r -> truthy label = true ->
  exists s, label = VStr s /\ s <> ""%string.
Proof.
  intros Hr Ht. destruct label as [| b | z | f | s];
    try (unfold resolve_color in Hr; rewrite Ht in Hr; discriminate).
  exists s. split; [reflexivity | apply truthy_str, Ht].
Qed.

Lemma resolve_color_ret_none label r :
  resolve_color label VNone = Ret r -> truthy label = true.
Proof.
  intros Hr. destruct (truthy label) eqn:Ht; [reflexivity|].
  unfold resolve_color in Hr. rewrite Ht in Hr.
  destruct label; discriminate.
Qed.

Lemma getitem_ret_lt {A} (l : list A) (i : nat) (a : A) :
  getitem l (Z.of_nat i) = Ret a -> (i < length l)%nat.
Proof.
  unfold getitem. destruct (Z.ltb_spec (Z.of_nat i) 0); [lia|].
  destruct (Z.leb_spec 0 (Z.of_nat i)); [|lia].
  destruct (Z.ltb_spec (Z.of_nat i) (Z.of_nat (length l))); [lia | discriminate].
Qed.

Lemma append_colon_nonempty (a b : string) : a +:+ ": " +:+ b <> ""%string.
Proof. destruct a; discriminate. Qed.

(** What a returning iteration says about its arguments. *)
Lemma plot_bbox_ret_args env combined label_mappings colors st i box st' v buf :
  st !! combined = Some (HNdarray buf) ->
  plot_bbox env st combined label_mappings colors i box = (st', Ret v) ->
  (exists ih iw : nat, bshape buf = [ih; iw; 3%nat])
  /\ (exists name,
        getitem label_mappings (label box) = Ret name
        /\ (not_colors colors -> exists s, name = VStr s /\ s <> ""%string))
  /\ (forall cs, colors = Some cs -> cs <> [] -> (i < length cs)%nat).
Proof.
  intros Hc Hbox. unfold plot_bbox in Hbox.
  destruct (getitem label_mappings (label box)) as [name|e] eqn:Hname;
    [|discriminate].
  assert (Hdefault :
            add env st (ARef combined) (number (x box)) (number (y box))
                (number (x box + w box)%float) (number (y box + h box)%float)
                name VNone
            = (st', Ret v) ->
            (exists ih iw : nat, bshape buf = [ih; iw; 3%nat])
            /\ exists s, name = VStr s /\ s <> ""%string).
  { intros Hadd.
    destruct (add_ret_inv _ _ _ _ _ _ _ _ _ _ _ Hadd)
      as (p' & buf0 & l & t & r & b & nm & entry & _ & _ & _ & Hr & _).
    destruct (resolve_color_ret_label _ _ _ Hr (resolve_color_ret_none _ _ Hr))
      as (s & -> & Hs).
    split; [|eauto].
    exact (add_ret_labelled_shape _ _ _ _ _ _ _ _ _ _ _ _ Hc Hs Hadd). }
  destruct colors as [[|c cs]|].
  - destruct (Hdefault Hbox) as [Hsh Hs]. split; [exact Hsh|]. split.
    + exists name. split; [reflexivity | intros _; exact Hs].
    + intros cs' Hcs Hne. injection Hcs as <-. contradiction.
  - destruct (getitem (c :: cs) (Z.of_nat i)) as [color|e] eqn:Hcolor;
      [|discriminate].
    split; [|split].
    + exact (add_ret_labelled_shape _ _ _ _ _ _ _ _ _ _ _ _ Hc
               (append_colon_nonempty _ _) Hbox).
    + exists name. split; [reflexivity|]. intros [Hn | Hn]; discriminate.
    + intros cs' Hcs _. injection Hcs as <-. exact (getitem_ret_lt _ _ _ Hcolor).
  - destruct (Hdefault Hbox) as [Hsh Hs]. split; [exact Hsh|]. split.
    + exists name. split; [reflexivity | intros _; exact Hs].
    + intros cs' Hcs. discriminate.
Qed.

Lemma plot_loop_ret_args env combined label_mappings colors boxes :
  forall st i st' buf,
    st !! combined = Some (HNdarray buf) ->
    plot_loop env st combined label_mappings colors i boxes = (st', Ret tt) ->
    (boxes <> [] -> exists ih iw : nat, bshape buf = [ih; iw; 3%nat])
    /\ Forall (fun box =>
                 exists name,
                   getitem label_mappings (label box) = Ret name
                   /\ (not_colors colors ->
                       exists s, name = VStr s /\ s <> ""%string)) boxes
    /\ (forall cs, colors = Some cs -> cs <> [] -> boxes <> [] ->
          (i + length boxes <= length cs)%nat).
Proof.
  induction boxes as [|box boxes IH]; intros st i st' buf Hc Hloop.
  - split; [congruence|]. split; [constructor | congruence].
  - cbn [plot_loop] in Hloop.
    destruct (plot_bbox env st combined label_mappings colors i box)
      as [st1 [v|e]] eqn:Hbox; [|discriminate].
    destruct (plot_bbox_ret_args _ _ _ _ _ _ _ _ _ _ Hc Hbox)
      as (Hsh & Hname & Hlen).
    destruct (plot_bbox_ret _ _ _ _ _ _ _ _ _ Hbox)
      as (buf0 & buf1 & new_ops & Hc0 & -> & Hext1 & _).
    destruct (IH _ _ _ buf1 (lookup_insert_eq _ _ _) Hloop)
      as (_ & Hall & Hlen').
    split; [intros _; exact Hsh|]. split; [constructor; assumption|].
    intros cs Hcs Hne _. specialize (Hlen cs Hcs Hne).
    destruct boxes as [|box' boxes']; [cbn [length]; lia|].
    assert (Hnil : box' :: boxes' <> []) by discriminate.
    specialize (Hlen' cs Hcs Hne Hnil). cbn [length] in *. lia.
Qed.

(** X9.  What a returning call of [plot_bboxes] says about its
    arguments.  If the call returns for a list of at least one box, the
    image has exactly three axes with three channels (a greyscale or
    RGBA image makes the first labelled box raise); the label index of
    every box is valid for the label table; when no colours are given
    (None or an empty list) the class name of every box is a non-empty
    str; and when colours are given there are at least as many colours
    as boxes. *)
Theorem X9_plot_bboxes_returns_only_if
    env st p o boxes label_mappings colors v :
  st !! p = Some o ->
  snd (plot_bboxes env st (ARef p) boxes label_mappings colors) = Ret v ->
  (boxes <> [] -> exists ih iw : nat, bshape (contents o) = [ih; iw; 3%nat])
  /\ Forall (fun box =>
               exists name,
                 getitem label_mappings (label box) = Ret name
                 /\ (not_colors colors ->
                     exists s, name = VStr s /\ s <> ""%string)) boxes
  /\ (forall cs, colors = Some cs -> cs <> [] ->
        (length boxes <= length cs)%nat).
Proof.
  intros Hp Hret. unfold plot_bboxes in Hret. rewrite Hp in Hret.
  unfold alloc in Hret. cbn zeta in Hret.
  set (st1 := <[fresh_loc st := o]> st) in *.
  set (combined := fresh_loc st1) in *.
  set (st2 := <[combined := HNdarray (contents o)]> st1) in *.
  destruct (plot_loop env st2 combined label_mappings colors 0 boxes)
    as [st3 [[]|e]] eqn:Hloop; [|discriminate].
  assert (Hc : st2 !! combined = Some (HNdarray (contents o)))
    by apply lookup_insert_eq.
  destruct (plot_loop_ret_args _ _ _ _ _ _ _ _ _ Hc Hloop)
    as (Hsh & Hall & Hlen).
  split; [exact Hsh|]. split; [exact Hall|].
  intros cs Hcs Hne. destruct boxes as [|box boxes']; [cbn; lia|].
  assert (Hnil : box :: boxes' <> []) by discriminate.
  exact (Hlen cs Hcs Hne Hnil).
Qed.

(** X9, on a concrete input. *)
Lemma X9_plot_bboxes_returns_only_if_witness :
  ([box_a; box_b] <> [] ->
   exists ih iw : nat, bshape (contents (HImage blank)) = [ih; iw; 3%nat])
  /\ Forall (fun box =>
               exists name,
                 getitem [VStr "car"; VStr "person"] (label box) = Ret name
                 /\ (not_colors None ->
                     exists s, name = VStr s /\ s <> ""%string))
            [box_a; box_b]
  /\ (forall cs : list pyval, None = Some cs -> cs <> [] ->
        (length [box_a; box_b] <= length cs)%nat).
Proof.
  apply (X9_plot_bboxes_returns_only_if plain_env image_store 1%positive
           (HImage blank) [box_a; box_b] [VStr "car"; VStr "person"] None
           (ARef 4%positive)).
  - reflexivity.
  - vm_compute. reflexivity.
Defined.

(** X10.  With an empty list of boxes the outcome is Pillow's: when
    [Image.fromarray] takes the array made from the image,
    [plot_bboxes] returns, whatever the label table and the colours are,
    a new PIL image holding the contents of the original; when it
    raises, [plot_bboxes] raises the same.  The original is kept either
    way. *)
Theorem X10_plot_bboxes_no_boxes env st p o label_mappings colors :
  st !! p = Some o ->
  let res := plot_bboxes env st (ARef p) [] label_mappings colors in
  fst res !! p = Some o
  /\ ((forall q, st !! q = None -> fromarray env q = None) ->
      exists out,
        snd res = Ret (ARef out)
        /\ st !! out = None
        /\ fst res !! out = Some (HImage (contents o)))
  /\ (forall c,
        (forall q, st !! q = None -> fromarray env q = Some c) ->
        snd res = Raise (Exn c None)).
Proof.
  intros Hp res. subst res. unfold plot_bboxes. rewrite Hp.
  unfold alloc. cbn zeta. cbn [plot_loop].
  rewrite lookup_insert_eq. cbn [contents].
  set (st1 := <[fresh_loc st := o]> st).
  set (st2 := <[fresh_loc st1 := HNdarray (contents o)]> st1).
  pose proof (fresh_loc_fresh st) as F0.
  pose proof (fresh_loc_fresh st1) as F1.
  pose proof (fresh_loc_fresh st2) as F2.
  assert (H10 : fresh_loc st1 <> fresh_loc st).
  { intros E. rewrite E in F1. unfold st1 in F1.
    rewrite lookup_insert_eq in F1. discriminate. }
  assert (H21 : fresh_loc st2 <> fresh_loc st1).
  { intros E. rewrite E in F2. unfold st2 in F2.
    rewrite lookup_insert_eq in F2. discriminate. }
  assert (H20 : fresh_loc st2 <> fresh_loc st).
  { intros E. rewrite E in F2. unfold st2 in F2.
    rewrite lookup_insert_ne in F2 by exact H10.
    unfold st1 in F2. rewrite lookup_insert_eq in F2. discriminate. }
  assert (Hst2 : forall q, q <> fresh_loc st1 -> q <> fresh_loc st ->
                           st2 !! q = st !! q).
  { intros q Hq1 Hq0. unfold st2.
    rewrite lookup_insert_ne by (intros E; apply Hq1; symmetry; exact E).
    unfold st1.
    rewrite lookup_insert_ne by (intros E; apply Hq0; symmetry; exact E).
    reflexivity. }
  assert (Hp0 : p <> fresh_loc st) by (intros ->; congruence).
  assert (Hp1 : p <> fresh_loc st1).
  { intros E. rewrite E in Hp.
    rewrite <- (lookup_insert_ne st (fresh_loc st) (fresh_loc st1) o) in Hp
      by (intros E'; apply H10; symmetry; exact E').
    change (st1 !! fresh_loc st1 = Some o) in Hp. congruence. }
  assert (Hp2 : p <> fresh_loc st2).
  { intros E. rewrite E in Hp. rewrite <- (Hst2 _ H21 H20) in Hp. congruence. }
  assert (Hnew : st !! fresh_loc st1 = None).
  { rewrite <- (lookup_insert_ne st (fresh_loc st) (fresh_loc st1) o)
      by (intros E'; apply H10; symmetry; exact E').
    exact F1. }
  split; [|split].
  - destruct (fromarray env (fresh_loc st1)); cbn [fst].
    + rewrite (Hst2 _ Hp1 Hp0). exact Hp.
    + rewrite lookup_insert_ne by (intros E; apply Hp2; symmetry; exact E).
      rewrite (Hst2 _ Hp1 Hp0). exact Hp.
  - intros Hok. rewrite (Hok _ Hnew). cbn [fst snd].
    exists (fresh_loc st2). split; [reflexivity|]. split.
    + rewrite <- (Hst2 _ H21 H20). exact F2.
    + apply lookup_insert_eq.
  - intros c Hno. rewrite (Hno _ Hnew). reflexivity.
Qed.

(** X10, on a concrete input. *)
Lemma X10_plot_bboxes_no_boxes_witness :
  let res := plot_bboxes plain_env grey_store (ARef 1%positive) [] [] None in
  fst res !! 1%positive
  = Some (HImage (Buffer [20; 30]%nat (repeat 0 (20 * 30)) []))
  /\ ((forall q, grey_store !! q = None -> fromarray plain_env q = None) ->
      exists out,
        snd res = Ret (ARef out)
        /\ grey_store !! out = None
        /\ fst res !! out
           = Some (HImage (contents
                             (HImage (Buffer [20; 30]%nat (repeat 0 (20 * 30)) [])))))
  /\ (forall c,
        (forall q, grey_store !! q = None -> fromarray plain_env q = Some c) ->
        snd res = Raise (Exn c None)).
Proof.
  apply (X10_plot_bboxes_no_boxes plain_env grey_store 1%positive
           (HImage (Buffer [20; 30]%nat (repeat 0 (20 * 30)) [])) [] None).
  reflexivity.
Defined.

(** An array Pillow does not take: the call raises what
    [Image.fromarray] raises, and the image is as it was. *)
Example plot_bboxes_array_refused :
  snd (plot_bboxes no_pillow_env grey_store (ARef 1%positive) [] [] None)
  = Raise (Exn TypeError None)
  /\ fst (plot_bboxes no_pillow_env grey_store (ARef 1%positive) [] [] None)
       !! 1%positive
     = grey_store !! 1%positive.
Proof. split; vm_compute; reflexivity. Qed.

(** X11.  When colours are given, the text drawn for a box is the class
    name, a colon and the score as a percentage; and an entry of the
    colour list that is falsy (None, an empty string) does not fail:
    the colour is then derived from this whole text, score included, not
    from the class name. *)
Theorem X11_plot_bbox_falsy_color
    env st combined label_mappings cs i box name color :
  cs <> [] ->
  getitem label_mappings (label box) = Ret name ->
  getitem cs (Z.of_nat i) = Ret color ->
  truthy color = false ->
  let text :=
    format env name +:+ ": "
      +:+ format_percent env (score box * 100)%float +:+ "%" in
  exists c,
    auto_color text = Ret c
    /\ plot_bbox env st combined label_mappings (Some cs) i box
       = add env st (ARef combined)
             (number (x box)) (number (y box))
             (number (x box + w box)%float) (number (y box + h box)%float)
             (VStr text) (VStr c).
Proof.
  intros Hne Hname Hcolor Hfalsy text.
  exists (spec_color text). split; [apply auto_color_spec|].
  unfold plot_bbox. rewrite Hname.
  destruct cs as [|c0 cs']; [contradiction|]. rewrite Hcolor. fold text.
  apply add_color_resolved.
  assert (Htext : text <> ""%string) by apply append_colon_nonempty.
  destruct (resolve_color_auto text color Htext Hfalsy) as (entry & He & ->).
  symmetry. apply resolve_color_explicit; [right; reflexivity | exact He].
Qed.

(** X11, on a concrete input. *)
Lemma X11_plot_bbox_falsy_color_witness :
  exists c,
    auto_color ("car" +:+ ": " +:+ " 100.00" +:+ "%") = Ret c
    /\ plot_bbox plain_env array_store 1%positive [VStr "car"]
         (Some [VNone]) 0 box_a
       = add plain_env array_store (ARef 1%positive)
             (number 2) (number 8) (number (2 + 10)%float)
             (number (8 + 10)%float)
             (VStr ("car" +:+ ": " +:+ " 100.00" +:+ "%")) (VStr c).
Proof.
  apply (X11_plot_bbox_falsy_color plain_env array_store 1%positive
           [VStr "car"] [VNone] 0 box_a (VStr "car") VNone).
  - discriminate.
  - reflexivity.
  - reflexivity.
  - reflexivity.
Defined.
End PlotMore.

(** ** [grid_plot]: the calls made *)

Import Grid.

Section GridMore.
Context {Img : Type}.
Implicit Types (log : list (call Img)) (images : list (list Img)).

Lemma getitem_lookup {A} (l : list A) (i : nat) (a : A) :
  l !! i = Some a -> getitem l (Z.of_nat i) = Ret a.
Proof.
  intros Hi. pose proof (lookup_lt_Some _ _ _ Hi) as Hlt. unfold getitem.
  destruct (Z.ltb_spec (Z.of_nat i) 0); [lia|].
  destruct (Z.leb_spec 0 (Z.of_nat i)); [|lia].
  destruct (Z.ltb_spec (Z.of_nat i) (Z.of_nat (length l))); [|lia].
  cbn [andb]. rewrite Nat2Z.id, Hi. reflexivity.
Qed.

Lemma getitem_beyond {A} (l : list A) (i : nat) :
  length l <= i -> getitem l (Z.of_nat i) = Raise (Exn IndexError None).
Proof.
  intros Hi. unfold getitem.
  destruct (Z.ltb_spec (Z.of_nat i) 0); [lia|].
  destruct (Z.ltb_spec (Z.of_nat i) (Z.of_nat (length l))); [lia|].
  rewrite andb_false_r. reflexivity.
Qed.

(** A loop whose body either logs and returns or logs and raises. *)
Lemma for_spec {A} (good : A -> bool) (f g : A -> list (call Img)) (e : exn)
    (body : A -> M Img unit) (l : list A) :
  (forall a log, In a l -> good a = true -> body a log = (log ++ f a, Ret tt)) ->
  (forall a log, In a l -> good a = false -> body a log = (log ++ g a, Raise e)) ->
  forall log,
    for_ l body log
    = (log ++ for_log good f g l, if forallb good l then Ret tt else Raise e).
Proof.
  induction l as [|a l IH]; intros Hgood Hbad log.
  - cbn. rewrite app_nil_r. reflexivity.
  - cbn [for_ for_log forallb]. unfold Grid.bind.
    destruct (good a) eqn:Ha.
    + rewrite (Hgood a log (or_introl eq_refl) Ha).
      rewrite IH.
      * rewrite <- app_assoc. reflexivity.
      * intros a' log' Hin. apply Hgood. right. exact Hin.
      * intros a' log' Hin. apply Hbad. right. exact Hin.
    + rewrite (Hbad a log (or_introl eq_refl) Ha). reflexivity.
Qed.

Lemma for_log_good {A} (good : A -> bool) (f g : A -> list (call Img)) l :
  forallb good l = true -> for_log good f g l = flat_map f l.
Proof.
  induction l as [|a l IH]; [reflexivity|]. cbn [forallb for_log flat_map].
  intros H. apply andb_prop in H as [-> H]. rewrite IH by exact H. reflexivity.
Qed.

Lemma omap_for_log_nil {A B} (p : call Img -> option B)
    (good : A -> bool) (f g : A -> list (call Img)) l :
  (forall a, omap p (f a) = []) -> (forall a, omap p (g a) = []) ->
  omap p (for_log good f g l) = [].
Proof.
  intros Hf Hg. induction l as [|a l IH]; [reflexivity|]. cbn [for_log].
  destruct (good a); [|apply Hg]. rewrite omap_app, Hf, IH. reflexivity.
Qed.

Lemma omap_flat_map {A B C} (p : B -> option C) (f : A -> list B) l :
  omap p (flat_map f l) = flat_map (fun a => omap p (f a)) l.
Proof.
  induction l as [|a l IH]; [reflexivity|]. cbn [flat_map].
  rewrite omap_app, IH. reflexivity.
Qed.

Lemma flat_map_ext_In {A B} (f g : A -> list B) l :
  (forall a, In a l -> f a = g a) -> flat_map f l = flat_map g l.
Proof.
  induction l as [|a l IH]; intros H; [reflexivity|]. cbn [flat_map].
  rewrite (H a (or_introl eq_refl)), IH; [reflexivity|].
  intros a' Hin. apply H. right. exact Hin.
Qed.

Lemma forallb_seq_ltb (n m : nat) :
  forallb (fun j => j <? m) (seq 0 n) = (n <=? m).
Proof.
  induction n as [|n IH]; [reflexivity|].
  rewrite seq_S, forallb_app, IH. cbn [forallb Nat.add]. rewrite andb_true_r.
  destruct (Nat.leb_spec n m), (Nat.ltb_spec n m), (Nat.leb_spec (S n) m);
    first [reflexivity | lia].
Qed.

Section Pass.
Context (images : list (list Img)) (n_rows n_cols : nat)
        (img_type : string) (titled : bool) (titles : pyval).

(** The body of the inner loop. *)
Lemma cell_spec i j row log :
  images !! i = Some row ->
  (bind (lift (getitem images (Z.of_nat i))) (fun row =>
   bind (lift (getitem row (Z.of_nat j))) (fun img =>
   let k := i * n_cols + j + 1 in
   bind (perform (Subplot n_rows n_cols k)) (fun _ =>
   bind (perform Xticks) (fun _ =>
   bind (perform Yticks) (fun _ =>
   bind (if titled && truthy titles then perform (Title titles) else ret tt)
     (fun _ =>
   bind (perform GridOff) (fun _ =>
   if String.eqb img_type "gray"
   then perform (Imshow img Gray)
   else perform (Imshow img Binary))))))))) log
  = (log ++ cell_log images n_rows n_cols img_type titled titles i j,
     if j <? length row then Ret tt else Raise (Exn IndexError None)).
Proof.
  intros Hrow. unfold Grid.bind at 1. unfold lift at 1.
  rewrite (getitem_lookup _ _ _ Hrow). unfold cell_log. rewrite Hrow.
  cbn [mbind option_bind]. unfold Grid.bind at 1. unfold lift at 1.
  destruct (Nat.ltb_spec j (length row)) as [Hj | Hj].
  - destruct (lookup_lt_is_Some_2 row j Hj) as [img Himg].
    rewrite (getitem_lookup _ _ _ Himg), Himg.
    unfold Grid.bind, perform, ret.
    destruct (titled && truthy titles), (String.eqb img_type "gray");
      repeat rewrite <- app_assoc; reflexivity.
  - rewrite (getitem_beyond _ _ Hj), (lookup_ge_None_2 row j Hj).
    rewrite app_nil_r. reflexivity.
Qed.

Lemma draw_grid_spec log :
  n_rows <= length images ->
  draw_grid images n_rows n_cols img_type titled titles log
  = (log ++ grid_log images n_rows n_cols img_type titled titles,
     if forallb (fun i => n_cols <=? row_length images i) (seq 0 n_rows)
     then Ret tt else Raise (Exn IndexError None)).
Proof.
  intros Hrows. unfold draw_grid, grid_log.
  assert (Hbody : forall i log,
            In i (seq 0 n_rows) ->
            for_ (seq 0 n_cols) (fun j =>
              bind (lift (getitem images (Z.of_nat i))) (fun row =>
              bind (lift (getitem row (Z.of_nat j))) (fun img =>
              let k := i * n_cols + j + 1 in
              bind (perform (Subplot n_rows n_cols k)) (fun _ =>
              bind (perform Xticks) (fun _ =>
              bind (perform Yticks) (fun _ =>
              bind (if titled && truthy titles
                    then perform (Title titles) else ret tt) (fun _ =>
              bind (perform GridOff) (fun _ =>
              if String.eqb img_type "gray"
              then perform (Imshow img Gray)
              else perform (Imshow img Binary))))))))) log
            = (log ++ row_log images n_rows n_cols img_type titled titles i,
               if n_cols <=? row_length images i
               then Ret tt else Raise (Exn IndexError None))).
  { intros i log' Hi. apply in_seq in Hi.
    destruct (lookup_lt_is_Some_2 images i) as [row Hrow]; [lia|].
    unfold row_log. rewrite <- forallb_seq_ltb.
    apply for_spec.
    - intros j log'' _ Hj. etransitivity; [exact (cell_spec i j row log'' Hrow)|].
      unfold row_length in Hj. rewrite Hrow in Hj. rewrite Hj. reflexivity.
    - intros j log'' _ Hj. etransitivity; [exact (cell_spec i j row log'' Hrow)|].
      unfold row_length in Hj. rewrite Hrow in Hj. rewrite Hj.
      unfold cell_log. rewrite Hrow. cbn [mbind option_bind].
      apply Nat.ltb_ge in Hj. rewrite (lookup_ge_None_2 row j Hj).
      reflexivity. }
  apply for_spec.
  - intros i log' Hi Hgood.
    etransitivity; [exact (Hbody i log' Hi)|]. rewrite Hgood. reflexivity.
  - intros i log' Hi Hbad.
    etransitivity; [exact (Hbody i log' Hi)|]. rewrite Hbad. reflexivity.
Qed.
End Pass.

Lemma save_grid_spec env isdir figure titles folder log :
  save_grid env isdir figure titles folder log
  = (log ++ save_log env isdir figure titles folder, Ret tt).
Proof.
  unfold save_grid, save_log, Grid.bind, perform, ret.
  destruct (truthy titles); [|rewrite app_nil_r; reflexivity].
  destruct (isdir folder); cbn [negb app];
    [reflexivity | rewrite <- app_assoc; reflexivity].
Qed.

(** The calls of the loops and of the saving steps, by kind. *)
Lemma omap_grid_log_nil {B} (p : call Img -> option B)
    images n_rows n_cols img_type titled titles :
  p Xticks = None -> p Yticks = None -> p GridOff = None ->
  (forall r c k, p (Subplot r c k) = None) ->
  (forall t, p (Title t) = None) ->
  (forall img m, p (Imshow img m) = None) ->
  omap p (grid_log images n_rows n_cols img_type titled titles) = [].
Proof.
  intros Hx Hy Hg Hs Ht Hi.
  assert (Hrow : forall i,
            omap p (row_log images n_rows n_cols img_type titled titles i) = []).
  { intros i. apply omap_for_log_nil; [|reflexivity].
    intros j. unfold cell_log.
    destruct (images !! i ≫= (.!! j)); [|reflexivity].
    destruct (titled && truthy titles); cbn [app omap list_omap];
      rewrite ?Hx, ?Hy, ?Hg, ?Hs, ?Ht, ?Hi; reflexivity. }
  apply omap_for_log_nil; exact Hrow.
Qed.

Lemma omap_save_log_nil {B} (p : call Img -> option B)
    env isdir figure titles folder :
  (forall d, p (Mkdir d) = None) -> (forall f d, p (Savefig f d) = None) ->
  omap p (save_log env isdir figure titles folder) = [].
Proof.
  intros Hm Hs. unfold save_log.
  destruct (truthy titles); [|reflexivity].
  destruct (isdir folder); cbn [app omap list_omap];
    rewrite ?Hm, ?Hs; reflexivity.
Qed.

(** The log and the result of a call on a grid with a first row. *)
Lemma grid_plot_spec env isdir images first figsize img_type titles folder :
  images !! 0 = Some first ->
  let n_rows := length images in
  let n_cols := length first in
  let size := (fst figsize * Z.of_nat n_cols, snd figsize * Z.of_nat n_rows)%Z in
  let pass titled := grid_log images n_rows n_cols img_type titled titles in
  grid_plot env isdir images figsize img_type titles folder []
  = if forallb (fun i => n_cols <=? row_length images i) (seq 0 n_rows)
    then ([Figure size] ++ pass true ++ save_log env isdir 0 titles folder
          ++ [Figure size] ++ pass false
          ++ save_log env isdir 1 titles (folder +:+ "_notitles") ++ [Show],
          Ret 1)
    else ([Figure size] ++ pass true, Raise (Exn IndexError None)).
Proof.
  intros Hfirst n_rows n_cols size pass. subst n_rows n_cols size pass.
  cbv beta.
  assert (H0 : getitem images 0 = Ret first)
    by exact (getitem_lookup images 0 first Hfirst).
  unfold grid_plot. unfold Grid.bind at 1. unfold lift at 1. rewrite H0.
  cbn zeta.
  unfold Grid.bind at 1. unfold plt_figure at 1.
  cbn [app figures omap list_omap length].
  unfold Grid.bind at 1. rewrite draw_grid_spec by reflexivity.
  destruct (forallb _ (seq 0 (length images))) eqn:Hok; [|reflexivity].
  unfold Grid.bind at 1. rewrite save_grid_spec.
  unfold Grid.bind at 1. unfold plt_figure at 1.
  match goal with
  | |- context [length (figures ?l)] =>
      assert (Hcount : length (figures l) = 1)
  end.
  { unfold figures. rewrite !omap_app.
    rewrite omap_grid_log_nil by reflexivity.
    rewrite omap_save_log_nil by reflexivity. reflexivity. }
  rewrite Hcount.
  unfold Grid.bind at 1. rewrite draw_grid_spec by reflexivity. rewrite Hok.
  unfold Grid.bind at 1. rewrite save_grid_spec.
  unfold Grid.bind, perform, ret.
  repeat rewrite <- app_assoc. reflexivity.
Qed.

(** *** Reading the loops *)

Lemma rows_ok_true images n_cols :
  Forall (fun row => n_cols <= length row) images ->
  forallb (fun i => n_cols <=? row_length images i) (seq 0 (length images))
  = true.
Proof.
  intros Hall. apply forallb_forall. intros i Hi. apply in_seq in Hi.
  destruct (lookup_lt_is_Some_2 images i) as [row Hrow]; [lia|].
  unfold row_length. rewrite Hrow. apply Nat.leb_le.
  exact (proj1 (Forall_lookup _ _) Hall i row Hrow).
Qed.

Lemma rows_ok_false images n_cols :
  Exists (fun row => length row < n_cols) images ->
  forallb (fun i => n_cols <=? row_length images i) (seq 0 (length images))
  = false.
Proof.
  intros Hex. apply Exists_exists in Hex as (row & Hin & Hshort).
  apply list_elem_of_lookup in Hin as [i Hrow].
  destruct (forallb _ _) eqn:Hok; [|reflexivity].
  pose proof (proj1 (forallb_forall _ _) Hok i) as Hi.
  cbv beta in Hi. unfold row_length in Hi. rewrite Hrow in Hi.
  assert (Hle : (n_cols <=? length row) = true).
  { apply Hi, in_seq. apply lookup_lt_Some in Hrow. lia. }
  apply Nat.leb_le in Hle. lia.
Qed.

Lemma cell_exists images n_cols i j :
  (n_cols <=? row_length images i) = true -> j < n_cols ->
  exists img, images !! i ≫= (.!! j) = Some img.
Proof.
  intros Hle Hj. apply Nat.leb_le in Hle. unfold row_length in Hle.
  destruct (images !! i) as [row|]; [|lia].
  destruct (lookup_lt_is_Some_2 row j) as [img Himg]; [lia|].
  exists img. exact Himg.
Qed.

Lemma grid_log_good images n_rows n_cols img_type titled titles :
  forallb (fun i => n_cols <=? row_length images i) (seq 0 n_rows) = true ->
  grid_log images n_rows n_cols img_type titled titles
  = flat_map (fun i =>
      flat_map (cell_log images n_rows n_cols img_type titled titles i)
               (seq 0 n_cols)) (seq 0 n_rows).
Proof.
  intros Hok. unfold grid_log. rewrite for_log_good by exact Hok.
  apply flat_map_ext_In. intros i Hi. unfold row_log.
  apply for_log_good. rewrite forallb_seq_ltb.
  exact (proj1 (forallb_forall _ _) Hok i Hi).
Qed.

(** What one kind of call contributes, cell by cell. *)
Lemma omap_grid_log_cells {B} (p : call Img -> option B) (h : nat -> list B)
    images n_rows n_cols img_type titled titles :
  forallb (fun i => n_cols <=? row_length images i) (seq 0 n_rows) = true ->
  (forall i j img,
     images !! i ≫= (.!! j) = Some img ->
     omap p (cell_log images n_rows n_cols img_type titled titles i j)
     = h (i * n_cols + j + 1)) ->
  omap p (grid_log images n_rows n_cols img_type titled titles)
  = flat_map (fun i => flat_map (fun j => h (i * n_cols + j + 1)) (seq 0 n_cols))
             (seq 0 n_rows).
Proof.
  intros Hok Hcell. rewrite grid_log_good by exact Hok.
  rewrite omap_flat_map. apply flat_map_ext_In. intros i Hi.
  rewrite omap_flat_map. apply flat_map_ext_In. intros j Hj.
  apply in_seq in Hj.
  destruct (cell_exists images n_cols i j) as [img Himg];
    [exact (proj1 (forallb_forall _ _) Hok i Hi) | lia |].
  exact (Hcell i j img Himg).
Qed.

Lemma row_indices {B} (h : nat -> B) (a n : nat) :
  flat_map (fun j => [h (a + j + 1)]) (seq 0 n) = map h (seq (1 + a) n).
Proof.
  induction n as [|n IH]; [reflexivity|].
  rewrite !seq_S, flat_map_app, map_app, IH. cbn [flat_map map app].
  do 3 f_equal. lia.
Qed.

Lemma grid_indices {B} (h : nat -> B) (n_cols n : nat) :
  flat_map (fun i => flat_map (fun j => [h (i * n_cols + j + 1)]) (seq 0 n_cols))
           (seq 0 n)
  = map h (seq 1 (n * n_cols)).
Proof.
  induction n as [|n IH]; [reflexivity|].
  rewrite seq_S, flat_map_app, IH. cbn [flat_map Nat.add].
  rewrite app_nil_r, row_indices.
  replace (S n * n_cols) with (n * n_cols + n_cols) by lia.
  rewrite seq_app, map_app. reflexivity.
Qed.

Lemma map_const_seq {B} (b : B) (a n : nat) :
  map (fun _ => b) (seq a n) = replicate n b.
Proof.
  revert a. induction n as [|n IH]; intros a; [reflexivity|].
  cbn [seq map replicate]. rewrite IH. reflexivity.
Qed.

Lemma flat_map_seq_lookup {A B} (H : option A -> list B) (l : list A) :
  flat_map (fun i => H (l !! i)) (seq 0 (length l))
  = flat_map (fun a => H (Some a)) l.
Proof.
  induction l as [|a l IH] using rev_ind; [reflexivity|].
  rewrite length_app. cbn [length]. rewrite Nat.add_1_r, seq_S, !flat_map_app.
  cbn [flat_map Nat.add]. rewrite list_lookup_middle by reflexivity.
  f_equal. rewrite <- IH. apply flat_map_ext_In. intros i Hi.
  apply in_seq in Hi. rewrite lookup_app_l by lia. reflexivity.
Qed.

Lemma row_shown (m : cmap) (row : list Img) (n : nat) :
  flat_map (fun j => match row !! j with
                     | Some img => [(img, m)]
                     | None => []
                     end) (seq 0 n)
  = map (fun img => (img, m)) (take n row).
Proof.
  induction n as [|n IH]; [reflexivity|].
  rewrite seq_S, flat_map_app, IH. cbn [flat_map Nat.add].
  destruct (row !! n) as [img|] eqn:Himg.
  - rewrite (take_S_r _ _ _ Himg), map_app. reflexivity.
  - apply lookup_ge_None_1 in Himg.
    rewrite !take_ge by lia. rewrite app_nil_r. reflexivity.
Qed.

Lemma shown_grid_log images n_cols img_type titled titles :
  forallb (fun i => n_cols <=? row_length images i) (seq 0 (length images))
  = true ->
  shown (grid_log images (length images) n_cols img_type titled titles)
  = map (fun img => (img, if String.eqb img_type "gray" then Gray else Binary))
        (concat (map (take n_cols) images)).
Proof.
  intros Hok. set (m := if String.eqb img_type "gray" then Gray else Binary).
  unfold shown. rewrite grid_log_good by exact Hok. rewrite omap_flat_map.
  transitivity
    (flat_map (fun i =>
       (fun orow : option (list Img) =>
          flat_map (fun j => match @mbind option _ (list Img) Img (lookup j) orow with
                             | Some img => [(img, m)]
                             | None => []
                             end) (seq 0 n_cols)) (images !! i))
       (seq 0 (length images))).
  { apply flat_map_ext_In. intros i _. rewrite omap_flat_map.
    apply flat_map_ext_In. intros j _. unfold cell_log. fold m.
    destruct (images !! i ≫= (.!! j)); [|reflexivity].
    destruct (titled && truthy titles); reflexivity. }
  rewrite (flat_map_seq_lookup
             (fun orow : option (list Img) =>
                flat_map (fun j => match @mbind option _ (list Img) Img (lookup j) orow with
                                   | Some img => [(img, m)]
                                   | None => []
                                   end) (seq 0 n_cols))).
  clear Hok. induction images as [|row images' IH]; [reflexivity|].
  cbn [flat_map map concat mbind option_bind]. rewrite map_app, <- IH.
  f_equal. apply row_shown.
Qed.

Lemma subplots_grid_log images n_rows n_cols img_type titled titles :
  forallb (fun i => n_cols <=? row_length images i) (seq 0 n_rows) = true ->
  subplots (grid_log images n_rows n_cols img_type titled titles)
  = map (fun k => (n_rows, n_cols, k)) (seq 1 (n_rows * n_cols)).
Proof.
  intros Hok. rewrite <- grid_indices. unfold subplots.
  apply (omap_grid_log_cells _ (fun k => [(n_rows, n_cols, k)])); [exact Hok|].
  intros i j img Himg. unfold cell_log. rewrite Himg.
  destruct (titled && truthy titles); reflexivity.
Qed.

Lemma titles_grid_log images n_rows n_cols img_type titled titles :
  forallb (fun i => n_cols <=? row_length images i) (seq 0 n_rows) = true ->
  titles_set (grid_log images n_rows n_cols img_type titled titles)
  = if titled && truthy titles then replicate (n_rows * n_cols) titles else [].
Proof.
  intros Hok. destruct (titled && truthy titles) eqn:Ht.
  - rewrite <- (map_const_seq titles 1), <- grid_indices. unfold titles_set.
    apply (omap_grid_log_cells _ (fun _ => [titles])); [exact Hok|].
    intros i j img Himg. unfold cell_log. rewrite Himg, Ht. reflexivity.
  - unfold titles_set. rewrite grid_log_good by exact Hok.
    rewrite omap_flat_map. clear Hok.
    induction (seq 0 n_rows) as [|i l IH]; [reflexivity|].
    cbn [flat_map]. rewrite IH, app_nil_r. rewrite omap_flat_map.
    clear - Ht. induction (seq 0 n_cols) as [|j l IH]; [reflexivity|].
    cbn [flat_map]. rewrite IH, app_nil_r. unfold cell_log. rewrite Ht.
    destruct (images !! i ≫= (.!! j)); reflexivity.
Qed.

(** X12.  The layout [grid_plot] produces.  For a grid whose rows all
    have at least as many images as the first, the call returns the
    second of the two figures it creates, both of the size
    (figsize[0] * n_cols, figsize[1] * n_rows); in each of the two
    passes the subplot positions are 1, 2, ..., n_rows * n_cols in this
    order, on an n_rows by n_cols grid; the images shown are, in each
    pass, the first n_cols images of each row, row after row (images a
    row has beyond the length of the first row are never shown), with
    the gray colour map when [img_type] is "gray" and the binary one for
    any other value; when [titles] is truthy [plt.title] is called
    n_rows * n_cols times in all, that is for the cells of one pass
    only, each time with [titles] itself, and when it is falsy no title
    is set; and the last call is [plt.show()]. *)
Theorem X12_grid_plot_layout
    env isdir images first figsize img_type titles folder :
  images !! 0 = Some first ->
  Forall (fun row => length first <= length row) images ->
  let n_rows := length images in
  let n_cols := length first in
  let size := (fst figsize * Z.of_nat n_cols, snd figsize * Z.of_nat n_rows)%Z in
  let once :=
    map (fun img => (img, if String.eqb img_type "gray" then Gray else Binary))
        (concat (map (take n_cols) images)) in
  let res := grid_plot env isdir images figsize img_type titles folder [] in
  snd res = Ret 1
  /\ figures (fst res) = [size; size]
  /\ subplots (fst res)
     = map (fun k => (n_rows, n_cols, k))
           (seq 1 (n_rows * n_cols) ++ seq 1 (n_rows * n_cols))
  /\ shown (fst res) = once ++ once
  /\ titles_set (fst res)
     = (if truthy titles then replicate (n_rows * n_cols) titles else [])
  /\ last (fst res) = Some Show.
Proof.
  intros Hfirst Hall n_rows n_cols size once res. subst res.
  pose proof (rows_ok_true images n_cols Hall) as Hok.
  rewrite (grid_plot_spec env isdir images first figsize img_type titles folder
             Hfirst).
  cbv zeta. fold n_rows n_cols in Hok |- *. rewrite Hok. cbn [fst snd].
  split; [reflexivity|].
  pose proof (subplots_grid_log images n_rows n_cols img_type true titles Hok)
    as Hs1.
  pose proof (subplots_grid_log images n_rows n_cols img_type false titles Hok)
    as Hs2.
  pose proof (shown_grid_log images n_cols img_type true titles Hok) as Hi1.
  pose proof (shown_grid_log images n_cols img_type false titles Hok) as Hi2.
  pose proof (titles_grid_log images n_rows n_cols img_type true titles Hok)
    as Ht1.
  pose proof (titles_grid_log images n_rows n_cols img_type false titles Hok)
    as Ht2.
  fold n_rows in Hi1, Hi2. fold once in Hi1, Hi2.
  unfold subplots in Hs1, Hs2. unfold shown in Hi1, Hi2.
  unfold titles_set in Ht1, Ht2.
  split; [|split; [|split; [|split]]].
  - unfold figures. rewrite !omap_app.
    rewrite !omap_grid_log_nil by reflexivity.
    rewrite !omap_save_log_nil by reflexivity. reflexivity.
  - unfold subplots. rewrite !omap_app, Hs1, Hs2.
    rewrite !omap_save_log_nil by reflexivity.
    cbn [omap list_omap app]. rewrite app_nil_r, map_app. reflexivity.
  - unfold shown. rewrite !omap_app, Hi1, Hi2.
    rewrite !omap_save_log_nil by reflexivity.
    cbn [omap list_omap app]. rewrite app_nil_r. reflexivity.
  - unfold titles_set. rewrite !omap_app, Ht1, Ht2.
    rewrite !omap_save_log_nil by reflexivity.
    cbn [omap list_omap app andb]. rewrite app_nil_r. reflexivity.
  - rewrite !app_assoc. apply last_snoc.
Qed.


(** X13.  The files [grid_plot] writes.  For a grid whose rows all have
    at least as many images as the first: when [titles] is falsy no
    directory is made and nothing is saved; when it is truthy exactly
    two files are saved, the first figure as folder/titles.png and then
    the second as folder_notitles/titles.png,
    and [os.mkdir] is called for each of the two directories that does
    not exist, and for no other. *)
Theorem X13_grid_plot_files
    env isdir images first figsize img_type titles folder :
  images !! 0 = Some first ->
  Forall (fun row => length first <= length row) images ->
  let res := grid_plot env isdir images figsize img_type titles folder [] in
  let name := format env titles in
  saved (fst res)
  = (if truthy titles
     then [(0, folder +:+ "/" +:+ name +:+ ".png");
           (1, (folder +:+ "_notitles") +:+ "/" +:+ name +:+ ".png")]
     else [])
  /\ made (fst res)
     = (if truthy titles
        then (if isdir folder then [] else [folder])
             ++ (if isdir (folder +:+ "_notitles") then []
                 else [folder +:+ "_notitles"])
        else []).
Proof.
  intros Hfirst Hall res name. subst res name.
  pose proof (rows_ok_true images (length first) Hall) as Hok.
  rewrite (grid_plot_spec env isdir images first figsize img_type titles folder
             Hfirst).
  cbv zeta. rewrite Hok. cbn [fst snd].
  split.
  - unfold saved. rewrite !omap_app.
    rewrite !omap_grid_log_nil by reflexivity.
    unfold save_log. destruct (truthy titles); [|reflexivity].
    destruct (isdir folder), (isdir (folder +:+ "_notitles")); reflexivity.
  - unfold made. rewrite !omap_app.
    rewrite !omap_grid_log_nil by reflexivity.
    unfold save_log. destruct (truthy titles); [|reflexivity].
    destruct (isdir folder), (isdir (folder +:+ "_notitles")); reflexivity.
Qed.


(** X14.  With the matplotlib calls taken to return normally, a grid
    with no row, or with a row that has fewer images than the first,
    makes [grid_plot] raise an [IndexError]; this happens before
    anything is written or displayed: no directory is made, no file is
    saved, [plt.show()] is not called, and at most the first figure has
    been created. *)
Theorem X14_grid_plot_ragged
    env isdir (images : list (list Img)) figsize img_type titles folder :
  ragged images ->
  let res := grid_plot env isdir images figsize img_type titles folder [] in
  snd res = Raise (Exn IndexError None)
  /\ made (fst res) = []
  /\ saved (fst res) = []
  /\ shows (fst res) = []
  /\ length (figures (fst res)) <= 1.
Proof.
  intros Hragged res. subst res. destruct images as [|first rest].
  - cbn. repeat split; auto.
  - cbn [ragged] in Hragged.
    rewrite (grid_plot_spec env isdir (first :: rest) first figsize img_type
               titles folder eq_refl).
    cbv zeta. rewrite (rows_ok_false _ _ Hragged). cbn [fst snd].
    split; [reflexivity|].
    unfold made, saved, shows, figures. rewrite !omap_app.
    rewrite !omap_grid_log_nil by reflexivity.
    repeat split; auto.
Qed.
End GridMore.

(** X12, on a concrete input. *)
Lemma X12_grid_plot_layout_witness :
  let images := [[10; 11]; [20; 21; 22]] in
  let res := grid_plot plain_env (fun _ => false) images (3, 5)%Z "rgb"
               (VStr "run") "sim2real" [] in
  let once := map (fun img => (img, if String.eqb "rgb" "gray" then Gray else Binary))
                  (concat (map (take (length [10; 11])) images)) in
  snd res = Ret 1
  /\ figures (fst res)
     = [((fst (3, 5) * Z.of_nat (length [10; 11]))%Z,
         (snd (3, 5) * Z.of_nat (length images))%Z);
        ((fst (3, 5) * Z.of_nat (length [10; 11]))%Z,
         (snd (3, 5) * Z.of_nat (length images))%Z)]
  /\ subplots (fst res)
     = map (fun k => (length images, length [10; 11], k))
           (seq 1 (length images * length [10; 11])
            ++ seq 1 (length images * length [10; 11]))
  /\ shown (fst res) = once ++ once
  /\ titles_set (fst res)
     = (if truthy (VStr "run")
        then replicate (length images * length [10; 11]) (VStr "run") else [])
  /\ last (fst res) = Some Show.
Proof.
  apply (X12_grid_plot_layout plain_env (fun _ => false)
           [[10; 11]; [20; 21; 22]] [10; 11] (3, 5)%Z "rgb" (VStr "run")
           "sim2real").
  - reflexivity.
  - repeat constructor.
Defined.

(** X13, on a concrete input. *)
Lemma X13_grid_plot_files_witness :
  let res := grid_plot plain_env (String.eqb "sim2real")
               [[10; 11]; [20; 21; 22]] (3, 5)%Z "rgb" (VStr "run")
               "sim2real" [] in
  saved (fst res)
  = (if truthy (VStr "run")
     then [(0, "sim2real" +:+ "/" +:+ format plain_env (VStr "run") +:+ ".png");
           (1, ("sim2real" +:+ "_notitles") +:+ "/"
                 +:+ format plain_env (VStr "run") +:+ ".png")]
     else [])
  /\ made (fst res)
     = (if truthy (VStr "run")
        then (if String.eqb "sim2real" "sim2real" then [] else ["sim2real"])
             ++ (if String.eqb "sim2real" ("sim2real" +:+ "_notitles") then []
                 else ["sim2real" +:+ "_notitles"])
        else []).
Proof.
  apply (X13_grid_plot_files plain_env (String.eqb "sim2real")
           [[10; 11]; [20; 21; 22]] [10; 11] (3, 5)%Z "rgb" (VStr "run")
           "sim2real").
  - reflexivity.
  - repeat constructor.
Defined.

(** X14, on a concrete input. *)
Lemma X14_grid_plot_ragged_witness :
  let res := grid_plot plain_env (fun _ => false)
               [[10; 11; 12]; [20; 21]] (3, 5)%Z "gray" (VStr "run")
               "sim2real" [] in
  snd res = Raise (Exn IndexError None)
  /\ made (fst res) = []
  /\ saved (fst res) = []
  /\ shows (fst res) = []
  /\ length (figures (fst res)) <= 1.
Proof.
  apply (X14_grid_plot_ragged plain_env (fun _ => false)
           [[10; 11; 12]; [20; 21]] (3, 5)%Z "gray" (VStr "run") "sim2real").
  cbn. right. left. cbn. lia.
Defined.

(** ** [_convert_euler_rotations_to_scatter_points]: the points *)

Section RotationMore.
Import Reals Lra Rotation.
Local Open Scope R_scope.

Lemma sin_cos_one (t : R) : sin t * sin t + cos t * cos t = 1.
Proof. pose proof (sin2_cos2 t) as H. unfold Rsqr in H. exact H. Qed.

Lemma scatter_point_on_unit_sphere pd x_col y_col z_col r :
  on_unit_sphere (scatter_point pd x_col y_col z_col r).
Proof.
  pose proof (sin_cos_one (radians (r x_col))) as Hx.
  pose proof (sin_cos_one (radians (r y_col))) as Hy.
  set (sx := sin (radians (r x_col))) in *.
  set (cx := cos (radians (r x_col))) in *.
  set (sy := sin (radians (r y_col))) in *.
  set (cy := cos (radians (r y_col))) in *.
  destruct z_col as [z_col|].
  - pose proof (sin_cos_one (radians (r z_col))) as Hz.
    set (sz := sin (radians (r z_col))) in *.
    set (cz := cos (radians (r z_col))) in *.
    cbv beta iota zeta delta [scatter_point on_unit_sphere dot].
    fold sx cx sy cy sz cz.
    transitivity ((sz * sz + cz * cz) * (sx * sx + cx * cx * (sy * sy))
                  + cx * cx * (cy * cy)); [ring|].
    rewrite Hz, Rmult_1_l.
    transitivity (sx * sx + cx * cx * (sy * sy + cy * cy)); [ring|].
    rewrite Hy, Rmult_1_r. exact Hx.
  - cbv beta iota zeta delta [scatter_point on_unit_sphere dot].
    fold sx cx sy cy.
    transitivity (sx * sx + cx * cx * (sy * sy + cy * cy)); [ring|].
    rewrite Hy, Rmult_1_r. exact Hx.
Qed.

Lemma unit_sphere_in_ranges p : on_unit_sphere p -> in_axis_ranges p.
Proof.
  destruct p as [[[a b] c] text]. unfold on_unit_sphere, in_axis_ranges.
  intros H. pose proof (Rle_0_sqr a) as Ha. pose proof (Rle_0_sqr b) as Hb.
  pose proof (Rle_0_sqr c) as Hc. unfold Rsqr in *.
  repeat split; nra.
Qed.

(** X15.  With the trigonometric functions and the arithmetic taken
    exact, every point the generator yields lies on the unit sphere,
    whether a z rotation is given or not and whether the rows are
    sampled or not; its three coordinates are therefore within the
    range [-1, 1] that [rotation_plot] gives each axis. *)
Theorem X15_scatter_points_on_unit_sphere
    pd df x_col y_col z_col max_samples :
  Forall (fun p => on_unit_sphere p /\ in_axis_ranges p)
    (_convert_euler_rotations_to_scatter_points pd df x_col y_col z_col
       max_samples).
Proof.
  unfold _convert_euler_rotations_to_scatter_points.
  apply Forall_forall. intros p Hp.
  apply list_elem_of_fmap in Hp as (r & -> & _).
  pose proof (scatter_point_on_unit_sphere pd x_col y_col z_col r) as H.
  split; [exact H | apply unit_sphere_in_ranges, H].
Qed.
End RotationMore.
